(** * dash-dynamo-deluxe: the per-frame game loops of the racing game

    Shallow embedding of the two game loops of the repository,
    [src/components/RacingGame.tsx] (2D canvas) and the [RacingGame3D]
    component of [src/components/Car3D.tsx] (3D scene), followed by the
    properties of the simulation step.

    Modelling conventions.
    - A JavaScript [number] is an exact rational ([Q]); [Infinity] is the
      [None] of an [option Q]; [undefined] (the result of indexing an array
      out of range) is the [None] of an [option]; arithmetic on [undefined]
      gives [NaN], every comparison with which is [false].
    - [keysRef.current] is the list of the key codes held down.
    - [Math.random()] is an oracle: the [n]-th call made while one updater
      runs returns [rnd n]; the updater threads the call counter.
    - The state updater passed to [setGameState] is a pure function but for
      the call of [onGameEnd]; it returns the notification it emitted next
      to the new state.
    - Rounding is not modelled.  The properties of whole sessions are bounds
      and orders that the rounding of a double does not disturb, not closed
      forms of accumulated sums. *)

From Stdlib Require Import QArith Qminmax Qround Qabs Lqa ZArith Lia List String Bool.
From Stdlib Require Import Ascii DecimalString Sorted Permutation.
Import ListNotations.
Open Scope Q_scope.

(** ** JavaScript numbers, arrays and key sets *)

Module JS.

Definition ltb (a b : Q) : bool := negb (Qle_bool b a).
Definition leb (a b : Q) : bool := Qle_bool a b.
Definition gtb (a b : Q) : bool := ltb b a.
Definition geb (a b : Q) : bool := leb b a.

(** [Math.floor], [Math.round] (halves go up) and [Math.trunc]. *)
Definition floor (a : Q) : Z := Qfloor a.
Definition round (a : Q) : Z := Qfloor (a + 0.5).
Definition trunc (a : Q) : Z := Z.quot (Qnum a) (Zpos (Qden a)).

(** [a % m]: the remainder has the sign of the dividend. *)
Definition rem (a m : Q) : Q := a - m * inject_Z (trunc (a / m)).

(** [arr[i]] for an integer [i]: [undefined] out of range. *)
Definition index {A : Type} (arr : list A) (i : Z) : option A :=
  if (i <? 0)%Z then None else nth_error arr (Z.to_nat i).

Definition length {A : Type} (arr : list A) : Q :=
  inject_Z (Z.of_nat (List.length arr)).

(** [keys.has(code)] *)
Definition has (keys : list string) (code : string) : bool :=
  existsb (String.eqb code) keys.

End JS.

(** ** [Math.random] as an oracle with a call counter *)

Definition Rand (A : Type) : Type := (nat -> Q) -> nat -> A * nat.

Definition ret {A : Type} (a : A) : Rand A := fun _ n => (a, n).

Definition bind {A B : Type} (m : Rand A) (k : A -> Rand B) : Rand B :=
  fun rnd n => let (a, n') := m rnd n in k a rnd n'.

Definition random : Rand Q := fun rnd n => (rnd n, S n).

Notation "x <- m ;; k" := (bind m (fun x => k))
  (at level 61, m at next level, right associativity).

(** [arr.map(f)] for an [f] that calls [Math.random]: elements in order. *)
Fixpoint mapM {A B : Type} (f : A -> Rand B) (l : list A) : Rand (list B) :=
  match l with
  | [] => ret []
  | a :: l' => b <- f a ;; bs <- mapM f l' ;; ret (b :: bs)
  end.

(** [Array.from({ length: n }, (_, i) => f(i))], from index [i]. *)
Fixpoint arrayFrom {B : Type} (f : Z -> Rand B) (n : nat) (i : Z) : Rand (list B) :=
  match n with
  | O => ret []
  | S n' => b <- f i ;; bs <- arrayFrom f n' (i + 1)%Z ;; ret (b :: bs)
  end.

(** The oracle keeps the contract of [Math.random]: a value in [[0, 1)]. *)
Definition unit_interval (rnd : nat -> Q) : Prop := forall n, 0 <= rnd n /\ rnd n < 1.

(** What one animation frame reads from its environment. *)
Record Input : Type := mkInput {
  keys : list string;
  rnd : nat -> Q
}.

(** [onGameEnd(score, time)] *)
Definition Notification : Type := (Q * Q)%type.

(** [export type GameMode] *)
Inductive GameMode : Type :=
  | classic | timeAttack | quickRace | endless | competition.

(** ** The 3D game: [RacingGame3D] of [Car3D.tsx] *)

Module RacingGame3D.

Record Enemy : Type := mkEnemy {
  e_x : option Q;            (* x: LANES[...] may be undefined *)
  e_z : Q;
  e_speed : Q;
  e_lane : Z;
  e_color : option string;
  e_aggressiveness : Q
}.

Record GameState : Type := mkGameState {
  mode : GameMode;
  score : Q;
  time : Q;
  speed : Q;
  position : Q;
  lap : Z;
  isPlaying : bool;
  isPaused : bool;
  gameOver : bool;
  playerX : Q;
  enemies : list Enemy;
  roadOffset : Q;
  countdown : Z;
  nitroBoost : Q;
  health : Q;
  perfectDriving : Z;
  lastCollision : Q;
  competitionRank : Z
}.

Record ModeConfig : Type := mkModeConfig {
  timeLimit : option Q;      (* None is Infinity *)
  targetScore : option Q;
  cfg_enemies : nat;
  maxSpeed : Q;
  hasNitro : bool;
  hasHealth : bool;
  aggressiveAI : bool
}.

Definition LANES : list Q := [-2; 0; 2].
Definition LANE_WIDTH : Q := 2.
Definition ENEMY_COLORS : list string :=
  ["#ff4444"; "#44ff44"; "#4444ff"; "#ffff44"; "#ff44ff"; "#44ffff"]%string.

Definition getModeConfig (m : GameMode) : ModeConfig :=
  match m with
  | timeAttack => mkModeConfig (Some 60) (Some 10000) 8 15 false false false
  | quickRace => mkModeConfig (Some 30) (Some 5000) 6 12 false false false
  | competition => mkModeConfig (Some 120) (Some 25000) 15 20 true true true
  | endless => mkModeConfig None None 10 18 false false false
  | classic => mkModeConfig (Some 90) (Some 15000) 8 15 false false false
  end.

(** [useState<GameState>({ mode, score: 0, ... })] *)
Definition initialState (m : GameMode) : GameState :=
  {| mode := m; score := 0; time := 0; speed := 5; position := 0; lap := 1;
     isPlaying := false; isPaused := false; gameOver := false; playerX := 0;
     enemies := []; roadOffset := 0; countdown := 3; nitroBoost := 100;
     health := 100; perfectDriving := 0; lastCollision := 0;
     competitionRank := 1 |}.

(** One element of the [Array.from] of [initGame]. *)
Definition initEnemy (config : ModeConfig) (i : Z) : Rand Enemy :=
  r_x <- random ;;
  r_speed <- random ;;
  r_lane <- random ;;
  r_color <- random ;;
  aggr <- (if aggressiveAI config
           then r <- random ;; ret (r * 0.5 + 0.5)
           else ret 0.2) ;;
  ret {| e_x := JS.index LANES (JS.floor (r_x * JS.length LANES));
         e_z := - inject_Z i * 3 - 5;
         e_speed := 3 + r_speed * 2;
         e_lane := JS.floor (r_lane * JS.length LANES);
         e_color := JS.index ENEMY_COLORS (JS.floor (r_color * JS.length ENEMY_COLORS));
         e_aggressiveness := aggr |}.

(** [initGame]: every field but [mode] is reset. *)
Definition initGame (rnd : nat -> Q) (prev : GameState) : GameState :=
  let config := getModeConfig (mode prev) in
  {| mode := mode prev; score := 0; time := 0; speed := 5; position := 0; lap := 1;
     isPlaying := false; isPaused := false; gameOver := false; playerX := 0;
     enemies := fst (arrayFrom (initEnemy config) (cfg_enemies config) 0%Z rnd O);
     roadOffset := 0; countdown := 3; nitroBoost := 100;
     health := 100; perfectDriving := 0; lastCollision := 0;
     competitionRank := 1 |}.

(** The last update of [startCountdown]:
    [prev => ({ ...prev, isPlaying: true, countdown: 0 })]. *)
Definition countdownEnd (prev : GameState) : GameState :=
  {| mode := mode prev; score := score prev; time := time prev; speed := speed prev;
     position := position prev; lap := lap prev;
     isPlaying := true; isPaused := isPaused prev; gameOver := gameOver prev;
     playerX := playerX prev; enemies := enemies prev; roadOffset := roadOffset prev;
     countdown := 0; nitroBoost := nitroBoost prev; health := health prev;
     perfectDriving := perfectDriving prev; lastCollision := lastCollision prev;
     competitionRank := competitionRank prev |}.

(** *** The pieces of [gameLoop], in the order of the source *)

(** Lines 391-400: lateral control. *)
Definition newPlayerX (keys : list string) (prev : GameState) : Q :=
  let newPlayerX := playerX prev in
  let newPlayerX :=
    if JS.has keys "ArrowLeft" && JS.gtb newPlayerX (-4)
    then newPlayerX - 0.1 else newPlayerX in
  let newPlayerX :=
    if JS.has keys "ArrowRight" && JS.ltb newPlayerX 4
    then newPlayerX + 0.1 else newPlayerX in
  newPlayerX.

(** Lines 401-407: accelerate, brake or coast. *)
Definition throttle (config : ModeConfig) (keys : list string) (prev : GameState) : Q :=
  if JS.has keys "ArrowUp" then Qmin (speed prev + 0.3) (maxSpeed config)
  else if JS.has keys "ArrowDown" then Qmax (speed prev - 0.5) 2
  else Qmax (speed prev - 0.1) 5.

(** Line 410: the test that sets [usedNitro]. *)
Definition usedNitro (config : ModeConfig) (keys : list string) (prev : GameState) : bool :=
  hasNitro config && JS.has keys "ShiftLeft" && JS.gtb (nitroBoost prev) 0.

(** Lines 401-416: [newSpeed] once the nitro boost is applied. *)
Definition newSpeed (config : ModeConfig) (keys : list string) (prev : GameState) : Q :=
  let newSpeed := throttle config keys prev in
  if usedNitro config keys prev
  then Qmin (newSpeed + 0.8) (maxSpeed config + 5)
  else newSpeed.

(** Lines 410-416: the nitro meter. *)
Definition newNitroBoost (config : ModeConfig) (keys : list string) (prev : GameState) : Q :=
  if usedNitro config keys prev then Qmax (nitroBoost prev - 0.5) 0
  else if hasNitro config && negb (usedNitro config keys prev)
       then Qmin (nitroBoost prev + 0.1) 100
       else nitroBoost prev.

(** Lines 424-426: the perfect-driving counter. *)
Definition newPerfectDriving (config : ModeConfig) (keys : list string) (prev : GameState) : Z :=
  if JS.ltb (Qabs (newPlayerX keys prev)) 1
     && JS.gtb (newSpeed config keys prev) (maxSpeed config * 0.8)
  then (perfectDriving prev + 1)%Z else perfectDriving prev.

(** Lines 429-463: the callback of [prev.enemies.map]. *)
Definition updateEnemy (config : ModeConfig) (newPlayerX : Q) (enemy : Enemy) : Rand Enemy :=
  let newZ := e_z enemy + e_speed enemy in
  let newX := e_x enemy in
  let newLane := e_lane enemy in
  if JS.gtb newZ 15 then
    (* Respawn enemy if too far ahead *)
    r_z <- random ;;
    let newZ := -20 - r_z * 10 in
    r_lane <- random ;;
    let newLane := JS.floor (r_lane * JS.length LANES) in
    let newX := JS.index LANES newLane in
    r_speed <- random ;;
    r_color <- random ;;
    ret {| e_x := newX; e_z := newZ; e_lane := newLane;
           e_speed := 3 + r_speed * 3;
           e_color := JS.index ENEMY_COLORS (JS.floor (r_color * JS.length ENEMY_COLORS));
           e_aggressiveness := e_aggressiveness enemy |}
  else if aggressiveAI config && negb (Qeq_bool (e_aggressiveness enemy) 0) then
    (* Competition mode: Aggressive AI *)
    let distanceToPlayer := Qabs (newZ - 0) in
    if JS.ltb distanceToPlayer 5 then
      r <- random ;;
      if JS.ltb r (e_aggressiveness enemy * 0.1) then
        (* Try to block player *)
        let playerLane := JS.round ((newPlayerX + 2) / 2) in
        if (Z.abs (e_lane enemy - playerLane) =? 1)%Z then
          ret {| e_x := JS.index LANES playerLane; e_z := newZ; e_lane := playerLane;
                 e_speed := e_speed enemy; e_color := e_color enemy;
                 e_aggressiveness := e_aggressiveness enemy |}
        else
          ret {| e_x := newX; e_z := newZ; e_lane := newLane;
                 e_speed := e_speed enemy; e_color := e_color enemy;
                 e_aggressiveness := e_aggressiveness enemy |}
      else
        ret {| e_x := newX; e_z := newZ; e_lane := newLane;
               e_speed := e_speed enemy; e_color := e_color enemy;
               e_aggressiveness := e_aggressiveness enemy |}
    else
      ret {| e_x := newX; e_z := newZ; e_lane := newLane;
             e_speed := e_speed enemy; e_color := e_color enemy;
             e_aggressiveness := e_aggressiveness enemy |}
  else
    ret {| e_x := newX; e_z := newZ; e_lane := newLane;
           e_speed := e_speed enemy; e_color := e_color enemy;
           e_aggressiveness := e_aggressiveness enemy |}.

Definition newEnemies (config : ModeConfig) (i : Input) (prev : GameState) : list Enemy :=
  fst (mapM (updateEnemy config (newPlayerX (keys i) prev)) (enemies prev) (rnd i) O).

(** Lines 466-487: the overlap test of [playerRect] and [enemyRect];
    an undefined [enemy.x] makes every comparison false. *)
Definition overlaps (newPlayerX : Q) (enemy : Enemy) : bool :=
  match e_x enemy with
  | None => false
  | Some x =>
      let playerRect_x := newPlayerX - 0.4 in
      let playerRect_z := -0.8 in
      let enemyRect_x := x - 0.4 in
      let enemyRect_z := e_z enemy - 0.8 in
      JS.ltb playerRect_x (enemyRect_x + 0.8)
      && JS.gtb (playerRect_x + 0.8) enemyRect_x
      && JS.ltb playerRect_z (enemyRect_z + 1.6)
      && JS.gtb (playerRect_z + 1.6) enemyRect_z
  end.

(** Lines 473-491: the loop stops at the first overlap. *)
Definition collisionDetected (config : ModeConfig) (i : Input) (prev : GameState) : bool :=
  existsb (overlaps (newPlayerX (keys i) prev)) (newEnemies config i prev).

(** Lines 496-499: [newState.health]. *)
Definition newHealth (config : ModeConfig) (i : Input) (prev : GameState) : Q :=
  if collisionDetected config i prev && hasHealth config
  then Qmax (health prev - 10) 0 else health prev.

(** Lines 493-508: does the collision of this frame end the game? *)
Definition collisionEnds (config : ModeConfig) (i : Input) (prev : GameState) : bool :=
  collisionDetected config i prev &&
  (if hasHealth config then JS.leb (newHealth config i prev) 0 else true).

(** Lines 511-514 *)
Definition scoreMultiplier (config : ModeConfig) (i : Input) (prev : GameState) : Q :=
  let scoreMultiplier := 1 in
  let scoreMultiplier :=
    if hasNitro config && usedNitro config (keys i) prev
    then scoreMultiplier + 0.5 else scoreMultiplier in
  let scoreMultiplier :=
    if (newPerfectDriving config (keys i) prev >? 60)%Z
    then scoreMultiplier + 0.3 else scoreMultiplier in
  let scoreMultiplier :=
    if JS.gtb (newSpeed config (keys i) prev) (maxSpeed config * 0.9)
    then scoreMultiplier + 0.2 else scoreMultiplier in
  scoreMultiplier.

(** Lines 519-526 *)
Definition newCompetitionRank (config : ModeConfig) (i : Input) (prev : GameState) : Z :=
  if aggressiveAI config then
    let rank :=
      fold_left (fun rank enemy => if JS.gtb (e_z enemy) 0 then (rank + 1)%Z else rank)
                (newEnemies config i prev) 1%Z in
    Z.min rank (Z.of_nat (cfg_enemies config) + 1)
  else competitionRank prev.

(** Line 529 *)
Definition timeIsUp (config : ModeConfig) (newTime : Q) : bool :=
  match timeLimit config with
  | None => false
  | Some limit => JS.geb newTime limit
  end.

(** *** The state updater of [gameLoop] (lines 383-539) *)
Definition gameLoop (i : Input) (prev : GameState) : GameState * option Notification :=
  let config := getModeConfig (mode prev) in
  let newTime := time prev + 1 / 60 in
  let speed' := newSpeed config (keys i) prev in
  let ended :=
    gameOver prev || collisionEnds config i prev || timeIsUp config newTime in
  let newState :=
    {| mode := mode prev;
       score := score prev + speed' * 10 * scoreMultiplier config i prev;
       time := newTime;
       speed := speed';
       position := position prev + speed';
       lap := lap prev;
       isPlaying :=
         if collisionEnds config i prev || timeIsUp config newTime
         then false else isPlaying prev;
       isPaused := isPaused prev;
       gameOver := ended;
       playerX := newPlayerX (keys i) prev;
       enemies := newEnemies config i prev;
       roadOffset := JS.rem (roadOffset prev + speed') 10;
       countdown := countdown prev;
       nitroBoost := newNitroBoost config (keys i) prev;
       health := newHealth config i prev;
       perfectDriving := newPerfectDriving config (keys i) prev;
       lastCollision :=
         if collisionDetected config i prev then newTime else lastCollision prev;
       competitionRank := newCompetitionRank config i prev |} in
  (newState,
   if gameOver newState then Some (score newState, time newState) else None).

(** The effect that owns the loop (line 380) requests animation frames only
    while [isPlaying && !isPaused]; otherwise no frame runs the updater. *)
Definition frame (i : Input) (s : GameState) : GameState * option Notification :=
  if negb (isPlaying s) || isPaused s then (s, None) else gameLoop i s.

(** A session: the frames of a list of inputs, oldest first, and the
    notifications they emit. *)
Fixpoint run (s : GameState) (inputs : list Input) : GameState * list Notification :=
  match inputs with
  | [] => (s, [])
  | i :: rest =>
      let (s', n) := frame i s in
      let (s'', ns) := run s' rest in
      (s'', match n with Some x => x :: ns | None => ns end)
  end.

(** The state in which the first frame runs: [initGame], then the end of
    the countdown. *)
Definition start (m : GameMode) (rnd0 : nat -> Q) : GameState :=
  countdownEnd (initGame rnd0 (initialState m)).

End RacingGame3D.

(** ** The 2D game: [RacingGame.tsx] *)

Module RacingGame.

Record Enemy : Type := mkEnemy {
  e_x : option Q;
  e_y : Q;
  e_speed : Q;
  e_lane : Z
}.

Record GameState : Type := mkGameState {
  mode : GameMode;
  score : Q;
  time : Q;
  speed : Q;
  position : Q;
  lap : Z;
  isPlaying : bool;
  isPaused : bool;
  gameOver : bool;
  playerX : Q;
  enemies : list Enemy;
  roadOffset : Q;
  countdown : Z
}.

Record ModeConfig : Type := mkModeConfig {
  timeLimit : option Q;      (* None is Infinity *)
  targetScore : option Q;
  cfg_enemies : nat
}.

Definition GAME_WIDTH : Q := 800.
Definition GAME_HEIGHT : Q := 600.
Definition ROAD_WIDTH : Q := 400.
Definition PLAYER_SPEED : Q := 5.
Definition ENEMY_SPEED : Q := 3.
Definition LANES : list Q := [-150; -50; 50; 150].

Definition getModeConfig (m : GameMode) : ModeConfig :=
  match m with
  | timeAttack => mkModeConfig (Some 60) (Some 10000) 8
  | quickRace => mkModeConfig (Some 30) (Some 5000) 6
  | competition => mkModeConfig (Some 120) (Some 25000) 12
  | endless => mkModeConfig None None 10
  | classic => mkModeConfig (Some 90) (Some 15000) 8
  end.

Definition initialState (m : GameMode) : GameState :=
  {| mode := m; score := 0; time := 0; speed := 0; position := 0; lap := 1;
     isPlaying := false; isPaused := false; gameOver := false; playerX := 0;
     enemies := []; roadOffset := 0; countdown := 3 |}.

Definition initEnemy (i : Z) : Rand Enemy :=
  r_x <- random ;;
  r_speed <- random ;;
  r_lane <- random ;;
  ret {| e_x := JS.index LANES (JS.floor (r_x * JS.length LANES));
         e_y := - inject_Z i * 150 - 100;
         e_speed := ENEMY_SPEED + r_speed * 2;
         e_lane := JS.floor (r_lane * JS.length LANES) |}.

Definition initGame (rnd : nat -> Q) (prev : GameState) : GameState :=
  let config := getModeConfig (mode prev) in
  {| mode := mode prev; score := 0; time := 0; speed := 0; position := 0; lap := 1;
     isPlaying := false; isPaused := false; gameOver := false; playerX := 0;
     enemies := fst (arrayFrom initEnemy (cfg_enemies config) 0%Z rnd O);
     roadOffset := 0; countdown := 3 |}.

Definition countdownEnd (prev : GameState) : GameState :=
  {| mode := mode prev; score := score prev; time := time prev; speed := speed prev;
     position := position prev; lap := lap prev;
     isPlaying := true; isPaused := isPaused prev; gameOver := gameOver prev;
     playerX := playerX prev; enemies := enemies prev; roadOffset := roadOffset prev;
     countdown := 0 |}.

(** Lines 188-196 *)
Definition newPlayerX (keys : list string) (prev : GameState) : Q :=
  let newPlayerX := playerX prev in
  let newPlayerX :=
    if JS.has keys "ArrowLeft" && JS.gtb newPlayerX (- ROAD_WIDTH / 2 + 40)
    then newPlayerX - PLAYER_SPEED else newPlayerX in
  let newPlayerX :=
    if JS.has keys "ArrowRight" && JS.ltb newPlayerX (ROAD_WIDTH / 2 - 40)
    then newPlayerX + PLAYER_SPEED else newPlayerX in
  newPlayerX.

(** Lines 197-203 *)
Definition newSpeed (keys : list string) (prev : GameState) : Q :=
  if JS.has keys "ArrowUp" then Qmin (speed prev + 0.5) 15
  else if JS.has keys "ArrowDown" then Qmax (speed prev - 1) 0
  else Qmax (speed prev - 0.2) 5.

(** Lines 211-223: the callback of [prev.enemies.map]. *)
Definition updateEnemy (newSpeed : Q) (enemy : Enemy) : Rand Enemy :=
  let newY := e_y enemy + e_speed enemy + newSpeed * 0.5 in
  if JS.gtb newY (GAME_HEIGHT + 100) then
    r_y <- random ;;
    let newY := -200 - r_y * 500 in
    r_x <- random ;;
    r_speed <- random ;;
    ret {| e_x := JS.index LANES (JS.floor (r_x * JS.length LANES));
           e_y := newY;
           e_speed := ENEMY_SPEED + r_speed * 3;
           e_lane := e_lane enemy |}
  else
    ret {| e_x := e_x enemy; e_y := newY;
           e_speed := e_speed enemy; e_lane := e_lane enemy |}.

Definition newEnemies (i : Input) (prev : GameState) : list Enemy :=
  fst (mapM (updateEnemy (newSpeed (keys i) prev)) (enemies prev) (rnd i) O).

(** Lines 226-246 *)
Definition overlaps (newPlayerX : Q) (enemy : Enemy) : bool :=
  match e_x enemy with
  | None => false
  | Some x =>
      let playerRect_x := newPlayerX - 25 in
      let playerRect_y := GAME_HEIGHT - 120 in
      let enemyRect_x := x - 25 in
      let enemyRect_y := e_y enemy in
      JS.ltb playerRect_x (enemyRect_x + 50)
      && JS.gtb (playerRect_x + 50) enemyRect_x
      && JS.ltb playerRect_y (enemyRect_y + 80)
      && JS.gtb (playerRect_y + 80) enemyRect_y
  end.

(** Lines 233-251: any overlap ends the game, in every mode. *)
Definition collisionDetected (i : Input) (prev : GameState) : bool :=
  existsb (overlaps (newPlayerX (keys i) prev)) (newEnemies i prev).

(** Line 257 *)
Definition timeIsUp (config : ModeConfig) (newTime : Q) : bool :=
  match timeLimit config with
  | None => false
  | Some limit => JS.geb newTime limit
  end.

(** The state updater of [gameLoop] (lines 180-267). *)
Definition gameLoop (i : Input) (prev : GameState) : GameState * option Notification :=
  let config := getModeConfig (mode prev) in
  let newTime := time prev + 1 / 60 in
  let speed' := newSpeed (keys i) prev in
  let ended :=
    gameOver prev || collisionDetected i prev || timeIsUp config newTime in
  let newState :=
    {| mode := mode prev;
       score := score prev + speed' * 10;
       time := newTime;
       speed := speed';
       position := position prev + speed';
       lap := lap prev;
       isPlaying :=
         if collisionDetected i prev || timeIsUp config newTime
         then false else isPlaying prev;
       isPaused := isPaused prev;
       gameOver := ended;
       playerX := newPlayerX (keys i) prev;
       enemies := newEnemies i prev;
       roadOffset := JS.rem (roadOffset prev + speed') 100;
       countdown := countdown prev |} in
  (newState,
   if gameOver newState then Some (score newState, time newState) else None).

(** The effect that owns the loop (line 177). *)
Definition frame (i : Input) (s : GameState) : GameState * option Notification :=
  if negb (isPlaying s) || isPaused s then (s, None) else gameLoop i s.

Fixpoint run (s : GameState) (inputs : list Input) : GameState * list Notification :=
  match inputs with
  | [] => (s, [])
  | i :: rest =>
      let (s', n) := frame i s in
      let (s'', ns) := run s' rest in
      (s'', match n with Some x => x :: ns | None => ns end)
  end.

Definition start (m : GameMode) (rnd0 : nat -> Q) : GameState :=
  countdownEnd (initGame rnd0 (initialState m)).

End RacingGame.

(** The time limits as the specification lists them, in seconds;
    [None]: the mode has no time limit. *)
Definition spec_timeLimit (m : GameMode) : option Q :=
  match m with
  | timeAttack => Some 60
  | quickRace => Some 30
  | classic => Some 90
  | competition => Some 120
  | endless => None
  end.


(** ** Vocabulary of the properties of the 3D loop *)

Module Spec3D.
Import RacingGame3D.

(** The highest speed a mode allows: the boost ceiling of 5 is added in
    the modes that have nitro. *)
Definition speedCeiling (config : ModeConfig) : Q :=
  maxSpeed config + (if hasNitro config then 5 else 0).

(** The number of frames of a session on which the loop ran and detected
    a collision. *)
Fixpoint collisionFrames (s : GameState) (inputs : list Input) : nat :=
  match inputs with
  | [] => O
  | i :: rest =>
      ((if isPlaying s && negb (isPaused s)
           && collisionDetected (getModeConfig (mode s)) i s
        then 1 else 0)
       + collisionFrames (fst (frame i s)) rest)%nat
  end.

(** The multiplier as the specification words it: 1, plus 0.5 when nitro
    was consumed, plus 0.3 when the perfect-driving counter exceeds 60,
    plus 0.2 when the speed exceeds 90% of the mode's maximum. *)
Definition spec_multiplier (nitroConsumed : bool) (perfect : Z) (v vmax : Q) : Q :=
  1 + (if nitroConsumed then 0.5 else 0)
    + (if (60 <? perfect)%Z then 0.3 else 0)
    + (if JS.ltb (0.9 * vmax) v then 0.2 else 0).

End Spec3D.


(** ** Vocabulary of the comparison of the two loops *)

(** The two states agree on the fields that both loops have, the enemies
    apart (their coordinates are screen pixels in 2D, scene units in 3D). *)
Definition shared_fields_agree (s2 : RacingGame.GameState)
           (s3 : RacingGame3D.GameState) : Prop :=
  RacingGame.mode s2 = RacingGame3D.mode s3
  /\ RacingGame.time s2 == RacingGame3D.time s3
  /\ RacingGame.speed s2 == RacingGame3D.speed s3
  /\ RacingGame.position s2 == RacingGame3D.position s3
  /\ RacingGame.playerX s2 == RacingGame3D.playerX s3
  /\ RacingGame.score s2 == RacingGame3D.score s3
  /\ RacingGame.isPlaying s2 = RacingGame3D.isPlaying s3
  /\ RacingGame.isPaused s2 = RacingGame3D.isPaused s3
  /\ RacingGame.gameOver s2 = RacingGame3D.gameOver s3.

(** An enemy of the 3D loop is in a lane: its lane index is an index of
    [LANES] and its lateral position is one of the lane coordinates. *)
Definition inLane (e : RacingGame3D.Enemy) : bool :=
  (0 <=? RacingGame3D.e_lane e)%Z
  && (RacingGame3D.e_lane e <? Z.of_nat (List.length RacingGame3D.LANES))%Z
  && match RacingGame3D.e_x e with
     | Some x => existsb (Qeq_bool x) RacingGame3D.LANES
     | None => false
     end.


(** ** Vocabulary of the properties; concrete sessions *)

Definition const_rnd (q : Q) : nat -> Q := fun _ => q.

(** Inputs of frames: no key held; accelerate with the boost key held. *)
Definition coasting : Input := mkInput [] (const_rnd 0.99).
Definition boosting : Input := mkInput ["ArrowUp"; "ShiftLeft"]%string (const_rnd 0.99).

(** Fourteen frames of nitro from the start of a competition session. *)
Definition nitro_burst : list Input := repeat boosting 14.

(** A classic 3D session in which every enemy starts in the middle lane:
    the first frame is a collision. *)
Definition idle : Input := mkInput [] (const_rnd 0.5).
Definition crash_start : RacingGame3D.GameState :=
  RacingGame3D.start classic (const_rnd 0.5).
Definition crashed : RacingGame3D.GameState :=
  fst (RacingGame3D.gameLoop idle crash_start).

(** The same start in competition mode: ten collision frames in a row. *)
Definition pileup_start : RacingGame3D.GameState :=
  RacingGame3D.start competition (const_rnd 0.5).

(** A competition session that steers right for 32 frames; the oracle
    sends one enemy to the right lane on frame 27 and lets the enemies
    block on frame 32. *)
Definition steer_right (q : Q) : Input := mkInput ["ArrowRight"]%string (const_rnd q).
Definition approach : list Input :=
  repeat (steer_right 0.2) 26 ++ [steer_right 0.99] ++ repeat (steer_right 0.2) 4.
Definition blocking_start : RacingGame3D.GameState :=
  RacingGame3D.start competition (const_rnd 0).

(** Sessions of the two loops after one frame without keys, and a frame
    with the accelerator held. *)
Definition calm : Input := mkInput [] (const_rnd 0).
Definition accelerate : Input := mkInput ["ArrowUp"]%string (const_rnd 0).
Definition after_one_2D : RacingGame.GameState :=
  fst (RacingGame.frame calm (RacingGame.start classic (const_rnd 0))).
Definition after_one_3D : RacingGame3D.GameState :=
  fst (RacingGame3D.frame calm (RacingGame3D.start classic (const_rnd 0))).


(** * The rest of the components *)

(** ** Counting over a session *)

Module Session3D.
Import RacingGame3D.

(** The number of frames of a session on which the loop ran. *)
Fixpoint framesRun (s : GameState) (inputs : list Input) : nat :=
  match inputs with
  | [] => O
  | i :: rest =>
      ((if isPlaying s && negb (isPaused s) then 1 else 0)
       + framesRun (fst (frame i s)) rest)%nat
  end.

(** The number of enemies in front of the player ([enemy.z > 0]). *)
Definition ahead (l : list Enemy) : Z :=
  Z.of_nat (List.length (filter (fun enemy => JS.gtb (e_z enemy) 0) l)).

(** What the session keeps true of every enemy, whatever the mode. *)
Definition enemy_ok (m : GameMode) (e : Enemy) : Prop :=
  3 <= e_speed e /\ e_speed e <= 6
  /\ -50 < e_z e /\ e_z e <= 15
  /\ (if aggressiveAI (getModeConfig m)
      then 0.5 <= e_aggressiveness e /\ e_aggressiveness e <= 1
      else e_aggressiveness e == 0.2).

End Session3D.

Module Session2D.
Import RacingGame.

(** An enemy of the 2D loop is on a lane coordinate and its lane index is
    an index of [LANES]. *)
Definition onLane (e : Enemy) : bool :=
  (0 <=? e_lane e)%Z && (e_lane e <? Z.of_nat (List.length LANES))%Z
  && match e_x e with
     | Some x => existsb (Qeq_bool x) LANES
     | None => false
     end.

(** What a 2D session keeps true of every enemy. *)
Definition enemy_ok (e : Enemy) : Prop :=
  onLane e = true /\ 3 <= e_speed e /\ e_speed e <= 6
  /\ e_y e <= GAME_HEIGHT + 100.


End Session2D.

(** ** Keyboard handlers and the countdown (both game components) *)

(** [Set.prototype.add] and [delete] on the list of held key codes. *)
Module KeySet.

Definition add (keys : list string) (code : string) : list string :=
  if JS.has keys code then keys else keys ++ [code].

Definition delete (keys : list string) (code : string) : list string :=
  filter (fun k => negb (String.eqb code k)) keys.

End KeySet.

(** A keyboard event: [keydown] or [keyup] of a key code. *)
Inductive KeyEvent : Type :=
  | KeyDown (code : string)
  | KeyUp (code : string).

Module Handlers3D.
Import RacingGame3D.

(** What [handleKeyDown] does: the new key set, the new state, whether it
    called [startCountdown] and whether it called [onBack]. *)
Record KeyDownResult : Type := mkKeyDownResult {
  kd_keys : list string;
  kd_state : GameState;
  kd_startCountdown : bool;
  kd_onBack : bool
}.

(** [prev => ({ ...prev, isPaused: !prev.isPaused })] *)
Definition togglePause (prev : GameState) : GameState :=
  {| mode := mode prev; score := score prev; time := time prev; speed := speed prev;
     position := position prev; lap := lap prev;
     isPlaying := isPlaying prev; isPaused := negb (isPaused prev);
     gameOver := gameOver prev;
     playerX := playerX prev; enemies := enemies prev; roadOffset := roadOffset prev;
     countdown := countdown prev; nitroBoost := nitroBoost prev; health := health prev;
     perfectDriving := perfectDriving prev; lastCollision := lastCollision prev;
     competitionRank := competitionRank prev |}.

(** Lines 350-363.  The handler is registered again whenever [isPlaying] or
    [gameOver] changes, so the [gameState] it reads is the current one. *)
Definition handleKeyDown (code : string) (keys : list string) (gameState : GameState)
  : KeyDownResult :=
  let keys' := KeySet.add keys code in
  let onBack := String.eqb code "Escape" in
  if String.eqb code "Space" then
    if negb (isPlaying gameState) && negb (gameOver gameState) then
      mkKeyDownResult keys' gameState true onBack
    else if isPlaying gameState then
      mkKeyDownResult keys' (togglePause gameState) false onBack
    else mkKeyDownResult keys' gameState false onBack
  else mkKeyDownResult keys' gameState false onBack.

(** Lines 365-367 *)
Definition handleKeyUp (code : string) (keys : list string) : list string :=
  KeySet.delete keys code.

(** The key set after a sequence of keyboard events, oldest first. *)
Definition keyEvent (gameState : GameState) (keys : list string) (e : KeyEvent)
  : list string :=
  match e with
  | KeyDown code => kd_keys (handleKeyDown code keys gameState)
  | KeyUp code => handleKeyUp code keys
  end.

(** [prev => ({ ...prev, countdown: count })] *)
Definition setCountdown (count : Z) (prev : GameState) : GameState :=
  {| mode := mode prev; score := score prev; time := time prev; speed := speed prev;
     position := position prev; lap := lap prev;
     isPlaying := isPlaying prev; isPaused := isPaused prev; gameOver := gameOver prev;
     playerX := playerX prev; enemies := enemies prev; roadOffset := roadOffset prev;
     countdown := count; nitroBoost := nitroBoost prev; health := health prev;
     perfectDriving := perfectDriving prev; lastCollision := lastCollision prev;
     competitionRank := competitionRank prev |}.

(** Lines 338-345: one firing of the interval of [startCountdown], on the
    local variable [count]; the result says whether the interval was
    cleared.  The updater [prev => ({ ...prev, countdown: count })] closes
    over the variable and runs when the component renders, after [count--]:
    it writes the decremented value. *)
Definition countdownTick (count : Z) (prev : GameState) : GameState * Z * bool :=
  let count := (count - 1)%Z in
  let s := setCountdown count prev in
  if (count <? 0)%Z then (countdownEnd s, count, true) else (s, count, false).

(** The firings of the interval, at most [n] of them, until it is cleared;
    the result counts the firings that happened. *)
Fixpoint countdownTicks (n : nat) (count : Z) (s : GameState) : GameState * nat :=
  match n with
  | O => (s, O)
  | S n' =>
      let '(s', count', cleared) := countdownTick count s in
      if cleared then (s', 1%nat)
      else let (s'', k) := countdownTicks n' count' s' in (s'', S k)
  end.

(** [startCountdown]: [let count = 3] and the interval. *)
Definition startCountdown (n : nat) (s : GameState) : GameState * nat :=
  countdownTicks n 3 s.

End Handlers3D.

(** ** The mounted component: keyboard, countdown intervals and frames *)

Module Component3D.
Import RacingGame3D.

(** The state of a mounted [RacingGame3D]: the game state, the local
    [count] of every countdown interval that is running, oldest first, and
    the set of held keys ([keysRef]). *)
Record Component : Type := mkComponent {
  game : GameState;
  intervals : list Z;
  held : list string
}.

(** What can happen to it: a keyboard event, the firing of the [k]-th
    running interval, an animation frame (with the oracle of its
    [Math.random] calls). *)
Inductive Event : Type :=
  | Keyboard (e : KeyEvent)
  | IntervalFires (k : nat)
  | AnimationFrame (rnd : nat -> Q).

(** The list without its [k]-th element, and with its [k]-th element
    replaced. *)
Fixpoint remove_nth {A : Type} (k : nat) (l : list A) : list A :=
  match l, k with
  | [], _ => []
  | _ :: l', O => l'
  | a :: l', S k' => a :: remove_nth k' l'
  end.

Fixpoint replace_nth {A : Type} (k : nat) (a : A) (l : list A) : list A :=
  match l, k with
  | [], _ => []
  | _ :: l', O => a :: l'
  | b :: l', S k' => b :: replace_nth k' a l'
  end.

Definition handle (c : Component) (e : Event) : Component * option Notification :=
  match e with
  | Keyboard (KeyDown code) =>
      let r := Handlers3D.handleKeyDown code (held c) (game c) in
      ({| game := Handlers3D.kd_state r;
          intervals := if Handlers3D.kd_startCountdown r
                       then intervals c ++ [3%Z] else intervals c;
          held := Handlers3D.kd_keys r |}, None)
  | Keyboard (KeyUp code) =>
      ({| game := game c; intervals := intervals c;
          held := Handlers3D.handleKeyUp code (held c) |}, None)
  | IntervalFires k =>
      match nth_error (intervals c) k with
      | None => (c, None)
      | Some count =>
          let '(s, count', cleared) := Handlers3D.countdownTick count (game c) in
          ({| game := s;
              intervals := if cleared then remove_nth k (intervals c)
                           else replace_nth k count' (intervals c);
              held := held c |}, None)
      end
  | AnimationFrame rnd =>
      let (s, n) := frame (mkInput (held c) rnd) (game c) in
      ({| game := s; intervals := intervals c; held := held c |}, n)
  end.

(** The component after a list of events, oldest first, and the
    notifications it emitted. *)
Fixpoint play (c : Component) (events : list Event) : Component * list Notification :=
  match events with
  | [] => (c, [])
  | e :: rest =>
      let (c', n) := handle c e in
      let (c'', ns) := play c' rest in
      (c'', match n with Some x => x :: ns | None => ns end)
  end.

(** The component once mounted: the effect of line 553 has run [initGame]. *)
Definition mounted (m : GameMode) (rnd0 : nat -> Q) : Component :=
  {| game := initGame rnd0 (initialState m); intervals := []; held := [] |}.

End Component3D.

(** Whether a key is down after a sequence of events, told from the events
    alone: the latest event of that key decides. *)
Definition heldAfter (code : string) (events : list KeyEvent) (before : bool) : bool :=
  fold_left (fun held e =>
               match e with
               | KeyDown c => if String.eqb c code then true else held
               | KeyUp c => if String.eqb c code then false else held
               end) events before.

(** ** [formatTime] (RacingGame.tsx, Car3D.tsx and Leaderboard.tsx) *)

Module Format.

(** [n.toString()] and the interpolation of an integer [n] in a template. *)
Definition toString (n : Z) : string := NilZero.string_of_int (Z.to_int n).

(** [s.padStart(targetLength, padString)]: the padding is [padString]
    repeated and cut to the missing length. *)
Definition padStart (s : string) (targetLength : nat) (padString : string) : string :=
  let missing := (targetLength - String.length s)%nat in
  (substring 0 missing (String.concat "" (repeat padString missing)) ++ s)%string.

Definition minutes (time : Q) : Z := JS.floor (time / 60).
Definition seconds (time : Q) : Z := JS.floor (JS.rem time 60).
Definition milliseconds (time : Q) : Z := JS.floor (JS.rem time 1 * 1000).

Definition formatTime (time : Q) : string :=
  (toString (minutes time) ++ ":" ++ padStart (toString (seconds time)) 2 "0"
   ++ "." ++ padStart (toString (milliseconds time)) 3 "0")%string.

End Format.

(** ** The leaderboard (Leaderboard.tsx) *)

Module Leaderboard.

Record LeaderboardEntry : Type := mkEntry {
  id : string;
  playerName : string;
  score : Q;
  time : Q;
  mode : GameMode;
  date : Z;                  (* a Date, as its time value *)
  rank : Z
}.

(** [{ [key in GameMode]: LeaderboardEntry[] }] *)
Definition LeaderboardData : Type := GameMode -> list LeaderboardEntry.

Definition GameMode_eqb (a b : GameMode) : bool :=
  match a, b with
  | classic, classic | timeAttack, timeAttack | quickRace, quickRace
  | endless, endless | competition, competition => true
  | _, _ => false
  end.

(** [Array.prototype.sort] with the comparator [(a, b) => b.score - a.score]:
    the sort is stable, so the result is the one of inserting every element
    in front of the sorted rest, after the entries with a greater score. *)
Fixpoint insert (a : LeaderboardEntry) (l : list LeaderboardEntry) : list LeaderboardEntry :=
  match l with
  | [] => [a]
  | b :: l' => if JS.gtb (score b - score a) 0 then b :: insert a l' else a :: l
  end.

Fixpoint sort (l : list LeaderboardEntry) : list LeaderboardEntry :=
  match l with
  | [] => []
  | a :: l' => insert a (sort l')
  end.

(** [.map((entry, index) => ({ ...entry, rank: index + 1 }))], from [index]. *)
Fixpoint rerank (index : Z) (l : list LeaderboardEntry) : list LeaderboardEntry :=
  match l with
  | [] => []
  | entry :: l' =>
      mkEntry (id entry) (playerName entry) (score entry) (time entry) (mode entry)
              (date entry) (index + 1)
      :: rerank (index + 1) l'
  end.

(** Lines 56-83: [addScore], on the player name of the component and the
    two readings of the clock ([Date.now()] and [new Date()]); the write to
    [localStorage] is left out. *)
Definition newEntry (name : string) (now today : Z) (m : GameMode) (score time : Q)
  : LeaderboardEntry :=
  {| id := Format.toString now;
     playerName := if String.eqb name "" then "Anonymous"%string else name;
     score := score; time := time; mode := m; date := today; rank := 0 |}.

Definition addScore (name : string) (now today : Z) (m : GameMode) (score time : Q)
           (prev : LeaderboardData) : LeaderboardData :=
  fun key =>
    if GameMode_eqb key m
    then rerank 0 (firstn 10 (sort (prev m ++ [newEntry name now today m score time])))
    else prev key.

(** [clearLeaderboard] *)
Definition clearLeaderboard : LeaderboardData := fun _ => [].

(** The scores do not increase along the list. *)
Definition descending (l : list LeaderboardEntry) : Prop :=
  StronglySorted (fun a b => score b <= score a) l.

(** Two entries that differ at most by their rank. *)
Definition same_entry (a b : LeaderboardEntry) : Prop :=
  id a = id b /\ playerName a = playerName b /\ score a = score b
  /\ time a = time b /\ mode a = mode b /\ date a = date b.

End Leaderboard.

(** ** The scrolling scenery (Road3D.tsx) *)

Module Road3D.

(** Lines 34-41: the [useFrame] callback of [Road3D], on the depth of the
    group of road lines. *)
Definition roadLines (speed delta z : Q) : Q :=
  let z := z + speed * delta * 2 in
  if JS.gtb z 2 then -10 else z.

(** The depths of the groups of trees, clouds and buildings. *)
Record Scenery : Type := mkScenery {
  trees : Q;
  clouds : Q;
  buildings : Q
}.

(** Lines 125-149: the [useFrame] callback of [Environment3D]. *)
Definition environment (speed delta : Q) (p : Scenery) : Scenery :=
  let t := trees p + speed * delta * 2 in
  let c := clouds p + speed * delta * 0.5 in
  let b := buildings p + speed * delta * 1.5 in
  {| trees := if JS.gtb t 20 then -50 else t;
     clouds := if JS.gtb c 30 then -80 else c;
     buildings := if JS.gtb b 25 then -60 else b |}.

(** The scene after the frames of a list of [(speed, delta)], oldest first;
    the groups are created at depth 0. *)
Definition scroll (frames : list (Q * Q)) : Q * Scenery :=
  fold_left (fun st f => (roadLines (fst f) (snd f) (fst st),
                          environment (fst f) (snd f) (snd st)))
            frames (0, mkScenery 0 0 0).

End Road3D.

(** A full board of the classic mode: ten scores entered one after the
    other, from 100 down to 10. *)
Definition full_board : Leaderboard.LeaderboardData :=
  fold_left (fun data s => Leaderboard.addScore "P" 1 1 classic (inject_Z s) 30 data)
            [100; 90; 80; 70; 60; 50; 40; 30; 20; 10]%Z
            Leaderboard.clearLeaderboard.

(** The depths at which the scenery is kept. *)
Definition in_windows (st : Q * Road3D.Scenery) : Prop :=
  (-10 <= fst st /\ fst st <= 2)
  /\ (-50 <= Road3D.trees (snd st) /\ Road3D.trees (snd st) <= 20)
  /\ (-80 <= Road3D.clouds (snd st) /\ Road3D.clouds (snd st) <= 30)
  /\ (-60 <= Road3D.buildings (snd st) /\ Road3D.buildings (snd st) <= 25).

(** The Space key pressed twice within a second, before the session
    plays: two countdowns run, their intervals firing in turn.  The first
    one ends and the first frame is a collision. *)
Definition space_twice_then_crash : list Component3D.Event :=
  [Component3D.Keyboard (KeyDown "Space"); Component3D.Keyboard (KeyUp "Space");
   Component3D.Keyboard (KeyDown "Space"); Component3D.Keyboard (KeyUp "Space");
   Component3D.IntervalFires 0; Component3D.IntervalFires 1;
   Component3D.IntervalFires 0; Component3D.IntervalFires 1;
   Component3D.IntervalFires 0; Component3D.IntervalFires 1;
   Component3D.IntervalFires 0;
   Component3D.AnimationFrame (const_rnd 0.5)].

(** Then the second countdown fires for the fourth time, and one more
    frame is requested. *)
Definition late_countdown_then_frame : list Component3D.Event :=
  [Component3D.IntervalFires 0;
   Component3D.AnimationFrame (const_rnd 0.5)].

(** A 2D competition session: every enemy starts in the lane at 50, the
    player steers one step to the right and then coasts; after 76 frames
    the first enemy is about to reach the player. *)
Definition step_right : Input := mkInput ["ArrowRight"]%string (const_rnd 0.5).
Definition before_collision_2D : RacingGame.GameState :=
  fst (RacingGame.run (RacingGame.start competition (const_rnd 0.5))
                      (step_right :: repeat idle 75)).

(** A 2D classic session that has accelerated for 30 frames: the speed is
    at its cap of 15. *)
Definition at_full_speed_2D : RacingGame.GameState :=
  fst (RacingGame.run (RacingGame.start classic (const_rnd 0)) (repeat accelerate 30)).

(** 3D states with the player at the marks beyond which steering stops. *)
Definition steer_left (q : Q) : Input := mkInput ["ArrowLeft"]%string (const_rnd q).
Definition at_right_mark_3D : RacingGame3D.GameState :=
  fst (RacingGame3D.run (RacingGame3D.start endless (const_rnd 0)) (repeat (steer_right 0) 40)).
Definition at_left_mark_3D : RacingGame3D.GameState :=
  fst (RacingGame3D.run (RacingGame3D.start endless (const_rnd 0.99))
                        (repeat (steer_left 0.99) 40)).

(** * Properties *)

(** ** Comparisons *)

Lemma ltb_true (a b : Q) : JS.ltb a b = true <-> a < b.
Proof.
  unfold JS.ltb. rewrite negb_true_iff, <- not_true_iff_false, Qle_bool_iff.
  split; [apply Qnot_le_lt | apply Qlt_not_le].
Qed.

Lemma ltb_false (a b : Q) : JS.ltb a b = false <-> b <= a.
Proof.
  unfold JS.ltb. rewrite negb_false_iff. apply Qle_bool_iff.
Qed.

Lemma leb_true (a b : Q) : JS.leb a b = true <-> a <= b.
Proof. apply Qle_bool_iff. Qed.

Lemma leb_false (a b : Q) : JS.leb a b = false <-> b < a.
Proof.
  unfold JS.leb. rewrite <- not_true_iff_false, Qle_bool_iff.
  split; [apply Qnot_le_lt | apply Qlt_not_le].
Qed.

(** Case analysis on every [Qmin] and [Qmax] of the goal. *)
Ltac minmax :=
  repeat match goal with
  | |- context [Qmin ?a ?b] =>
      let E := fresh "E" in
      destruct (Q.min_spec a b) as [[? E] | [? E]]; rewrite E in *
  | |- context [Qmax ?a ?b] =>
      let E := fresh "E" in
      destruct (Q.max_spec a b) as [[? E] | [? E]]; rewrite E in *
  end.

(** The frame time [1 / 60] as a constant of linear arithmetic. *)
Ltac frame_time := change (1 / 60) with (1 # 60) in *.

(** Case analysis on the comparisons of the goal. *)
Ltac compare_cases :=
  repeat match goal with
  | |- context [JS.ltb ?a ?b] =>
      let E := fresh "C" in
      destruct (JS.ltb a b) eqn:E;
      [apply ltb_true in E | apply ltb_false in E]
  | |- context [JS.leb ?a ?b] =>
      let E := fresh "C" in
      destruct (JS.leb a b) eqn:E;
      [apply leb_true in E | apply leb_false in E]
  end.

(** ** The oracle and [map] *)

Lemma floor_random_range (r : Q) (k : Z) :
  0 <= r /\ r < 1 -> (0 < k)%Z ->
  (0 <= JS.floor (r * inject_Z k) < k)%Z.
Proof.
  intros [H0 H1] Hk. unfold JS.floor.
  assert (Hk' : inject_Z 0 < inject_Z k) by (rewrite <- Zlt_Qlt; exact Hk).
  change (inject_Z 0) with 0 in Hk'.
  split.
  - change 0%Z with (Qfloor 0). apply Qfloor_resp_le. nra.
  - rewrite Zlt_Qlt.
    apply Qle_lt_trans with (r * inject_Z k); [apply Qfloor_le | nra].
Qed.

Lemma mapM_length {A B : Type} (f : A -> Rand B) (l : list A) (rnd : nat -> Q) (n : nat) :
  List.length (fst (mapM f l rnd n)) = List.length l.
Proof.
  revert n. induction l as [| a l IH]; intros n; [reflexivity |].
  simpl. unfold bind. destruct (f a rnd n) as [b n1].
  specialize (IH n1). destruct (mapM f l rnd n1) as [bs n2]. simpl in *.
  now rewrite IH.
Qed.


Lemma mapM_Forall {A B : Type} (P : B -> Prop) (f : A -> Rand B) (l : list A)
      (rnd : nat -> Q) (n : nat) :
  (forall a n', In a l -> P (fst (f a rnd n'))) ->
  Forall P (fst (mapM f l rnd n)).
Proof.
  revert n. induction l as [| a l IH]; intros n H; simpl.
  - constructor.
  - unfold bind. destruct (f a rnd n) as [b n1] eqn:E.
    specialize (IH n1 (fun a' n' Hin => H a' n' (or_intror Hin))).
    destruct (mapM f l rnd n1) as [bs n2]. simpl in *.
    constructor; [| exact IH].
    specialize (H a n (or_introl eq_refl)). now rewrite E in H.
Qed.


Lemma arrayFrom_length {B : Type} (f : Z -> Rand B) (k : nat) (i : Z)
      (rnd : nat -> Q) (n : nat) :
  List.length (fst (arrayFrom f k i rnd n)) = k.
Proof.
  revert i n. induction k as [| k IH]; intros i n; [reflexivity |].
  simpl. unfold bind. destruct (f i rnd n) as [b n1].
  specialize (IH (i + 1)%Z n1). destruct (arrayFrom f k (i + 1)%Z rnd n1) as [bs n2].
  simpl in *. now rewrite IH.
Qed.


(** ** The 3D loop: structure of a frame and of a session *)

Module Facts3D.
Import RacingGame3D.

Lemma frame_idle_3D (i : Input) (s : GameState) :
  isPlaying s = false \/ isPaused s = true -> frame i s = (s, None).
Proof.
  unfold frame. intros [H | H]; rewrite H; simpl; auto using orb_true_r.
  now rewrite orb_true_r.
Qed.

Lemma frame_running_3D (i : Input) (s : GameState) :
  isPlaying s = true -> isPaused s = false -> frame i s = gameLoop i s.
Proof. unfold frame. now intros -> ->. Qed.

Lemma frame_cases_3D (i : Input) (s : GameState) :
  (frame i s = (s, None) /\ (isPlaying s = false \/ isPaused s = true))
  \/ (frame i s = gameLoop i s /\ isPlaying s = true /\ isPaused s = false).
Proof.
  destruct (isPlaying s) eqn:P; [destruct (isPaused s) eqn:U |].
  - left. split; [apply frame_idle_3D |]; auto.
  - right. split; [apply frame_running_3D |]; auto.
  - left. split; [apply frame_idle_3D |]; auto.
Qed.

Lemma run_idle_3D (inputs : list Input) (s : GameState) :
  isPlaying s = false \/ isPaused s = true -> run s inputs = (s, []).
Proof.
  intros H. induction inputs as [| i rest IH]; simpl; [reflexivity |].
  rewrite (frame_idle_3D i s H), IH. reflexivity.
Qed.

Lemma run_cons_3D (i : Input) (rest : list Input) (s : GameState) :
  run s (i :: rest) =
  (fst (run (fst (frame i s)) rest),
   match snd (frame i s) with
   | Some x => x :: snd (run (fst (frame i s)) rest)
   | None => snd (run (fst (frame i s)) rest)
   end).
Proof.
  simpl. destruct (frame i s) as [s' n]. simpl.
  destruct (run s' rest) as [s'' ns]. reflexivity.
Qed.

Lemma run_snoc_3D (inputs : list Input) (i : Input) (s : GameState) :
  fst (run s (inputs ++ [i])) = fst (frame i (fst (run s inputs))).
Proof.
  revert s. induction inputs as [| j rest IH]; intros s.
  - simpl. destruct (frame i s). reflexivity.
  - rewrite <- app_comm_cons, !run_cons_3D. simpl. apply IH.
Qed.

Lemma mode_gameLoop_3D (i : Input) (s : GameState) :
  mode (fst (gameLoop i s)) = mode s.
Proof. reflexivity. Qed.

Lemma mode_frame_3D (i : Input) (s : GameState) : mode (fst (frame i s)) = mode s.
Proof. unfold frame. now destruct (negb (isPlaying s) || isPaused s). Qed.

Lemma mode_run_3D (inputs : list Input) (s : GameState) :
  mode (fst (run s inputs)) = mode s.
Proof.
  revert s. induction inputs as [| i rest IH]; intros s; [reflexivity |].
  rewrite run_cons_3D. simpl. now rewrite IH, mode_frame_3D.
Qed.

(** A frame that ends the session also stops it. *)
Lemma gameLoop_ends_stopped_3D (i : Input) (s : GameState) :
  gameOver s = false ->
  gameOver (fst (gameLoop i s)) = true ->
  isPlaying (fst (gameLoop i s)) = false.
Proof.
  simpl. intros ->. simpl.
  now destruct (collisionEnds _ i s || timeIsUp _ _).
Qed.

Lemma gameLoop_notifies_3D (i : Input) (s : GameState) :
  snd (gameLoop i s) =
  if gameOver (fst (gameLoop i s))
  then Some (score (fst (gameLoop i s)), time (fst (gameLoop i s)))
  else None.
Proof. reflexivity. Qed.

(** A session that has not ended emits nothing; one that has ended has
    emitted its final score and time, once, and is stopped. *)
Lemma run_notifications_3D (inputs : list Input) (s : GameState) :
  gameOver s = false ->
  (gameOver (fst (run s inputs)) = false /\ snd (run s inputs) = [])
  \/ (gameOver (fst (run s inputs)) = true
      /\ isPlaying (fst (run s inputs)) = false
      /\ snd (run s inputs) =
         [(score (fst (run s inputs)), time (fst (run s inputs)))]).
Proof.
  revert s. induction inputs as [| i rest IH]; intros s G.
  - left. simpl. auto.
  - rewrite run_cons_3D. simpl.
    destruct (frame_cases_3D i s) as [[E _] | [E _]]; rewrite E.
    + simpl. apply IH, G.
    + rewrite gameLoop_notifies_3D.
      destruct (gameOver (fst (gameLoop i s))) eqn:G'.
      * right.
        rewrite (run_idle_3D rest (fst (gameLoop i s)))
          by (left; now apply gameLoop_ends_stopped_3D).
        cbn [fst snd]. rewrite G'.
        repeat split. now apply gameLoop_ends_stopped_3D.
      * apply IH, G'.
Qed.

(** *** Speed *)

Lemma maxSpeed_ge_12 (m : GameMode) : 12 <= maxSpeed (getModeConfig m).
Proof. destruct m; simpl; lra. Qed.

Lemma throttle_bounds_3D (keys : list string) (s : GameState) :
  let config := getModeConfig (mode s) in
  2 <= speed s ->
  2 <= throttle config keys s
  /\ throttle config keys s <= Qmax (maxSpeed config) (speed s - 0.1).
Proof.
  intros config H. pose proof (maxSpeed_ge_12 (mode s)) as HM. fold config in HM.
  unfold throttle.
  destruct (JS.has keys "ArrowUp"); [| destruct (JS.has keys "ArrowDown")];
    minmax; lra.
Qed.

Lemma newSpeed_bounds_3D (keys : list string) (s : GameState) :
  let config := getModeConfig (mode s) in
  2 <= speed s ->
  2 <= newSpeed config keys s
  /\ (usedNitro config keys s = true ->
      newSpeed config keys s <= maxSpeed config + 5)
  /\ (usedNitro config keys s = false ->
      newSpeed config keys s <= Qmax (maxSpeed config) (speed s - 0.1)).
Proof.
  intros config H.
  destruct (throttle_bounds_3D keys s H) as [Hlo Hhi].
  pose proof (maxSpeed_ge_12 (mode s)) as HM.
  fold config in Hlo, Hhi, HM. unfold newSpeed.
  destruct (usedNitro config keys s); repeat split; intros; try discriminate;
    try assumption; minmax; lra.
Qed.

Lemma usedNitro_hasNitro (config : ModeConfig) (keys : list string) (s : GameState) :
  usedNitro config keys s = true -> hasNitro config = true.
Proof. unfold usedNitro. now destruct (hasNitro config). Qed.

Lemma speed_gameLoop_3D (i : Input) (s : GameState) :
  speed (fst (gameLoop i s)) = newSpeed (getModeConfig (mode s)) (keys i) s.
Proof. reflexivity. Qed.

(** The invariant of the speed: between the brake floor and the ceiling. *)
Lemma speed_inv_gameLoop_3D (i : Input) (s : GameState) :
  2 <= speed s <= Spec3D.speedCeiling (getModeConfig (mode s)) ->
  2 <= speed (fst (gameLoop i s))
    <= Spec3D.speedCeiling (getModeConfig (mode (fst (gameLoop i s)))).
Proof.
  intros [Hlo Hhi]. rewrite mode_gameLoop_3D, speed_gameLoop_3D.
  destruct (newSpeed_bounds_3D (keys i) s Hlo) as (L & Hn & Hc).
  split; [exact L |].
  unfold Spec3D.speedCeiling in *.
  destruct (usedNitro (getModeConfig (mode s)) (keys i) s) eqn:U.
  - rewrite (usedNitro_hasNitro _ _ _ U). now apply Hn.
  - specialize (Hc eq_refl). revert Hc.
    destruct (hasNitro (getModeConfig (mode s))); minmax; lra.
Qed.

Lemma speed_inv_frame_3D (i : Input) (s : GameState) :
  2 <= speed s <= Spec3D.speedCeiling (getModeConfig (mode s)) ->
  2 <= speed (fst (frame i s))
    <= Spec3D.speedCeiling (getModeConfig (mode (fst (frame i s)))).
Proof.
  destruct (frame_cases_3D i s) as [[E _] | [E _]]; rewrite E;
    [trivial | apply speed_inv_gameLoop_3D].
Qed.

Lemma speed_inv_run_3D (inputs : list Input) (s : GameState) :
  2 <= speed s <= Spec3D.speedCeiling (getModeConfig (mode s)) ->
  2 <= speed (fst (run s inputs))
    <= Spec3D.speedCeiling (getModeConfig (mode (fst (run s inputs)))).
Proof.
  revert s. induction inputs as [| i rest IH]; intros s H; [exact H |].
  rewrite run_cons_3D. cbn [fst]. apply IH, speed_inv_frame_3D, H.
Qed.

Lemma speed_inv_start_3D (m : GameMode) (rnd0 : nat -> Q) :
  2 <= speed (start m rnd0)
    <= Spec3D.speedCeiling (getModeConfig (mode (start m rnd0))).
Proof.
  simpl. pose proof (maxSpeed_ge_12 m). unfold Spec3D.speedCeiling.
  destruct (hasNitro (getModeConfig m)); lra.
Qed.

(** *** Score *)

Lemma scoreMultiplier_ge_1 (config : ModeConfig) (i : Input) (s : GameState) :
  1 <= scoreMultiplier config i s.
Proof.
  unfold scoreMultiplier.
  destruct (hasNitro config && usedNitro config (keys i) s);
    destruct (newPerfectDriving config (keys i) s >? 60)%Z;
    destruct (JS.gtb (newSpeed config (keys i) s) (maxSpeed config * 0.9)); lra.
Qed.

Lemma score_gameLoop_3D (i : Input) (s : GameState) :
  2 <= speed s -> score s <= score (fst (gameLoop i s)).
Proof.
  intros H. cbn [gameLoop fst score].
  destruct (newSpeed_bounds_3D (keys i) s H) as (L & _).
  pose proof (scoreMultiplier_ge_1 (getModeConfig (mode s)) i s) as M.
  nra.
Qed.


Lemma score_inv_gameLoop_3D (i : Input) (s : GameState) :
  2 <= speed s /\ 0 <= score s ->
  2 <= speed (fst (gameLoop i s)) /\ 0 <= score (fst (gameLoop i s)).
Proof.
  intros [H S]. split.
  - rewrite speed_gameLoop_3D. now apply newSpeed_bounds_3D.
  - apply Qle_trans with (score s); [exact S | now apply score_gameLoop_3D].
Qed.

Lemma score_inv_run_3D (inputs : list Input) (s : GameState) :
  2 <= speed s /\ 0 <= score s ->
  2 <= speed (fst (run s inputs)) /\ 0 <= score (fst (run s inputs)).
Proof.
  revert s. induction inputs as [| i rest IH]; intros s H; [exact H |].
  rewrite run_cons_3D. cbn [fst]. apply IH.
  destruct (frame_cases_3D i s) as [[E _] | [E _]]; rewrite E;
    [exact H | now apply score_inv_gameLoop_3D].
Qed.

(** *** Enemies *)

Lemma enemies_gameLoop_3D (i : Input) (s : GameState) :
  enemies (fst (gameLoop i s)) = newEnemies (getModeConfig (mode s)) i s.
Proof. reflexivity. Qed.

Lemma length_newEnemies_3D (config : ModeConfig) (i : Input) (s : GameState) :
  List.length (newEnemies config i s) = List.length (enemies s).
Proof. apply mapM_length. Qed.







(** *** Collisions and health *)

Lemma timeIsUp_spec_3D (config : ModeConfig) (t : Q) :
  timeIsUp config t = true <-> exists limit, timeLimit config = Some limit /\ limit <= t.
Proof.
  unfold timeIsUp. destruct (timeLimit config) as [limit |].
  - unfold JS.geb. rewrite leb_true. split.
    + intros H. now exists limit.
    + now intros (l & [= <-] & H).
  - split; [discriminate | now intros (l & [=] & _)].
Qed.

(** One frame of a running competition session before the time limit. *)
Lemma competition_frame (i : Input) (s : GameState) :
  mode s = competition -> isPlaying s = true -> isPaused s = false ->
  gameOver s = false -> time s + 1 / 60 < 120 ->
  let s' := fst (frame i s) in
  mode s' = competition /\ isPaused s' = false /\ time s' = time s + 1 / 60
  /\ if collisionDetected (getModeConfig competition) i s
     then health s' = Qmax (health s - 10) 0
          /\ gameOver s' = JS.leb (health s') 0
          /\ isPlaying s' = negb (JS.leb (health s') 0)
     else health s' = health s /\ gameOver s' = false /\ isPlaying s' = true.
Proof.
  intros M P U G T s'. subst s'. rewrite (frame_running_3D i s P U).
  assert (TU : timeIsUp (getModeConfig competition) (time s + 1 / 60) = false).
  { unfold timeIsUp, JS.geb. simpl. now apply leb_false. }
  unfold gameLoop. cbn [fst mode isPaused time health gameOver isPlaying].
  rewrite M, G, P, U, TU. unfold collisionEnds, newHealth.
  destruct (collisionDetected (getModeConfig competition) i s); simpl;
    [| now auto].
  repeat split; now destruct (JS.leb _ 0).
Qed.

Lemma collisionFrames_cons (i : Input) (rest : list Input) (s : GameState) :
  Spec3D.collisionFrames s (i :: rest) =
  ((if isPlaying s && negb (isPaused s)
       && collisionDetected (getModeConfig (mode s)) i s then 1 else 0)
   + Spec3D.collisionFrames (fst (frame i s)) rest)%nat.
Proof. reflexivity. Qed.

Lemma collisionFrames_idle (inputs : list Input) (s : GameState) :
  isPlaying s = false \/ isPaused s = true -> Spec3D.collisionFrames s inputs = O.
Proof.
  intros H. induction inputs as [| i rest IH]; [reflexivity |].
  rewrite collisionFrames_cons, (frame_idle_3D i s H). cbn [fst]. rewrite IH.
  destruct H as [-> | ->]; [| rewrite andb_false_r]; reflexivity.
Qed.

(** A competition session before its time limit: every collision frame
    costs 10 health points, and the frame that brings health to 0 ends
    the session. *)
Lemma competition_health (inputs : list Input) (s : GameState) :
  mode s = competition -> isPlaying s = true -> isPaused s = false ->
  gameOver s = false -> 0 < health s ->
  time s + inject_Z (Z.of_nat (List.length inputs)) * (1 / 60) < 120 ->
  let n := inject_Z (Z.of_nat (Spec3D.collisionFrames s inputs)) in
  let s' := fst (run s inputs) in
  (10 * n < health s ->
   health s' == health s - 10 * n /\ gameOver s' = false /\ isPlaying s' = true)
  /\ (health s <= 10 * n -> health s' == 0 /\ gameOver s' = true).
Proof.
  revert s. induction inputs as [| i rest IH]; intros s M P U G H T.
  - cbn [Spec3D.collisionFrames run fst]. change (inject_Z (Z.of_nat 0)) with 0.
    split; intros; [repeat split; auto; lra | lra].
  - cbn [List.length] in T. rewrite Nat2Z.inj_succ, <- Z.add_1_r, inject_Z_plus in T.
    change (inject_Z 1) with 1 in T.
    assert (Hk : 0 <= inject_Z (Z.of_nat (List.length rest))).
    { change 0 with (inject_Z 0). rewrite <- Zle_Qle. lia. }
    assert (T1 : time s + 1 / 60 < 120) by (frame_time; lra).
    destruct (competition_frame i s M P U G T1) as (M' & U' & T' & C).
    rewrite collisionFrames_cons, run_cons_3D. cbn [fst]. rewrite P, U, M.
    cbn [negb andb].
    assert (Trest : time (fst (frame i s))
                    + inject_Z (Z.of_nat (List.length rest)) * (1 / 60) < 120)
      by (rewrite T'; frame_time; lra).
    destruct (collisionDetected (getModeConfig competition) i s).
    + destruct C as (Hh & Hg & Hp).
      rewrite Nat2Z.inj_add, inject_Z_plus. change (inject_Z (Z.of_nat 1)) with 1.
      destruct (JS.leb (health (fst (frame i s))) 0) eqn:L.
      * (* this collision is fatal *)
        apply leb_true in L. simpl in Hp.
        rewrite (collisionFrames_idle rest _ (or_introl Hp)).
        rewrite (run_idle_3D rest _ (or_introl Hp)). cbn [fst].
        change (inject_Z (Z.of_nat 0)) with 0.
        assert (Hz : health (fst (frame i s)) == 0).
        { rewrite Hh in *. revert L. minmax; lra. }
        split; intros Hn.
        -- exfalso. rewrite Hh in L. revert L. minmax; lra.
        -- split; [exact Hz | exact Hg].
      * apply leb_false in L. simpl in Hp.
        assert (Hh' : health (fst (frame i s)) == health s - 10).
        { rewrite Hh in *. revert L. minmax; lra. }
        destruct (IH (fst (frame i s)) M' Hp U' Hg L Trest) as [A B].
        split; intros Hn.
        -- destruct A as (A1 & A2 & A3); [lra |]. repeat split; auto. lra.
        -- apply B. lra.
    + destruct C as (Hh & Hg & Hp). rewrite Nat.add_0_l.
      rewrite <- Hh in H.
      destruct (IH (fst (frame i s)) M' Hp U' Hg H Trest) as [A B].
      rewrite Hh in A, B. split; [exact A | exact B].
Qed.


(** *** Time limit *)

Lemma timeLimit_table_3D (m : GameMode) :
  timeLimit (getModeConfig m) = spec_timeLimit m.
Proof. now destruct m. Qed.

Lemma gameOver_gameLoop_3D (i : Input) (s : GameState) :
  gameOver (fst (gameLoop i s)) =
  gameOver s || collisionEnds (getModeConfig (mode s)) i s
  || timeIsUp (getModeConfig (mode s)) (time s + 1 / 60).
Proof. reflexivity. Qed.

Lemma isPlaying_gameLoop_3D (i : Input) (s : GameState) :
  isPlaying (fst (gameLoop i s)) =
  if collisionEnds (getModeConfig (mode s)) i s
     || timeIsUp (getModeConfig (mode s)) (time s + 1 / 60)
  then false else isPlaying s.
Proof. reflexivity. Qed.

(** What the time check of one frame does, mode by mode. *)
Lemma time_check_3D (i : Input) (s : GameState) :
  let s' := fst  (gameLoop i s) in
  match spec_timeLimit (mode s) with
  | Some limit =>
      (limit <= time s + 1 / 60 -> gameOver s' = true /\ isPlaying s' = false)
      /\ (time s + 1 / 60 < limit ->
          gameOver s' = gameOver s || collisionEnds (getModeConfig (mode s)) i s)
  | None =>
      gameOver s' = gameOver s || collisionEnds (getModeConfig (mode s)) i s
  end.
Proof.
  intros s'. subst s'. rewrite gameOver_gameLoop_3D, isPlaying_gameLoop_3D.
  unfold timeIsUp. rewrite timeLimit_table_3D.
  destruct (spec_timeLimit (mode s)) as [limit |].
  - unfold JS.geb. split; intros H.
    + apply leb_true in H. rewrite H. now rewrite !orb_true_r.
    + apply leb_false in H. rewrite H. now rewrite orb_false_r.
  - now rewrite orb_false_r.
Qed.

(** A session that has not ended is before its time limit. *)
Lemma run_before_limit_3D (inputs : list Input) (s : GameState) (limit : Q) :
  spec_timeLimit (mode s) = Some limit ->
  (gameOver s = false -> time s < limit) ->
  gameOver (fst (run s inputs)) = false -> time (fst (run s inputs)) < limit.
Proof.
  revert s. induction inputs as [| i rest IH]; intros s L H; [exact H |].
  rewrite run_cons_3D. cbn [fst]. apply IH.
  - now rewrite mode_frame_3D.
  - destruct (frame_cases_3D i s) as [[E _] | [E _]]; rewrite E; [exact H |].
    rewrite gameOver_gameLoop_3D. intros G.
    apply orb_false_iff in G as [_ G].
    unfold timeIsUp in G. rewrite timeLimit_table_3D, L in G.
    now apply leb_false in G.
Qed.

(** *** Score multiplier *)

Lemma score_gameLoop_eq_3D (i : Input) (s : GameState) :
  score (fst (gameLoop i s)) =
  score s + speed (fst (gameLoop i s)) * 10
            * scoreMultiplier (getModeConfig (mode s)) i s.
Proof. reflexivity. Qed.

Lemma scoreMultiplier_spec (i : Input) (s : GameState) :
  let config := getModeConfig (mode s) in
  let s' := fst (gameLoop i s) in
  scoreMultiplier config i s ==
  Spec3D.spec_multiplier (usedNitro config (keys i) s)
                         (perfectDriving s') (speed s') (maxSpeed config).
Proof.
  intros config s'. subst s'.
  change (perfectDriving (fst (gameLoop i s)))
    with (newPerfectDriving config (keys i) s).
  change (speed (fst (gameLoop i s))) with (newSpeed config (keys i) s).
  unfold scoreMultiplier, Spec3D.spec_multiplier.
  rewrite Z.gtb_ltb.
  assert (N : hasNitro config && usedNitro config (keys i) s
              = usedNitro config (keys i) s).
  { destruct (usedNitro config (keys i) s) eqn:U; [| apply andb_false_r].
    now rewrite (usedNitro_hasNitro _ _ _ U). }
  rewrite N. unfold JS.gtb.
  destruct (usedNitro config (keys i) s);
    destruct (60 <? newPerfectDriving config (keys i) s)%Z;
    compare_cases; lra.
Qed.

Lemma nitro_consumed (i : Input) (s : GameState) :
  let config := getModeConfig (mode s) in
  usedNitro config (keys i) s = true ->
  nitroBoost (fst (gameLoop i s)) == Qmax (nitroBoost s - 0.5) 0
  /\ nitroBoost (fst (gameLoop i s)) < nitroBoost s.
Proof.
  intros config U.
  change (nitroBoost (fst (gameLoop i s))) with (newNitroBoost config (keys i) s).
  unfold newNitroBoost. rewrite U. split; [reflexivity |].
  unfold usedNitro in U. apply andb_true_iff in U as [_ U].
  apply ltb_true in U. minmax; lra.
Qed.

Lemma nitro_not_consumed (i : Input) (s : GameState) :
  let config := getModeConfig (mode s) in
  usedNitro config (keys i) s = false -> nitroBoost s <= 100 ->
  nitroBoost s <= nitroBoost (fst (gameLoop i s)).
Proof.
  intros config U H.
  change (nitroBoost (fst (gameLoop i s))) with (newNitroBoost config (keys i) s).
  unfold newNitroBoost. rewrite U.
  destruct (hasNitro config && negb false); minmax; lra.
Qed.


End Facts3D.

(** ** The 2D loop *)

Module Facts2D.
Import RacingGame.

Lemma frame_idle_2D (i : Input) (s : GameState) :
  isPlaying s = false \/ isPaused s = true -> frame i s = (s, None).
Proof.
  unfold frame. intros [H | H]; rewrite H; [reflexivity |].
  now rewrite orb_true_r.
Qed.

Lemma frame_running_2D (i : Input) (s : GameState) :
  isPlaying s = true -> isPaused s = false -> frame i s = gameLoop i s.
Proof. unfold frame. now intros -> ->. Qed.

Lemma frame_cases_2D (i : Input) (s : GameState) :
  (frame i s = (s, None) /\ (isPlaying s = false \/ isPaused s = true))
  \/ (frame i s = gameLoop i s /\ isPlaying s = true /\ isPaused s = false).
Proof.
  destruct (isPlaying s) eqn:P; [destruct (isPaused s) eqn:U |].
  - left. split; [apply frame_idle_2D |]; auto.
  - right. split; [apply frame_running_2D |]; auto.
  - left. split; [apply frame_idle_2D |]; auto.
Qed.

Lemma run_idle_2D (inputs : list Input) (s : GameState) :
  isPlaying s = false \/ isPaused s = true -> run s inputs = (s, []).
Proof.
  intros H. induction inputs as [| i rest IH]; simpl; [reflexivity |].
  rewrite (frame_idle_2D i s H), IH. reflexivity.
Qed.

Lemma run_cons_2D (i : Input) (rest : list Input) (s : GameState) :
  run s (i :: rest) =
  (fst (run (fst (frame i s)) rest),
   match snd (frame i s) with
   | Some x => x :: snd (run (fst (frame i s)) rest)
   | None => snd (run (fst (frame i s)) rest)
   end).
Proof.
  simpl. destruct (frame i s) as [s' n]. simpl.
  destruct (run s' rest) as [s'' ns]. reflexivity.
Qed.

Lemma mode_frame_2D (i : Input) (s : GameState) : mode (fst (frame i s)) = mode s.
Proof. unfold frame. now destruct (negb (isPlaying s) || isPaused s). Qed.

Lemma gameLoop_ends_stopped_2D (i : Input) (s : GameState) :
  gameOver s = false ->
  gameOver (fst (gameLoop i s)) = true ->
  isPlaying (fst (gameLoop i s)) = false.
Proof.
  simpl. intros ->. simpl.
  now destruct (collisionDetected i s || timeIsUp _ _).
Qed.

Lemma gameLoop_notifies_2D (i : Input) (s : GameState) :
  snd (gameLoop i s) =
  if gameOver (fst (gameLoop i s))
  then Some (score (fst (gameLoop i s)), time (fst (gameLoop i s)))
  else None.
Proof. reflexivity. Qed.

Lemma run_notifications_2D (inputs : list Input) (s : GameState) :
  gameOver s = false ->
  (gameOver (fst (run s inputs)) = false /\ snd (run s inputs) = [])
  \/ (gameOver (fst (run s inputs)) = true
      /\ isPlaying (fst (run s inputs)) = false
      /\ snd (run s inputs) =
         [(score (fst (run s inputs)), time (fst (run s inputs)))]).
Proof.
  revert s. induction inputs as [| i rest IH]; intros s G.
  - left. simpl. auto.
  - rewrite run_cons_2D. simpl.
    destruct (frame_cases_2D i s) as [[E _] | [E _]]; rewrite E.
    + simpl. apply IH, G.
    + rewrite gameLoop_notifies_2D.
      destruct (gameOver (fst (gameLoop i s))) eqn:G'.
      * right.
        rewrite (run_idle_2D rest (fst (gameLoop i s)))
          by (left; now apply gameLoop_ends_stopped_2D).
        cbn [fst snd]. rewrite G'.
        repeat split. now apply gameLoop_ends_stopped_2D.
      * apply IH, G'.
Qed.

(** *** Speed and score *)

Lemma newSpeed_bounds_2D (keys : list string) (s : GameState) :
  0 <= speed s <= 15 -> 0 <= newSpeed keys s <= 15.
Proof.
  intros [L H]. unfold newSpeed.
  destruct (JS.has keys "ArrowUp"); [| destruct (JS.has keys "ArrowDown")];
    minmax; lra.
Qed.

Lemma speed_inv_run_2D (inputs : list Input) (s : GameState) :
  0 <= speed s <= 15 -> 0 <= speed (fst (run s inputs)) <= 15.
Proof.
  revert s. induction inputs as [| i rest IH]; intros s H; [exact H |].
  rewrite run_cons_2D. cbn [fst]. apply IH.
  destruct (frame_cases_2D i s) as [[E _] | [E _]]; rewrite E;
    [exact H | now apply newSpeed_bounds_2D].
Qed.

Lemma score_gameLoop_2D (i : Input) (s : GameState) :
  0 <= speed s <= 15 -> score s <= score (fst (gameLoop i s)).
Proof.
  intros H. cbn [gameLoop fst score].
  pose proof (newSpeed_bounds_2D (keys i) s H). lra.
Qed.

Lemma score_inv_run_2D (inputs : list Input) (s : GameState) :
  0 <= speed s <= 15 /\ 0 <= score s ->
  0 <= speed (fst (run s inputs)) <= 15 /\ 0 <= score (fst (run s inputs)).
Proof.
  revert s. induction inputs as [| i rest IH]; intros s H; [exact H |].
  rewrite run_cons_2D. cbn [fst]. apply IH.
  destruct (frame_cases_2D i s) as [[E _] | [E _]]; rewrite E; [exact H |].
  destruct H as [H S]. split; [now apply newSpeed_bounds_2D |].
  apply Qle_trans with (score s); [exact S | now apply score_gameLoop_2D].
Qed.

(** *** Enemies *)





(** *** Time limit *)

Lemma timeLimit_table_2D (m : GameMode) :
  timeLimit (getModeConfig m) = spec_timeLimit m.
Proof. now destruct m. Qed.

Lemma time_check_2D (i : Input) (s : GameState) :
  let s' := fst (gameLoop i s) in
  match spec_timeLimit (mode s) with
  | Some limit =>
      (limit <= time s + 1 / 60 -> gameOver s' = true /\ isPlaying s' = false)
      /\ (time s + 1 / 60 < limit ->
          gameOver s' = gameOver s || collisionDetected i s)
  | None => gameOver s' = gameOver s || collisionDetected i s
  end.
Proof.
  intros s'. subst s'. cbn [gameLoop fst gameOver isPlaying].
  unfold timeIsUp. rewrite timeLimit_table_2D.
  destruct (spec_timeLimit (mode s)) as [limit |].
  - unfold JS.geb. split; intros H.
    + apply leb_true in H. rewrite H. now rewrite !orb_true_r.
    + apply leb_false in H. rewrite H. now rewrite orb_false_r.
  - now rewrite orb_false_r.
Qed.

Lemma run_before_limit_2D (inputs : list Input) (s : GameState) (limit : Q) :
  spec_timeLimit (mode s) = Some limit ->
  (gameOver s = false -> time s < limit) ->
  gameOver (fst (run s inputs)) = false -> time (fst (run s inputs)) < limit.
Proof.
  revert s. induction inputs as [| i rest IH]; intros s L H; [exact H |].
  rewrite run_cons_2D. cbn [fst]. apply IH.
  - now rewrite mode_frame_2D.
  - destruct (frame_cases_2D i s) as [[E _] | [E _]]; rewrite E; [exact H |].
    cbn [gameLoop fst gameOver time]. intros G.
    apply orb_false_iff in G as [_ G].
    unfold timeIsUp in G. rewrite timeLimit_table_2D, L in G.
    now apply leb_false in G.
Qed.

(** *** Collisions: the 2D loop has no health *)

Lemma collision_ends_2D (i : Input) (s : GameState) :
  collisionDetected i s = true ->
  gameOver (fst (gameLoop i s)) = true /\ isPlaying (fst (gameLoop i s)) = false.
Proof.
  intros C. cbn [gameLoop fst gameOver isPlaying]. rewrite C.
  now rewrite orb_true_r.
Qed.


End Facts2D.

(** * The claims *)

(** ** C1: frames outside the playing state *)

(** The state updater of [gameLoop] has no guard of its own: applied to a
    state that has ended (here the classic session [crashed], whose first
    frame was a collision) it still accrues elapsed time. *)
Lemma ended_state_still_advances :
  RacingGame3D.gameOver crashed = true
  /\ RacingGame3D.isPlaying crashed = false
  /\ ~ RacingGame3D.time (fst (RacingGame3D.gameLoop idle crashed))
       == RacingGame3D.time crashed.
Proof.
  split; [reflexivity |]. split; [reflexivity |].
  vm_compute. discriminate.
Qed.

(** What the effect that schedules the updater provides: it runs no frame
    unless [isPlaying && !isPaused], so a frame leaves the GameState
    unchanged, and emits nothing, whenever the session is not playing or is
    paused; and as long as nothing but frames touches the state, once a
    frame has set [gameOver] every later frame leaves the GameState
    unchanged.  Both loops. *)
Lemma frame_unchanged_unless_playing :
  (forall (i : Input) (s : RacingGame3D.GameState),
      RacingGame3D.isPlaying s = false \/ RacingGame3D.isPaused s = true ->
      RacingGame3D.frame i s = (s, None))
  /\ (forall (inputs : list Input) (i : Input) (s : RacingGame3D.GameState),
         RacingGame3D.gameOver s = false ->
         RacingGame3D.gameOver (fst (RacingGame3D.run s inputs)) = true ->
         RacingGame3D.frame i (fst (RacingGame3D.run s inputs))
         = (fst (RacingGame3D.run s inputs), None))
  /\ (forall (i : Input) (s : RacingGame.GameState),
         RacingGame.isPlaying s = false \/ RacingGame.isPaused s = true ->
         RacingGame.frame i s = (s, None))
  /\ (forall (inputs : list Input) (i : Input) (s : RacingGame.GameState),
         RacingGame.gameOver s = false ->
         RacingGame.gameOver (fst (RacingGame.run s inputs)) = true ->
         RacingGame.frame i (fst (RacingGame.run s inputs))
         = (fst (RacingGame.run s inputs), None)).
Proof.
  split; [exact Facts3D.frame_idle_3D |]. split.
  - intros inputs i s G E. apply Facts3D.frame_idle_3D. left.
    destruct (Facts3D.run_notifications_3D inputs s G) as [[N _] | (_ & P & _)];
      [congruence | exact P].
  - split; [exact Facts2D.frame_idle_2D |].
    intros inputs i s G E. apply Facts2D.frame_idle_2D. left.
    destruct (Facts2D.run_notifications_2D inputs s G) as [[N _] | (_ & P & _)];
      [congruence | exact P].
Qed.

Lemma frame_unchanged_unless_playing_witness :
  RacingGame3D.frame idle crashed = (crashed, None)
  /\ RacingGame3D.frame idle (fst (RacingGame3D.run crash_start [idle; idle]))
     = (fst (RacingGame3D.run crash_start [idle; idle]), None).
Proof.
  split.
  - apply (proj1 frame_unchanged_unless_playing idle crashed).
    left. reflexivity.
  - apply (proj1 (proj2 frame_unchanged_unless_playing) [idle; idle] idle crash_start);
      reflexivity.
Defined.

(** C1 fails on the mounted component.  The guard of the effect is the
    only protection of an ended session, and the countdown defeats it: the
    Space handler starts a countdown whenever the session is neither playing
    nor over, also while one is pending, and the last update of a countdown
    sets [isPlaying] whatever the state.  In a classic session, Space is
    pressed twice within a second; the first countdown ends and the first
    frame is a collision, which ends the session (time 1/60, score 50) with
    the last firing of the second countdown still to come; when it comes,
    [isPlaying] is set on the ended state and the next frame advances it:
    elapsed time, score and forward position all grow while [gameOver] is
    true. *)
Theorem late_countdown_resumes_ended_session :
  let c0 := Component3D.mounted classic (const_rnd 0.5) in
  let c1 := fst (Component3D.play c0 space_twice_then_crash) in
  let c2 := fst (Component3D.play c1 late_countdown_then_frame) in
  let ended := Component3D.game c1 in
  let later := Component3D.game c2 in
  (RacingGame3D.gameOver ended = true
   /\ RacingGame3D.isPlaying ended = false
   /\ Component3D.intervals c1 = [0%Z]
   /\ RacingGame3D.time ended == 1 / 60
   /\ RacingGame3D.score ended == 50)
  /\ (RacingGame3D.gameOver later = true
      /\ RacingGame3D.time later == 2 / 60
      /\ RacingGame3D.score later == 100
      /\ RacingGame3D.time ended < RacingGame3D.time later
      /\ RacingGame3D.score ended < RacingGame3D.score later
      /\ RacingGame3D.position ended < RacingGame3D.position later).
Proof.
  vm_compute. repeat split; reflexivity.
Qed.

(** ** C2: the session-end notification *)

(** The updater calls [onGameEnd] whenever its result has [gameOver] set,
    and [gameOver] is copied from the previous state: the step that ends
    the session [crash_start] notifies, and a further step on the ended
    state would notify again. *)
Lemma second_step_notifies_again :
  snd (RacingGame3D.gameLoop idle crash_start) <> None
  /\ RacingGame3D.gameOver crashed = true
  /\ snd (RacingGame3D.gameLoop idle crashed) <> None.
Proof.
  split; [| split]; [| reflexivity |];
    rewrite Facts3D.gameLoop_notifies_3D;
    match goal with
    | |- (if ?b then _ else _) <> _ => replace b with true by reflexivity
    end; discriminate.
Qed.

(** As long as nothing but frames touches the state, a session that
    starts with [gameOver] false emits [onGameEnd] at most once: nothing
    while [gameOver] is false, and exactly one notification, carrying the
    final score and elapsed time, once a frame has set [gameOver]; that
    frame also clears [isPlaying], so no later frame runs.  Both loops. *)
Lemma notification_once_per_session :
  (forall (inputs : list Input) (s : RacingGame3D.GameState),
      RacingGame3D.gameOver s = false ->
      let s' := fst (RacingGame3D.run s inputs) in
      let emitted := snd (RacingGame3D.run s inputs) in
      (RacingGame3D.gameOver s' = false /\ emitted = [])
      \/ (RacingGame3D.gameOver s' = true
          /\ RacingGame3D.isPlaying s' = false
          /\ emitted = [(RacingGame3D.score s', RacingGame3D.time s')]))
  /\ (forall (inputs : list Input) (s : RacingGame.GameState),
         RacingGame.gameOver s = false ->
         let s' := fst (RacingGame.run s inputs) in
         let emitted := snd (RacingGame.run s inputs) in
         (RacingGame.gameOver s' = false /\ emitted = [])
         \/ (RacingGame.gameOver s' = true
             /\ RacingGame.isPlaying s' = false
             /\ emitted = [(RacingGame.score s', RacingGame.time s')])).
Proof.
  split; intros inputs s G.
  - exact (Facts3D.run_notifications_3D inputs s G).
  - exact (Facts2D.run_notifications_2D inputs s G).
Qed.

Lemma notification_once_per_session_witness :
  RacingGame3D.gameOver crash_start = false
  /\ let s' := fst (RacingGame3D.run crash_start [idle; idle; idle]) in
     let emitted := snd (RacingGame3D.run crash_start [idle; idle; idle]) in
     (RacingGame3D.gameOver s' = false /\ emitted = [])
     \/ (RacingGame3D.gameOver s' = true
         /\ RacingGame3D.isPlaying s' = false
         /\ emitted = [(RacingGame3D.score s', RacingGame3D.time s')]).
Proof.
  split; [reflexivity |].
  exact (proj1 notification_once_per_session [idle; idle; idle] crash_start eq_refl).
Defined.

(** C2 fails on the mounted component, in a classic session in which
    Space is pressed twice within a second: the collision of the first
    frame emits [onGameEnd (50, 1/60)]; the second countdown, started by the
    second press of Space, then ends and sets [isPlaying] on the ended
    state, and the frame that follows emits [onGameEnd] a second time, with
    another score and another time, [(100, 2/60)]. *)
Theorem late_countdown_notifies_twice :
  let c0 := Component3D.mounted classic (const_rnd 0.5) in
  List.length (snd (Component3D.play c0 space_twice_then_crash)) = 1%nat
  /\ match snd (Component3D.play c0 (space_twice_then_crash ++ late_countdown_then_frame)) with
     | [first; second] =>
         fst first == 50 /\ snd first == 1 / 60
         /\ fst second == 100 /\ snd second == 2 / 60
     | _ => False
     end.
Proof.
  vm_compute. repeat split; reflexivity.
Qed.

(** ** C3: collisions, with and without health *)

(** C3, as the claim words it, fails on the 2D loop, whose state has no
    health: a competition session ends at its first collision.  In the
    session [before_collision_2D] (competition, 76 frames played, no
    notification so far) the next frame detects a collision, ends the
    session and notifies. *)
Lemma competition_ends_at_first_collision_2D :
  RacingGame.mode before_collision_2D = competition
  /\ RacingGame.isPlaying before_collision_2D = true
  /\ RacingGame.gameOver before_collision_2D = false
  /\ snd (RacingGame.run (RacingGame.start competition (const_rnd 0.5))
                         (step_right :: repeat idle 75)) = []
  /\ RacingGame.collisionDetected idle before_collision_2D = true
  /\ RacingGame.gameOver (fst (RacingGame.frame idle before_collision_2D)) = true
  /\ RacingGame.isPlaying (fst (RacingGame.frame idle before_collision_2D)) = false
  /\ snd (RacingGame.frame idle before_collision_2D) <> None.
Proof.
  vm_compute. repeat split; try reflexivity. discriminate.
Qed.

(** C3 (amended): in the 3D loop, in a mode with health (competition) a
    frame that detects a collision takes exactly 10 health points, floored
    at 0, and ends the session only if health is then 0 (the time limit
    apart); before the time limit, a competition session that starts with
    health 100 has health 10 and is not ended after 9 collision frames, and
    has health 0 and is ended after 10; in a mode without health a frame
    that detects a collision ends the session.  In the 2D loop, which has no
    health, a frame that detects a collision ends the session in every mode,
    competition included. *)
Theorem collision_resolution :
  (forall (i : Input) (s : RacingGame3D.GameState),
      let config := RacingGame3D.getModeConfig (RacingGame3D.mode s) in
      let s' := fst (RacingGame3D.gameLoop i s) in
      RacingGame3D.hasHealth config = true ->
      RacingGame3D.collisionDetected config i s = true ->
      RacingGame3D.health s' == Qmax (RacingGame3D.health s - 10) 0
      /\ (RacingGame3D.gameOver s' = true <->
          RacingGame3D.gameOver s = true
          \/ RacingGame3D.health s' <= 0
          \/ RacingGame3D.timeIsUp config (RacingGame3D.time s + 1 / 60) = true))
  /\ (forall (inputs : list Input) (s : RacingGame3D.GameState),
         let s' := fst (RacingGame3D.run s inputs) in
         RacingGame3D.mode s = competition ->
         RacingGame3D.isPlaying s = true -> RacingGame3D.isPaused s = false ->
         RacingGame3D.gameOver s = false ->
         RacingGame3D.health s == 100 ->
         RacingGame3D.time s
         + inject_Z (Z.of_nat (List.length inputs)) * (1 / 60) < 120 ->
         (Spec3D.collisionFrames s inputs = 9%nat ->
          RacingGame3D.health s' == 10 /\ RacingGame3D.gameOver s' = false)
         /\ (Spec3D.collisionFrames s inputs = 10%nat ->
             RacingGame3D.health s' == 0 /\ RacingGame3D.gameOver s' = true))
  /\ (forall (i : Input) (s : RacingGame3D.GameState),
         let config := RacingGame3D.getModeConfig (RacingGame3D.mode s) in
         let s' := fst (RacingGame3D.gameLoop i s) in
         RacingGame3D.hasHealth config = false ->
         RacingGame3D.collisionDetected config i s = true ->
         RacingGame3D.gameOver s' = true /\ RacingGame3D.isPlaying s' = false)
  /\ (forall (i : Input) (s : RacingGame.GameState),
         let s' := fst (RacingGame.gameLoop i s) in
         RacingGame.collisionDetected i s = true ->
         RacingGame.gameOver s' = true /\ RacingGame.isPlaying s' = false).
Proof.
  split; [| split; [| split]]; [| | | exact Facts2D.collision_ends_2D].
  - intros i s config s' HH C. subst s'. split.
    + change (RacingGame3D.health (fst (RacingGame3D.gameLoop i s)))
        with (RacingGame3D.newHealth config i s).
      unfold RacingGame3D.newHealth. rewrite C, HH. reflexivity.
    + rewrite Facts3D.gameOver_gameLoop_3D. fold config.
      change (RacingGame3D.health (fst (RacingGame3D.gameLoop i s)))
        with (RacingGame3D.newHealth config i s).
      unfold RacingGame3D.collisionEnds. rewrite C, HH. cbn [andb].
      rewrite !orb_true_iff, leb_true. tauto.
  - intros inputs s s' M P U G H T. subst s'.
    assert (H0 : 0 < RacingGame3D.health s) by lra.
    destruct (Facts3D.competition_health inputs s M P U G H0 T) as [A B].
    split; intros E; rewrite E in A, B.
    + change (inject_Z (Z.of_nat 9)) with 9 in A.
      destruct A as (A1 & A2 & _); [lra |]. split; [lra | exact A2].
    + change (inject_Z (Z.of_nat 10)) with 10 in B.
      apply B. lra.
  - intros i s config s' HH C. subst s'.
    rewrite Facts3D.gameOver_gameLoop_3D, Facts3D.isPlaying_gameLoop_3D.
    fold config. unfold RacingGame3D.collisionEnds. rewrite C, HH. cbn [andb].
    now rewrite orb_true_r.
Qed.

Lemma collision_resolution_witness :
  (RacingGame3D.health (fst (RacingGame3D.gameLoop idle pileup_start))
   == Qmax (RacingGame3D.health pileup_start - 10) 0
   /\ (RacingGame3D.gameOver (fst (RacingGame3D.gameLoop idle pileup_start)) = true <->
       RacingGame3D.gameOver pileup_start = true
       \/ RacingGame3D.health (fst (RacingGame3D.gameLoop idle pileup_start)) <= 0
       \/ RacingGame3D.timeIsUp (RacingGame3D.getModeConfig competition)
                                (RacingGame3D.time pileup_start + 1 / 60) = true))
  /\ (RacingGame3D.health (fst (RacingGame3D.run pileup_start (repeat idle 9))) == 10
   /\ RacingGame3D.gameOver (fst (RacingGame3D.run pileup_start (repeat idle 9))) = false)
  /\ (RacingGame3D.health (fst (RacingGame3D.run pileup_start (repeat idle 10))) == 0
      /\ RacingGame3D.gameOver (fst (RacingGame3D.run pileup_start (repeat idle 10))) = true)
  /\ (RacingGame3D.gameOver (fst (RacingGame3D.gameLoop idle crash_start)) = true
      /\ RacingGame3D.isPlaying (fst (RacingGame3D.gameLoop idle crash_start)) = false)
  /\ (RacingGame.gameOver (fst (RacingGame.gameLoop idle before_collision_2D)) = true
      /\ RacingGame.isPlaying (fst (RacingGame.gameLoop idle before_collision_2D)) = false).
Proof.
  split; [| split; [| split; [| split]]].
  - apply (proj1 collision_resolution idle pileup_start); reflexivity.
  - apply (proj1 (proj2 collision_resolution) (repeat idle 9) pileup_start);
      try reflexivity.
  - apply (proj1 (proj2 collision_resolution) (repeat idle 10) pileup_start);
      try reflexivity.
  - apply (proj1 (proj2 (proj2 collision_resolution)) idle crash_start); reflexivity.
  - apply (proj2 (proj2 (proj2 collision_resolution)) idle before_collision_2D).
    reflexivity.
Defined.

(** ** C4: the bounds of the speed *)

(** C4, as the claim words it, fails: in a competition session, after
    fourteen frames of nitro the speed is 20.4; on the next frame no key is
    held, nitro is not active, the session is still playing, and the speed
    is 20.3, above the mode's maximum of 20. *)
Lemma speed_above_modeMax_without_nitro :
  let config := RacingGame3D.getModeConfig competition in
  let s := fst (RacingGame3D.run (RacingGame3D.start competition (const_rnd 0)) nitro_burst) in
  let s' := fst (RacingGame3D.frame coasting s) in
  RacingGame3D.isPlaying s = true
  /\ RacingGame3D.usedNitro config (keys coasting) s = false
  /\ RacingGame3D.isPlaying s' = true
  /\ RacingGame3D.speed s' == 20.3
  /\ ~ RacingGame3D.speed s' <= RacingGame3D.maxSpeed config.
Proof.
  vm_compute. repeat split; try reflexivity. intros H. now apply H.
Qed.

(** C4 (amended): in every state of a session the speed is at least the
    brake floor (2 in the 3D loop, 0 in the 2D loop) and at most the mode's
    maximum, plus the boost ceiling of 5 in a mode that has nitro (the 2D
    loop: at most 15 in every mode).  On a frame where nitro is active the
    new speed is at most the maximum plus 5; on a frame where it is not, the
    new speed is at most the larger of the mode's maximum and the previous
    speed less 0.1: above the maximum it only decays. *)
Theorem speed_bounds :
  (forall (m : GameMode) (rnd0 : nat -> Q) (inputs : list Input) (i : Input),
      let config := RacingGame3D.getModeConfig m in
      let s := fst (RacingGame3D.run (RacingGame3D.start m rnd0) inputs) in
      let s' := fst (RacingGame3D.gameLoop i s) in
      (2 <= RacingGame3D.speed s
       /\ RacingGame3D.speed s
          <= RacingGame3D.maxSpeed config
             + (if RacingGame3D.hasNitro config then 5 else 0))
      /\ 2 <= RacingGame3D.speed s'
      /\ (RacingGame3D.usedNitro config (keys i) s = true ->
          RacingGame3D.speed s' <= RacingGame3D.maxSpeed config + 5)
      /\ (RacingGame3D.usedNitro config (keys i) s = false ->
          RacingGame3D.speed s'
          <= Qmax (RacingGame3D.maxSpeed config) (RacingGame3D.speed s - 0.1)))
  /\ (forall (m : GameMode) (rnd0 : nat -> Q) (inputs : list Input),
         let s := fst (RacingGame.run (RacingGame.start m rnd0) inputs) in
         0 <= RacingGame.speed s /\ RacingGame.speed s <= 15).
Proof.
  split.
  - intros m rnd0 inputs i config s s'.
    assert (M : RacingGame3D.mode s = m).
    { subst s. now rewrite Facts3D.mode_run_3D. }
    pose proof (Facts3D.speed_inv_run_3D inputs _ (Facts3D.speed_inv_start_3D m rnd0))
      as [L H].
    fold s in L, H. rewrite M in H. split; [split; [exact L | exact H] |].
    subst s'. rewrite Facts3D.speed_gameLoop_3D.
    pose proof (Facts3D.newSpeed_bounds_3D (keys i) s L) as B.
    rewrite M in *. exact B.
  - intros m rnd0 inputs s. subst s.
    apply Facts2D.speed_inv_run_2D. simpl. lra.
Qed.

Lemma speed_bounds_witness :
  let config := RacingGame3D.getModeConfig competition in
  let s := fst (RacingGame3D.run (RacingGame3D.start competition (const_rnd 0)) nitro_burst) in
  (RacingGame3D.usedNitro config (keys boosting) s = true
   /\ RacingGame3D.speed (fst (RacingGame3D.gameLoop boosting s))
      <= RacingGame3D.maxSpeed config + 5)
  /\ (RacingGame3D.usedNitro config (keys coasting) s = false
      /\ RacingGame3D.speed (fst (RacingGame3D.gameLoop coasting s))
         <= Qmax (RacingGame3D.maxSpeed config) (RacingGame3D.speed s - 0.1)).
Proof.
  intros config s. split; (split; [reflexivity |]).
  - apply (proj1 speed_bounds competition (const_rnd 0) nitro_burst boosting).
    reflexivity.
  - apply (proj1 speed_bounds competition (const_rnd 0) nitro_burst coasting).
    reflexivity.
Defined.

(** ** C5: the time limit of each mode *)

(** C5: the time check of a frame ends the session when the elapsed time,
    advanced by this frame, has reached the limit of the mode: 60 seconds
    for timeAttack, 30 for quickRace, 90 for classic, 120 for competition
    ([spec_timeLimit]); below the limit, and always in endless mode, the
    frame ends the session only by a collision.  Hence a session that has
    not ended is before its limit.  Both loops. *)
Theorem time_limit_by_mode :
  (forall (i : Input) (s : RacingGame3D.GameState),
      let config := RacingGame3D.getModeConfig (RacingGame3D.mode s) in
      let s' := fst (RacingGame3D.gameLoop i s) in
      match spec_timeLimit (RacingGame3D.mode s) with
      | Some limit =>
          (limit <= RacingGame3D.time s + 1 / 60 ->
           RacingGame3D.gameOver s' = true /\ RacingGame3D.isPlaying s' = false)
          /\ (RacingGame3D.time s + 1 / 60 < limit ->
              RacingGame3D.gameOver s'
              = RacingGame3D.gameOver s || RacingGame3D.collisionEnds config i s)
      | None =>
          RacingGame3D.gameOver s'
          = RacingGame3D.gameOver s || RacingGame3D.collisionEnds config i s
      end)
  /\ (forall (m : GameMode) (rnd0 : nat -> Q) (inputs : list Input) (limit : Q),
         let s := fst (RacingGame3D.run (RacingGame3D.start m rnd0) inputs) in
         spec_timeLimit m = Some limit ->
         RacingGame3D.gameOver s = false -> RacingGame3D.time s < limit)
  /\ (forall (i : Input) (s : RacingGame.GameState),
         let s' := fst (RacingGame.gameLoop i s) in
         match spec_timeLimit (RacingGame.mode s) with
         | Some limit =>
             (limit <= RacingGame.time s + 1 / 60 ->
              RacingGame.gameOver s' = true /\ RacingGame.isPlaying s' = false)
             /\ (RacingGame.time s + 1 / 60 < limit ->
                 RacingGame.gameOver s'
                 = RacingGame.gameOver s || RacingGame.collisionDetected i s)
         | None =>
             RacingGame.gameOver s'
             = RacingGame.gameOver s || RacingGame.collisionDetected i s
         end)
  /\ (forall (m : GameMode) (rnd0 : nat -> Q) (inputs : list Input) (limit : Q),
         let s := fst (RacingGame.run (RacingGame.start m rnd0) inputs) in
         spec_timeLimit m = Some limit ->
         RacingGame.gameOver s = false -> RacingGame.time s < limit).
Proof.
  split; [exact Facts3D.time_check_3D |]. split; [| split].
  - intros m rnd0 inputs limit s L. subst s.
    apply Facts3D.run_before_limit_3D; [exact L |].
    intros _. destruct m; simpl in L; try discriminate L;
      injection L as <-; reflexivity.
  - exact Facts2D.time_check_2D.
  - intros m rnd0 inputs limit s L. subst s.
    apply Facts2D.run_before_limit_2D; [exact L |].
    intros _. destruct m; simpl in L; try discriminate L;
      injection L as <-; reflexivity.
Qed.

Lemma time_limit_by_mode_witness :
  RacingGame3D.time (fst (RacingGame3D.run (RacingGame3D.start quickRace (const_rnd 0))
                                           [calm; calm; calm])) < 30
  /\ RacingGame.time (fst (RacingGame.run (RacingGame.start timeAttack (const_rnd 0))
                                          [calm; calm; calm])) < 60.
Proof.
  split.
  - apply (proj1 (proj2 time_limit_by_mode) quickRace (const_rnd 0) [calm; calm; calm] 30);
      reflexivity.
  - apply (proj2 (proj2 (proj2 time_limit_by_mode))
                 timeAttack (const_rnd 0) [calm; calm; calm] 60);
      reflexivity.
Defined.

(** ** C6: enemies are recycled, never added or removed *)



(** ** C7: the score of a frame *)

(** C7, as the claim words it, fails on the 2D loop, which has no
    multiplier.  In the classic 2D session [at_full_speed_2D] the speed is
    at the cap of 15, above 90% of it; the next frame adds 15 * 10 = 150 to
    the score, not the 15 * 10 * 1.2 = 180 of the claim. *)
Lemma score_without_multiplier_2D :
  let s := at_full_speed_2D in
  let s' := fst (RacingGame.frame accelerate s) in
  RacingGame.isPlaying s = true /\ RacingGame.isPaused s = false
  /\ RacingGame.speed s' == 15
  /\ Spec3D.spec_multiplier false 0 (RacingGame.speed s') 15 == 1.2
  /\ RacingGame.score s' == RacingGame.score s + 150
  /\ ~ RacingGame.score s'
       == RacingGame.score s
          + RacingGame.speed s' * 10
            * Spec3D.spec_multiplier false 0 (RacingGame.speed s') 15.
Proof.
  vm_compute. repeat split; try reflexivity. discriminate.
Qed.

(** C7 (amended): in the 3D loop a frame adds to the score the new speed
    times 10 times the multiplier, and the multiplier is the sum
    [spec_multiplier]: 1, plus 0.5 if nitro was consumed on the frame, plus
    0.3 if the perfect-driving counter is above 60, plus 0.2 if the new
    speed is above 90% of the mode's maximum.  Nitro is consumed exactly on
    the frames that set [usedNitro]: the meter then loses 0.5 (floored at
    0), and otherwise does not fall while it is at most 100.  In the 2D
    loop a frame adds the new speed times 10, with no multiplier. *)
Theorem score_increment :
  (forall (i : Input) (s : RacingGame3D.GameState),
    let config := RacingGame3D.getModeConfig (RacingGame3D.mode s) in
    let s' := fst (RacingGame3D.gameLoop i s) in
    let nitroConsumed := RacingGame3D.usedNitro config (keys i) s in
    RacingGame3D.score s'
    == RacingGame3D.score s
       + RacingGame3D.speed s' * 10
         * Spec3D.spec_multiplier nitroConsumed (RacingGame3D.perfectDriving s')
                                  (RacingGame3D.speed s') (RacingGame3D.maxSpeed config)
    /\ (nitroConsumed = true ->
        RacingGame3D.nitroBoost s' == Qmax (RacingGame3D.nitroBoost s - 0.5) 0
        /\ RacingGame3D.nitroBoost s' < RacingGame3D.nitroBoost s)
    /\ (nitroConsumed = false -> RacingGame3D.nitroBoost s <= 100 ->
        RacingGame3D.nitroBoost s <= RacingGame3D.nitroBoost s'))
  /\ (forall (i : Input) (s : RacingGame.GameState),
        let s' := fst (RacingGame.gameLoop i s) in
        RacingGame.score s' == RacingGame.score s + RacingGame.speed s' * 10).
Proof.
  split.
  - intros i s config s' nitroConsumed. split; [| split].
    + subst s'. rewrite Facts3D.score_gameLoop_eq_3D.
      rewrite (Facts3D.scoreMultiplier_spec i s). reflexivity.
    + apply Facts3D.nitro_consumed.
    + apply Facts3D.nitro_not_consumed.
  - intros i s s'. subst s'. cbn [RacingGame.gameLoop fst RacingGame.score RacingGame.speed].
    reflexivity.
Qed.

(** The three bonuses add up: with all of them the multiplier is 2, and
    not the product 1.5 * 1.3 * 1.2. *)
Lemma spec_multiplier_additive :
  Spec3D.spec_multiplier true 61 20 20 == 2
  /\ Spec3D.spec_multiplier true 61 20 20 == 1 + 0.5 + 0.3 + 0.2
  /\ ~ Spec3D.spec_multiplier true 61 20 20 == 1.5 * 1.3 * 1.2.
Proof. repeat split; vm_compute; discriminate. Qed.

Lemma score_increment_witness :
  let s := fst (RacingGame3D.run (RacingGame3D.start competition (const_rnd 0)) nitro_burst) in
  (RacingGame3D.usedNitro (RacingGame3D.getModeConfig competition) (keys boosting) s = true
   /\ RacingGame3D.nitroBoost (fst (RacingGame3D.gameLoop boosting s))
      < RacingGame3D.nitroBoost s)
  /\ (RacingGame3D.usedNitro (RacingGame3D.getModeConfig competition) (keys coasting) s = false
      /\ RacingGame3D.nitroBoost s <= 100
      /\ RacingGame3D.nitroBoost s
         <= RacingGame3D.nitroBoost (fst (RacingGame3D.gameLoop coasting s))).
Proof.
  intros s. split.
  - split; [reflexivity |].
    apply (proj1 (proj2 (proj1 score_increment boosting s))). reflexivity.
  - split; [reflexivity |]. split; [vm_compute; discriminate |].
    apply (proj2 (proj2 (proj1 score_increment coasting s))).
    + reflexivity.
    + vm_compute; discriminate.
Defined.

(** ** C8: the score never decreases *)

(** C8: in every state of a session the score is non-negative, and a frame
    (whether the loop runs or not) does not decrease it.  Both loops. *)
Theorem score_monotone :
  (forall (m : GameMode) (rnd0 : nat -> Q) (inputs : list Input) (i : Input),
      let s := fst (RacingGame3D.run (RacingGame3D.start m rnd0) inputs) in
      0 <= RacingGame3D.score s
      /\ RacingGame3D.score s <= RacingGame3D.score (fst (RacingGame3D.gameLoop i s))
      /\ RacingGame3D.score s <= RacingGame3D.score (fst (RacingGame3D.frame i s)))
  /\ (forall (m : GameMode) (rnd0 : nat -> Q) (inputs : list Input) (i : Input),
         let s := fst (RacingGame.run (RacingGame.start m rnd0) inputs) in
         0 <= RacingGame.score s
         /\ RacingGame.score s <= RacingGame.score (fst (RacingGame.gameLoop i s))
         /\ RacingGame.score s <= RacingGame.score (fst (RacingGame.frame i s))).
Proof.
  split; intros m rnd0 inputs i s.
  - assert (I : 2 <= RacingGame3D.speed s /\ 0 <= RacingGame3D.score s).
    { subst s. apply Facts3D.score_inv_run_3D. simpl. split; lra. }
    destruct I as [V S]. split; [exact S |].
    pose proof (Facts3D.score_gameLoop_3D i s V) as G. split; [exact G |].
    destruct (Facts3D.frame_cases_3D i s) as [[E _] | [E _]]; rewrite E;
      [apply Qle_refl | exact G].
  - assert (I : 0 <= RacingGame.speed s <= 15 /\ 0 <= RacingGame.score s).
    { subst s. apply Facts2D.score_inv_run_2D. simpl. repeat split; lra. }
    destruct I as [V S]. split; [exact S |].
    pose proof (Facts2D.score_gameLoop_2D i s V) as G. split; [exact G |].
    destruct (Facts2D.frame_cases_2D i s) as [[E _] | [E _]]; rewrite E;
      [apply Qle_refl | exact G].
Qed.

(** ** C9: the 2D loop against the 3D loop *)

(** C9, as the claim words it, fails: after one frame without keys the
    classic sessions of the two loops agree on every shared field; from
    there, with the same key held down and the same oracle, the 2D loop
    accelerates to 5.5 and the 3D loop to 5.3, and the scores and positions
    differ with them. *)
Lemma loops_differ_on_speed :
  shared_fields_agree after_one_2D after_one_3D
  /\ RacingGame.speed (fst (RacingGame.gameLoop accelerate after_one_2D)) == 5.5
  /\ RacingGame3D.speed (fst (RacingGame3D.gameLoop accelerate after_one_3D)) == 5.3
  /\ ~ RacingGame.speed (fst (RacingGame.gameLoop accelerate after_one_2D))
       == RacingGame3D.speed (fst (RacingGame3D.gameLoop accelerate after_one_3D))
  /\ ~ RacingGame.score (fst (RacingGame.gameLoop accelerate after_one_2D))
       == RacingGame3D.score (fst (RacingGame3D.gameLoop accelerate after_one_3D)).
Proof.
  unfold shared_fields_agree. vm_compute.
  repeat split; try reflexivity; discriminate.
Qed.

(** C9 (amended): the two loops share a skeleton, not their values.  From
    states with the same mode and elapsed time, and for any inputs, both
    frames add 1/60 to the elapsed time and reach the same verdict of the
    time check; each adds its own new speed to its forward position, and
    its own new speed times 10 to its score, the 3D loop times a multiplier
    of at least 1.  The claim does not extend to the speed, the lateral
    position, the enemies, the collision or the score. *)
Theorem loops_common_skeleton :
  forall (i2 i3 : Input) (s2 : RacingGame.GameState) (s3 : RacingGame3D.GameState),
    let s2' := fst (RacingGame.gameLoop i2 s2) in
    let s3' := fst (RacingGame3D.gameLoop i3 s3) in
    RacingGame.mode s2 = RacingGame3D.mode s3 ->
    RacingGame.time s2 == RacingGame3D.time s3 ->
    RacingGame.mode s2' = RacingGame3D.mode s3'
    /\ RacingGame.time s2' == RacingGame3D.time s3'
    /\ RacingGame.timeIsUp (RacingGame.getModeConfig (RacingGame.mode s2))
                           (RacingGame.time s2')
       = RacingGame3D.timeIsUp (RacingGame3D.getModeConfig (RacingGame3D.mode s3))
                               (RacingGame3D.time s3')
    /\ RacingGame.position s2' == RacingGame.position s2 + RacingGame.speed s2'
    /\ RacingGame3D.position s3' == RacingGame3D.position s3 + RacingGame3D.speed s3'
    /\ RacingGame.score s2' == RacingGame.score s2 + RacingGame.speed s2' * 10
    /\ (exists k : Q,
           1 <= k
           /\ RacingGame3D.score s3'
              == RacingGame3D.score s3 + RacingGame3D.speed s3' * 10 * k).
Proof.
  intros i2 i3 s2 s3 s2' s3' M T. subst s2' s3'.
  cbn [RacingGame.gameLoop RacingGame3D.gameLoop fst
       RacingGame.mode RacingGame3D.mode RacingGame.time RacingGame3D.time
       RacingGame.position RacingGame3D.position
       RacingGame.score RacingGame3D.score RacingGame.speed RacingGame3D.speed].
  split; [exact M |]. split; [now rewrite T |]. split.
  - unfold RacingGame.timeIsUp, RacingGame3D.timeIsUp.
    rewrite Facts2D.timeLimit_table_2D, Facts3D.timeLimit_table_3D, M.
    destruct (spec_timeLimit (RacingGame3D.mode s3)) as [limit |]; [| reflexivity].
    unfold JS.geb.
    destruct (JS.leb limit (RacingGame.time s2 + 1 / 60)) eqn:A;
      destruct (JS.leb limit (RacingGame3D.time s3 + 1 / 60)) eqn:B;
      try reflexivity;
      [apply leb_true in A; apply leb_false in B
      | apply leb_false in A; apply leb_true in B];
      frame_time; lra.
  - repeat split; try reflexivity.
    exists (RacingGame3D.scoreMultiplier
              (RacingGame3D.getModeConfig (RacingGame3D.mode s3)) i3 s3).
    split; [apply Facts3D.scoreMultiplier_ge_1 | reflexivity].
Qed.

Lemma loops_common_skeleton_witness :
  RacingGame.time (fst (RacingGame.gameLoop accelerate after_one_2D))
  == RacingGame3D.time (fst (RacingGame3D.gameLoop accelerate after_one_3D)).
Proof.
  apply (loops_common_skeleton accelerate accelerate after_one_2D after_one_3D);
    reflexivity.
Defined.

(** ** C10: the lane of an enemy *)

(** Where the lane computed for the player is an index of [LANES]: the road
    lets the player reach [-4] and [4], the lanes stop at [-2] and [2]. *)
Lemma playerLane_range (x : Q) :
  -4 <= x <= 4 ->
  (-1 <= JS.round ((x + 2) / 2) <= 3)%Z
  /\ (x < -3 -> JS.round ((x + 2) / 2) = (-1)%Z)
  /\ (3 <= x -> JS.round ((x + 2) / 2) = 3%Z).
Proof.
  intros [L H]. unfold JS.round.
  set (q := (x + 2) / 2 + 0.5).
  assert (Q1 : q == x * 0.5 + 1.5) by (unfold q; field).
  clearbody q.
  pose proof (Qfloor_le q) as F1. pose proof (Qlt_floor q) as F2.
  rewrite inject_Z_plus in F2. change (inject_Z 1) with 1 in F2.
  assert (B : forall a b : Z, inject_Z a < inject_Z b + 1 -> (a <= b)%Z).
  { intros a b Hab. change 1 with (inject_Z 1) in Hab.
    rewrite <- inject_Z_plus, <- Zlt_Qlt in Hab. lia. }
  assert (Lo : (-1 <= Qfloor q)%Z).
  { apply B. change (inject_Z (-1)) with (-1). lra. }
  assert (Hi : (Qfloor q <= 3)%Z).
  { apply B. change (inject_Z 3) with 3. lra. }
  split; [lia |]. split; intros C.
  - assert (Qfloor q <= -1)%Z; [| lia].
    apply B. change (inject_Z (-1)) with (-1). lra.
  - assert (3 <= Qfloor q)%Z; [| lia].
    apply B. change (inject_Z 3) with 3. lra.
Qed.

(** C10 fails on the 3D loop.  In the competition session [blocking_start]
    the player steers right for 31 frames ([approach]); every enemy is then
    in a lane and the session is playing.  On the next frame the enemy at
    index 9, in the right lane and within 5 units of the player, shifts
    toward the lane computed for the player, which is 3: its lane index
    leaves [LANES] and its lateral position is undefined. *)
Lemma blocking_shift_leaves_lanes :
  let s := fst (RacingGame3D.run blocking_start approach) in
  let s' := fst (RacingGame3D.frame (steer_right 0) s) in
  RacingGame3D.isPlaying s = true
  /\ RacingGame3D.playerX s == 3.1
  /\ forallb inLane (RacingGame3D.enemies s) = true
  /\ RacingGame3D.isPlaying s' = true
  /\ forallb inLane (RacingGame3D.enemies s') = false
  /\ exists e, nth_error (RacingGame3D.enemies s') 9 = Some e
               /\ RacingGame3D.e_lane e = 3%Z
               /\ RacingGame3D.e_x e = None
               /\ JS.index RacingGame3D.LANES (RacingGame3D.e_lane e) = None.
Proof.
  vm_compute. repeat split; try reflexivity.
  eexists. repeat split; reflexivity.
Qed.

(** * Further properties of the components *)

(** Every element built by [Array.from] satisfies what its generator
    ensures on the indices of the array. *)
Lemma arrayFrom_Forall {B : Type} (P : B -> Prop) (f : Z -> Rand B) (k : nat) (i : Z)
      (rnd : nat -> Q) (n : nat) :
  (forall j n', (i <= j < i + Z.of_nat k)%Z -> P (fst (f j rnd n'))) ->
  Forall P (fst (arrayFrom f k i rnd n)).
Proof.
  revert i n. induction k as [| k IH]; intros i n H; simpl.
  - constructor.
  - unfold bind. destruct (f i rnd n) as [b n1] eqn:E.
    assert (IH' : Forall P (fst (arrayFrom f k (i + 1)%Z rnd n1))).
    { apply IH. intros j n' Hj. apply H. lia. }
    destruct (arrayFrom f k (i + 1)%Z rnd n1) as [bs n2]. simpl in *.
    constructor; [| exact IH'].
    specialize (H i n). rewrite E in H. apply H. lia.
Qed.


(** What the callback keeps of every element, [map] keeps of the array. *)
Lemma mapM_map_preserved {A C : Type} (g : A -> C) (f : A -> Rand A) (l : list A)
      (rnd : nat -> Q) (n : nat) :
  (forall a n', g (fst (f a rnd n')) = g a) ->
  map g (fst (mapM f l rnd n)) = map g l.
Proof.
  intros H. revert n. induction l as [| a l IH]; intros n; [reflexivity |].
  simpl. unfold bind. destruct (f a rnd n) as [b n1] eqn:E.
  specialize (IH n1). destruct (mapM f l rnd n1) as [bs n2]. simpl in *.
  rewrite IH. f_equal. specialize (H a n). now rewrite E in H.
Qed.


(** ** Sessions of the 3D loop: what every state satisfies *)

Module Invariants3D.
Import RacingGame3D.

(** An invariant of the updater that holds at the start holds in every
    state of a session. *)
Lemma session_invariant_3D (P : GameState -> Prop) :
  (forall i s, P s -> P (fst (gameLoop i s))) ->
  forall inputs s, P s -> P (fst (run s inputs)).
Proof.
  intros Step inputs. induction inputs as [| i rest IH]; intros s H; [exact H |].
  rewrite Facts3D.run_cons_3D. cbn [fst]. apply IH.
  destruct (Facts3D.frame_cases_3D i s) as [[E _] | [E _]]; rewrite E;
    [exact H | now apply Step].
Qed.

Lemma inject_Z_lt_inv (a b : Z) : inject_Z a < inject_Z b -> (a < b)%Z.
Proof. now rewrite <- Zlt_Qlt. Qed.

Lemma inject_Z_le_inv (a b : Z) : inject_Z a <= inject_Z b -> (a <= b)%Z.
Proof. now rewrite <- Zle_Qle. Qed.

(** *** Lateral position *)

Lemma newPlayerX_window_3D (keys : list string) (s : GameState) :
  -4.1 <= playerX s <= 4.1 -> -4.1 <= newPlayerX keys s <= 4.1.
Proof.
  intros H. unfold newPlayerX, JS.gtb.
  destruct (JS.has keys "ArrowLeft"); destruct (JS.has keys "ArrowRight");
    cbn [andb]; compare_cases; lra.
Qed.

(** Beyond the marks at -4 and 4 the steering step is not taken. *)
Lemma newPlayerX_blocked_3D (keys : list string) (s : GameState) :
  (4 <= playerX s -> newPlayerX keys s <= playerX s)
  /\ (playerX s <= -4 -> playerX s <= newPlayerX keys s).
Proof.
  unfold newPlayerX, JS.gtb.
  destruct (JS.has keys "ArrowLeft"); destruct (JS.has keys "ArrowRight");
    cbn [andb]; compare_cases; split; intros; lra.
Qed.

(** *** Meters *)

Lemma newNitroBoost_range (config : ModeConfig) (keys : list string) (s : GameState) :
  0 <= nitroBoost s <= 100 -> 0 <= newNitroBoost config keys s <= 100.
Proof.
  intros H. unfold newNitroBoost.
  destruct (usedNitro config keys s);
    [| destruct (hasNitro config && negb false)]; minmax; lra.
Qed.

Lemma newNitroBoost_without_nitro (config : ModeConfig) (keys : list string) (s : GameState) :
  hasNitro config = false -> newNitroBoost config keys s = nitroBoost s.
Proof.
  intros H. unfold newNitroBoost, usedNitro. now rewrite H.
Qed.

Lemma newHealth_range (config : ModeConfig) (i : Input) (s : GameState) :
  0 <= health s <= 100 ->
  0 <= newHealth config i s <= 100 /\ newHealth config i s <= health s.
Proof.
  intros H. unfold newHealth.
  destruct (collisionDetected config i s && hasHealth config); minmax; lra.
Qed.

Lemma newHealth_without_health (config : ModeConfig) (i : Input) (s : GameState) :
  hasHealth config = false -> newHealth config i s = health s.
Proof.
  intros H. unfold newHealth. rewrite H. now rewrite andb_false_r.
Qed.

(** *** Rank *)

Lemma rank_fold (l : list Enemy) (r : Z) :
  fold_left (fun rank enemy => if JS.gtb (e_z enemy) 0 then (rank + 1)%Z else rank) l r
  = (r + Session3D.ahead l)%Z.
Proof.
  unfold Session3D.ahead. revert r. induction l as [| e l IH]; intros r.
  - simpl. lia.
  - simpl. rewrite IH. destruct (JS.gtb (e_z e) 0); simpl List.length; lia.
Qed.

Lemma ahead_bounds (l : list Enemy) :
  (0 <= Session3D.ahead l <= Z.of_nat (List.length l))%Z.
Proof.
  unfold Session3D.ahead.
  pose proof (filter_length_le (fun enemy => JS.gtb (e_z enemy) 0) l). lia.
Qed.

Lemma newCompetitionRank_value (i : Input) (s : GameState) :
  let config := getModeConfig (mode s) in
  List.length (enemies s) = cfg_enemies config ->
  newCompetitionRank config i s =
  if aggressiveAI config
  then (1 + Session3D.ahead (newEnemies config i s))%Z
  else competitionRank s.
Proof.
  intros config L. unfold newCompetitionRank.
  destruct (aggressiveAI config); [| reflexivity].
  rewrite rank_fold.
  pose proof (ahead_bounds (newEnemies config i s)) as B.
  rewrite Facts3D.length_newEnemies_3D, L in B. lia.
Qed.

(** *** Elapsed time, last collision *)

Lemma framesRun_cons_3D (i : Input) (rest : list Input) (s : GameState) :
  Session3D.framesRun s (i :: rest) =
  ((if isPlaying s && negb (isPaused s) then 1 else 0)
   + Session3D.framesRun (fst (frame i s)) rest)%nat.
Proof. reflexivity. Qed.

Lemma framesRun_le_3D (inputs : list Input) (s : GameState) :
  (Session3D.framesRun s inputs <= List.length inputs)%nat.
Proof.
  revert s. induction inputs as [| i rest IH]; intros s; [apply Nat.le_refl |].
  rewrite framesRun_cons_3D. specialize (IH (fst (frame i s))).
  cbn [List.length]. destruct (isPlaying s && negb (isPaused s)); lia.
Qed.

Lemma time_gameLoop_3D (i : Input) (s : GameState) :
  time s <= time (fst (gameLoop i s)).
Proof. cbn [gameLoop fst time]. frame_time. lra. Qed.

Lemma time_monotone_3D (inputs : list Input) (s : GameState) :
  time s <= time (fst (run s inputs)).
Proof.
  apply (session_invariant_3D (fun s' => time s <= time s')); [| apply Qle_refl].
  intros i s' H. pose proof (time_gameLoop_3D i s'). lra.
Qed.

Lemma lastCollision_gameLoop (i : Input) (s : GameState) :
  0 <= lastCollision s <= time s ->
  0 <= lastCollision (fst (gameLoop i s)) <= time (fst (gameLoop i s)).
Proof.
  intros H. cbn [gameLoop fst lastCollision time].
  destruct (collisionDetected (getModeConfig (mode s)) i s); frame_time; lra.
Qed.

(** *** Road offset *)

Lemma trunc_floor (a : Q) : 0 <= a -> JS.trunc a = Qfloor a.
Proof.
  destruct a as [n d]. unfold JS.trunc, Qfloor, Qle. simpl.
  intros H. apply Z.quot_div_nonneg; lia.
Qed.

Lemma rem_range (a m : Q) : 0 <= a -> 0 < m -> 0 <= JS.rem a m /\ JS.rem a m < m.
Proof.
  intros A M. unfold JS.rem.
  assert (D : 0 <= a / m) by (apply Qle_shift_div_l; [exact M | lra]).
  rewrite (trunc_floor _ D).
  pose proof (Qfloor_le (a / m)) as F1. pose proof (Qlt_floor (a / m)) as F2.
  rewrite inject_Z_plus in F2. change (inject_Z 1) with 1 in F2.
  set (f := inject_Z (Qfloor (a / m))) in *. clearbody f.
  assert (E : a == a / m * m) by (field; lra).
  set (q := a / m) in *. clearbody q. nra.
Qed.

(** *** Perfect-driving counter *)

Lemma newPerfectDriving_step (config : ModeConfig) (keys : list string) (s : GameState) :
  (perfectDriving s <= newPerfectDriving config keys s <= perfectDriving s + 1)%Z.
Proof.
  unfold newPerfectDriving.
  destruct (JS.ltb (Qabs (newPlayerX keys s)) 1
            && JS.gtb (newSpeed config keys s) (maxSpeed config * 0.8)); lia.
Qed.

Lemma perfectDriving_run (inputs : list Input) (s : GameState) :
  (perfectDriving s <= perfectDriving (fst (run s inputs))
   <= perfectDriving s + Z.of_nat (Session3D.framesRun s inputs))%Z.
Proof.
  revert s. induction inputs as [| i rest IH]; intros s.
  - cbn [run fst Session3D.framesRun]. lia.
  - rewrite Facts3D.run_cons_3D, framesRun_cons_3D. cbn [fst].
    specialize (IH (fst (frame i s))).
    destruct (Facts3D.frame_cases_3D i s) as [[E [P | P]] | [E [P U]]];
      rewrite E in *; cbn [fst] in *; rewrite P; try rewrite U; cbn [negb andb];
      try rewrite andb_false_r; try lia.
    pose proof (newPerfectDriving_step (getModeConfig (mode s)) (keys i) s) as D.
    change (perfectDriving (fst (gameLoop i s)))
      with (newPerfectDriving (getModeConfig (mode s)) (keys i) s) in IH.
    lia.
Qed.

(** *** Collision geometry *)

Lemma overlaps_near_3D (px x : Q) (e : Enemy) :
  e_x e = Some x -> Qabs (px - x) <= 0.79 -> Qabs (e_z e) <= 1.59 ->
  overlaps px e = true.
Proof.
  intros E. unfold overlaps. rewrite E.
  unfold JS.gtb. rewrite !andb_true_iff, !ltb_true.
  apply Qabs_case; intros ? A; apply Qabs_case; intros ? B; repeat split; lra.
Qed.

Lemma overlaps_far_3D (px : Q) (e : Enemy) :
  overlaps px e = true ->
  exists x, e_x e = Some x /\ Qabs (px - x) < 0.81 /\ Qabs (e_z e) < 1.61.
Proof.
  unfold overlaps. destruct (e_x e) as [x |]; [| discriminate].
  unfold JS.gtb. rewrite !andb_true_iff, !ltb_true.
  intros [[[A B] C] D]. exists x. split; [reflexivity |].
  split; apply Qabs_case; intros; lra.
Qed.

(** *** Enemies in their lanes, without the aggressive AI *)

Lemma inLane_spec (e : Enemy) :
  inLane e = true <->
  (0 <= e_lane e < 3)%Z /\ exists x, e_x e = Some x /\ existsb (Qeq_bool x) LANES = true.
Proof.
  unfold inLane. rewrite !andb_true_iff, Z.leb_le, Z.ltb_lt.
  change (Z.of_nat (List.length LANES)) with 3%Z.
  destruct (e_x e) as [x |].
  - split.
    + intros [[A B] C]. split; [lia | now exists x].
    + intros [[A B] (x' & [= <-] & C)]. auto.
  - split; [intros [_ C]; discriminate | intros [_ (x & [=] & _)]].
Qed.

Lemma inLane_random (rl : Q) (speed' aggr : Q) (color : option string) (z : Q) :
  0 <= rl /\ rl < 1 ->
  inLane {| e_x := JS.index LANES (JS.floor (rl * 3)); e_z := z; e_speed := speed';
            e_lane := JS.floor (rl * 3); e_color := color;
            e_aggressiveness := aggr |} = true.
Proof.
  intros R. pose proof (floor_random_range rl 3 R eq_refl) as F.
  change (inject_Z 3) with 3 in F.
  apply inLane_spec. cbn [e_lane e_x]. split; [exact F |].
  assert (JS.floor (rl * 3) = 0 \/ JS.floor (rl * 3) = 1 \/ JS.floor (rl * 3) = 2)%Z
    as [-> | [-> | ->]] by lia; eexists; split; reflexivity.
Qed.

Lemma updateEnemy_inLane (config : ModeConfig) (px : Q) (e : Enemy)
      (rnd : nat -> Q) (n : nat) :
  aggressiveAI config = false -> unit_interval rnd ->
  inLane e = true -> inLane (fst (updateEnemy config px e rnd n)) = true.
Proof.
  intros A R H. unfold updateEnemy. rewrite A. cbn [andb].
  destruct (JS.gtb (e_z e + e_speed e) 15).
  - cbn [bind random ret fst]. apply (inLane_random (rnd (S n))), R.
  - cbn [ret fst]. exact H.
Qed.


(** *** Speed, depth and aggressiveness of the enemies *)

Lemma updateEnemy_ok (m : GameMode) (config : ModeConfig) (px : Q) (e : Enemy)
      (rnd : nat -> Q) (n : nat) :
  unit_interval rnd ->
  Session3D.enemy_ok m e -> Session3D.enemy_ok m (fst (updateEnemy config px e rnd n)).
Proof.
  intros R (S1 & S2 & Z1 & Z2 & A). unfold updateEnemy.
  destruct (JS.gtb (e_z e + e_speed e) 15) eqn:G.
  - cbn [bind random ret fst]. unfold Session3D.enemy_ok. cbn [e_speed e_z e_aggressiveness].
    pose proof (R n). pose proof (R (S (S n))).
    repeat split; try lra. exact A.
  - apply ltb_false in G.
    assert (K : forall x l, Session3D.enemy_ok m
                  {| e_x := x; e_z := e_z e + e_speed e; e_speed := e_speed e;
                     e_lane := l; e_color := e_color e;
                     e_aggressiveness := e_aggressiveness e |}).
    { intros x l. unfold Session3D.enemy_ok. cbn [e_speed e_z e_aggressiveness].
      repeat split; try lra. exact A. }
    repeat first
      [ progress cbn [bind random ret fst]
      | match goal with
        | |- context [if ?c then _ else _] => destruct c
        end ];
      apply K.
Qed.

Lemma initEnemy_ok (m : GameMode) (j : Z) (rnd : nat -> Q) (n : nat) :
  unit_interval rnd -> (0 <= j < 15)%Z ->
  Session3D.enemy_ok m (fst (initEnemy (getModeConfig m) j rnd n))
  /\ inLane (fst (initEnemy (getModeConfig m) j rnd n)) = true.
Proof.
  intros R J. unfold initEnemy.
  assert (JQ : 0 <= inject_Z j /\ inject_Z j <= 14).
  { change 0 with (inject_Z 0). change 14 with (inject_Z 14).
    rewrite <- !Zle_Qle. lia. }
  pose proof (R n). pose proof (R (S n)). pose proof (R (S (S n))).
  pose proof (R (S (S (S (S n))))).
  pose proof (floor_random_range _ 3 (R n) eq_refl) as Fx.
  pose proof (floor_random_range _ 3 (R (S (S n))) eq_refl) as Fl.
  change (inject_Z 3) with 3 in Fx, Fl.
  assert (L : inLane {| e_x := JS.index LANES (JS.floor (rnd n * 3));
                        e_z := - inject_Z j * 3 - 5;
                        e_speed := 3 + rnd (S n) * 2;
                        e_lane := JS.floor (rnd (S (S n)) * 3);
                        e_color := JS.index ENEMY_COLORS
                                     (JS.floor (rnd (S (S (S n))) * 6));
                        e_aggressiveness := 0 |} = true).
  { apply inLane_spec. cbn [e_lane e_x]. split; [exact Fl |].
    assert (JS.floor (rnd n * 3) = 0 \/ JS.floor (rnd n * 3) = 1
            \/ JS.floor (rnd n * 3) = 2)%Z
      as [-> | [-> | ->]] by lia; eexists; split; reflexivity. }
  destruct m; cbn [getModeConfig aggressiveAI bind random ret fst];
    (split; [unfold Session3D.enemy_ok;
             cbn [e_speed e_z e_aggressiveness getModeConfig aggressiveAI];
             repeat split; try lra; try reflexivity
            | exact L]).
Qed.

Lemma cfg_enemies_le_15 (m : GameMode) : (cfg_enemies (getModeConfig m) <= 15)%nat.
Proof. destruct m; simpl; lia. Qed.

Lemma start_enemies_ok (m : GameMode) (rnd0 : nat -> Q) :
  unit_interval rnd0 ->
  Forall (fun e => Session3D.enemy_ok m e /\ inLane e = true) (enemies (start m rnd0)).
Proof.
  intros R. cbn [start countdownEnd initGame enemies initialState mode].
  apply arrayFrom_Forall. intros j n' J. apply initEnemy_ok; [exact R |].
  pose proof (cfg_enemies_le_15 m). lia.
Qed.


(** The same for an invariant that relies on a property of every input. *)
Lemma session_invariant_inputs_3D (P : GameState -> Prop) (I : Input -> Prop) :
  (forall i s, I i -> P s -> P (fst (gameLoop i s))) ->
  forall inputs s, Forall I inputs -> P s -> P (fst (run s inputs)).
Proof.
  intros Step inputs. induction inputs as [| i rest IH]; intros s F H; [exact H |].
  rewrite Facts3D.run_cons_3D. cbn [fst]. inversion F as [| ? ? Fi Frest]; subst.
  apply IH; [exact Frest |].
  destruct (Facts3D.frame_cases_3D i s) as [[E _] | [E _]]; rewrite E;
    [exact H | now apply Step].
Qed.

Lemma enemies_invariant_3D (m : GameMode) (P : Enemy -> Prop) :
  (forall config px e rnd n, unit_interval rnd -> aggressiveAI config = aggressiveAI (getModeConfig m) ->
                             P e -> P (fst (updateEnemy config px e rnd n))) ->
  forall (rnd0 : nat -> Q) (inputs : list Input),
    Forall P (enemies (start m rnd0)) ->
    Forall (fun i => unit_interval (rnd i)) inputs ->
    Forall P (enemies (fst (run (start m rnd0) inputs))).
Proof.
  intros Step rnd0 inputs H0 R.
  assert (G : mode (fst (run (start m rnd0) inputs)) = m
              /\ Forall P (enemies (fst (run (start m rnd0) inputs)))); [| apply G].
  apply (session_invariant_inputs_3D
           (fun s => mode s = m /\ Forall P (enemies s))
           (fun i => unit_interval (rnd i))); [| exact R | now split].
  intros i s Ri [M F]. split; [exact M |].
  rewrite Facts3D.enemies_gameLoop_3D. unfold newEnemies.
  apply mapM_Forall. intros a n' Hin. apply Step; [exact Ri | now rewrite M |].
  rewrite Forall_forall in F. now apply F.
Qed.


End Invariants3D.

(** ** Sessions of the 2D loop: what every state satisfies *)

Module Invariants2D.
Import RacingGame.

Lemma session_invariant_inputs_2D (P : GameState -> Prop) (I : Input -> Prop) :
  (forall i s, I i -> P s -> P (fst (gameLoop i s))) ->
  forall inputs s, Forall I inputs -> P s -> P (fst (run s inputs)).
Proof.
  intros Step inputs. induction inputs as [| i rest IH]; intros s F H; [exact H |].
  rewrite Facts2D.run_cons_2D. cbn [fst]. inversion F as [| ? ? Fi Frest]; subst.
  apply IH; [exact Frest |].
  destruct (Facts2D.frame_cases_2D i s) as [[E _] | [E _]]; rewrite E;
    [exact H | now apply Step].
Qed.

Lemma session_invariant_2D (P : GameState -> Prop) :
  (forall i s, P s -> P (fst (gameLoop i s))) ->
  forall inputs s, P s -> P (fst (run s inputs)).
Proof.
  intros Step inputs s H.
  apply (session_invariant_inputs_2D P (fun _ => True)); auto.
  clear. induction inputs; constructor; auto.
Qed.

(** On the grid of fives the position never leaves [[-160, 160]]. *)
Lemma newPlayerX_grid_2D (keys : list string) (s : GameState) (k : Z) :
  playerX s == 5 * inject_Z k -> (-32 <= k <= 32)%Z ->
  exists k', newPlayerX keys s == 5 * inject_Z k' /\ (-32 <= k' <= 32)%Z.
Proof.
  intros E B. unfold newPlayerX, JS.gtb, PLAYER_SPEED, ROAD_WIDTH.
  assert (Km : inject_Z (k - 1) == inject_Z k - 1)
    by (unfold Z.sub; now rewrite inject_Z_plus).
  assert (Kp : inject_Z (k + 1) == inject_Z k + 1) by now rewrite inject_Z_plus.
  assert (Lo : -32 < inject_Z k -> (-32 < k)%Z).
  { intros H. apply Invariants3D.inject_Z_lt_inv. exact H. }
  assert (Hi : inject_Z k < 32 -> (k < 32)%Z).
  { intros H. apply Invariants3D.inject_Z_lt_inv. exact H. }
  assert (BQ : -32 <= inject_Z k <= 32).
  { change (-32) with (inject_Z (-32)). change 32 with (inject_Z 32).
    rewrite <- !Zle_Qle. exact B. }
  assert (W1 : - (400) / 2 + 40 == -160) by reflexivity.
  assert (W2 : 400 / 2 - 40 == 160) by reflexivity.
  destruct (JS.has keys "ArrowLeft"); destruct (JS.has keys "ArrowRight");
    cbn [andb]; compare_cases;
    try (assert (-32 < k)%Z by (apply Lo; lra));
    try (assert (k < 32)%Z by (apply Hi; lra));
    try (exists k; split; [lra | lia]);
    try (exists (k - 1)%Z; split; [lra | lia]);
    try (exists (k + 1)%Z; split; [lra | lia]);
    exfalso; lra.
Qed.

Lemma overlaps_spec_2D (px : Q) (e : Enemy) :
  overlaps px e = true <->
  exists x, e_x e = Some x /\ Qabs (px - x) < 50 /\ 400 < e_y e /\ e_y e < 560.
Proof.
  unfold overlaps, GAME_HEIGHT. destruct (e_x e) as [x |].
  - unfold JS.gtb. rewrite !andb_true_iff, !ltb_true. split.
    + intros [[[A B] C] D]. exists x. split; [reflexivity |].
      split; [apply Qabs_case; intros; lra | lra].
    + intros (x' & [= <-] & A & B & C).
      revert A. apply Qabs_case; intros ? A; repeat split; lra.
  - split; [discriminate | now intros (x & [=] & _)].
Qed.

Lemma onLane_spec (e : Enemy) :
  Session2D.onLane e = true <->
  (0 <= e_lane e < 4)%Z /\ exists x, e_x e = Some x /\ existsb (Qeq_bool x) LANES = true.
Proof.
  unfold Session2D.onLane. rewrite !andb_true_iff, Z.leb_le, Z.ltb_lt.
  change (Z.of_nat (List.length LANES)) with 4%Z.
  destruct (e_x e) as [x |].
  - split.
    + intros [[A B] C]. split; [lia | now exists x].
    + intros [[A B] (x' & [= <-] & C)]. auto.
  - split; [intros [_ C]; discriminate | intros [_ (x & [=] & _)]].
Qed.

Lemma onLane_random (rx : Q) (l : Z) (v y : Q) :
  0 <= rx /\ rx < 1 -> (0 <= l < 4)%Z ->
  Session2D.onLane {| e_x := JS.index LANES (JS.floor (rx * 4)); e_y := y;
                      e_speed := v; e_lane := l |} = true.
Proof.
  intros R L. pose proof (floor_random_range rx 4 R eq_refl) as F.
  change (inject_Z 4) with 4 in F.
  apply onLane_spec. cbn [e_lane e_x]. split; [exact L |].
  assert (JS.floor (rx * 4) = 0 \/ JS.floor (rx * 4) = 1
          \/ JS.floor (rx * 4) = 2 \/ JS.floor (rx * 4) = 3)%Z
    as [-> | [-> | [-> | ->]]] by lia; eexists; split; reflexivity.
Qed.

Lemma updateEnemy_ok_2D (v : Q) (e : Enemy) (rnd : nat -> Q) (n : nat) :
  unit_interval rnd ->
  Session2D.enemy_ok e -> Session2D.enemy_ok (fst (updateEnemy v e rnd n)).
Proof.
  intros R (L & S1 & S2 & Y). unfold updateEnemy.
  destruct (JS.gtb (e_y e + e_speed e + v * 0.5) (GAME_HEIGHT + 100)) eqn:G.
  - cbn [bind random ret fst]. unfold Session2D.enemy_ok.
    cbn [e_speed e_y]. unfold ENEMY_SPEED, GAME_HEIGHT.
    pose proof (R n). pose proof (R (S (S n))).
    split; [| repeat split; lra].
    apply onLane_random; [apply R |]. now apply onLane_spec in L.
  - apply ltb_false in G. cbn [ret fst]. unfold Session2D.enemy_ok.
    cbn [e_speed e_y]. split; [| repeat split; assumption].
    apply onLane_spec. apply onLane_spec in L. exact L.
Qed.

Lemma updateEnemy_lane_2D (v : Q) (e : Enemy) (rnd : nat -> Q) (n : nat) :
  e_lane (fst (updateEnemy v e rnd n)) = e_lane e.
Proof.
  unfold updateEnemy.
  now destruct (JS.gtb (e_y e + e_speed e + v * 0.5) (GAME_HEIGHT + 100)).
Qed.

Lemma initEnemy_ok_2D (j : Z) (rnd : nat -> Q) (n : nat) :
  unit_interval rnd -> (0 <= j)%Z -> Session2D.enemy_ok (fst (initEnemy j rnd n)).
Proof.
  intros R J. unfold initEnemy. cbn [bind random ret fst].
  assert (JQ : 0 <= inject_Z j).
  { change 0 with (inject_Z 0). rewrite <- Zle_Qle. exact J. }
  pose proof (R (S n)).
  unfold Session2D.enemy_ok. cbn [e_speed e_y]. unfold ENEMY_SPEED, GAME_HEIGHT.
  split; [| repeat split; lra].
  apply onLane_random; [apply R |].
  pose proof (floor_random_range _ 4 (R (S (S n))) eq_refl) as F.
  exact F.
Qed.

End Invariants2D.

(** * Extra properties *)

(** ** The 3D session *)

(** X1: in every state of a 3D session the player's lateral position lies
    between -4.1 and 4.1: a steering step of 0.1 is taken only from inside
    the marks at -4 and 4.  A frame keeps the position in that window, and
    from a position at or beyond a mark it does not move it further out. *)
Theorem lateral_position_in_road_3D :
  (forall (m : GameMode) (rnd0 : nat -> Q) (inputs : list Input),
      let s := fst (RacingGame3D.run (RacingGame3D.start m rnd0) inputs) in
      -4.1 <= RacingGame3D.playerX s /\ RacingGame3D.playerX s <= 4.1)
  /\ (forall (i : Input) (s : RacingGame3D.GameState),
         -4.1 <= RacingGame3D.playerX s <= 4.1 ->
         -4.1 <= RacingGame3D.playerX (fst (RacingGame3D.gameLoop i s)) <= 4.1)
  /\ (forall (i : Input) (s : RacingGame3D.GameState),
         4 <= RacingGame3D.playerX s ->
         RacingGame3D.playerX (fst (RacingGame3D.gameLoop i s))
         <= RacingGame3D.playerX s)
  /\ (forall (i : Input) (s : RacingGame3D.GameState),
         RacingGame3D.playerX s <= -4 ->
         RacingGame3D.playerX s
         <= RacingGame3D.playerX (fst (RacingGame3D.gameLoop i s))).
Proof.
  split; [| split; [| split]].
  - intros m rnd0 inputs s. subst s.
    apply (Invariants3D.session_invariant_3D
             (fun s => -4.1 <= RacingGame3D.playerX s /\ RacingGame3D.playerX s <= 4.1)).
    + intros i s H. apply (Invariants3D.newPlayerX_window_3D (keys i) s H).
    + cbn. split; lra.
  - intros i s H. apply (Invariants3D.newPlayerX_window_3D (keys i) s H).
  - intros i s H. apply (proj1 (Invariants3D.newPlayerX_blocked_3D (keys i) s) H).
  - intros i s H. apply (proj2 (Invariants3D.newPlayerX_blocked_3D (keys i) s) H).
Qed.

Lemma lateral_position_in_road_3D_witness :
  (-4.1 <= RacingGame3D.playerX (fst (RacingGame3D.gameLoop (steer_right 0) crash_start))
   <= 4.1)
  /\ RacingGame3D.playerX (fst (RacingGame3D.gameLoop (steer_right 0) at_right_mark_3D))
     <= RacingGame3D.playerX at_right_mark_3D
  /\ RacingGame3D.playerX at_left_mark_3D
     <= RacingGame3D.playerX (fst (RacingGame3D.gameLoop (steer_left 0.99) at_left_mark_3D)).
Proof.
  split; [| split].
  - apply (proj1 (proj2 lateral_position_in_road_3D) (steer_right 0) crash_start).
    split; vm_compute; discriminate.
  - apply (proj1 (proj2 (proj2 lateral_position_in_road_3D)) (steer_right 0) at_right_mark_3D).
    vm_compute; discriminate.
  - apply (proj2 (proj2 (proj2 lateral_position_in_road_3D)) (steer_left 0.99) at_left_mark_3D).
    vm_compute; discriminate.
Defined.

(** X3: in every state of a 3D session the nitro meter and the health lie
    between 0 and 100; a frame never raises health; in a mode without nitro
    the nitro meter stays at 100 and in a mode without health the health
    stays at 100. *)
Theorem meters_in_range :
  forall (m : GameMode) (rnd0 : nat -> Q) (inputs : list Input) (i : Input),
    let config := RacingGame3D.getModeConfig m in
    let s := fst (RacingGame3D.run (RacingGame3D.start m rnd0) inputs) in
    (0 <= RacingGame3D.nitroBoost s /\ RacingGame3D.nitroBoost s <= 100)
    /\ (0 <= RacingGame3D.health s /\ RacingGame3D.health s <= 100)
    /\ RacingGame3D.health (fst (RacingGame3D.gameLoop i s)) <= RacingGame3D.health s
    /\ (RacingGame3D.hasNitro config = false -> RacingGame3D.nitroBoost s == 100)
    /\ (RacingGame3D.hasHealth config = false -> RacingGame3D.health s == 100).
Proof.
  intros m rnd0 inputs i config s.
  assert (G : RacingGame3D.mode s = m
              /\ 0 <= RacingGame3D.nitroBoost s <= 100
              /\ 0 <= RacingGame3D.health s <= 100
              /\ (RacingGame3D.hasNitro config = false -> RacingGame3D.nitroBoost s == 100)
              /\ (RacingGame3D.hasHealth config = false -> RacingGame3D.health s == 100)).
  { subst s.
    apply (Invariants3D.session_invariant_3D
             (fun s => RacingGame3D.mode s = m
                       /\ 0 <= RacingGame3D.nitroBoost s <= 100
                       /\ 0 <= RacingGame3D.health s <= 100
                       /\ (RacingGame3D.hasNitro config = false ->
                           RacingGame3D.nitroBoost s == 100)
                       /\ (RacingGame3D.hasHealth config = false ->
                           RacingGame3D.health s == 100))).
    - intros j s (M & N & H & N0 & H0).
      cbn [RacingGame3D.gameLoop fst RacingGame3D.mode RacingGame3D.nitroBoost
           RacingGame3D.health].
      rewrite M. fold config. split; [reflexivity |].
      split; [now apply Invariants3D.newNitroBoost_range |].
      split; [now apply Invariants3D.newHealth_range |].
      split; intros Z.
      + rewrite (Invariants3D.newNitroBoost_without_nitro _ _ _ Z). now apply N0.
      + rewrite (Invariants3D.newHealth_without_health _ _ _ Z). now apply H0.
    - cbn. repeat split; try lra; intros; reflexivity. }
  destruct G as (M & N & H & N0 & H0).
  repeat split; try tauto.
  cbn [RacingGame3D.gameLoop fst RacingGame3D.health].
  now apply Invariants3D.newHealth_range.
Qed.

Lemma meters_in_range_witness :
  RacingGame3D.nitroBoost (fst (RacingGame3D.run (RacingGame3D.start classic (const_rnd 0))
                                                 [accelerate; calm])) == 100
  /\ RacingGame3D.health (fst (RacingGame3D.run (RacingGame3D.start classic (const_rnd 0))
                                                [accelerate; calm])) == 100.
Proof.
  destruct (meters_in_range classic (const_rnd 0) [accelerate; calm] calm)
    as (_ & _ & _ & N & H).
  split; [apply N | apply H]; reflexivity.
Defined.

(** X4: in every state of a 3D session the competition rank lies between 1
    and the enemy count plus 1.  In competition mode a frame sets it to 1
    plus the number of enemies in front of the player ([z > 0]) after the
    frame: the [Math.min] against the enemy count plus 1 never cuts.  In
    the other modes the rank stays 1. *)
Theorem rank_bounds :
  forall (m : GameMode) (rnd0 : nat -> Q) (inputs : list Input) (i : Input),
    let config := RacingGame3D.getModeConfig m in
    let s := fst (RacingGame3D.run (RacingGame3D.start m rnd0) inputs) in
    let s' := fst (RacingGame3D.gameLoop i s) in
    (1 <= RacingGame3D.competitionRank s
     <= Z.of_nat (RacingGame3D.cfg_enemies config) + 1)%Z
    /\ (RacingGame3D.aggressiveAI config = true ->
        RacingGame3D.competitionRank s'
        = (1 + Session3D.ahead (RacingGame3D.enemies s'))%Z)
    /\ (RacingGame3D.aggressiveAI config = false ->
        RacingGame3D.competitionRank s = 1%Z).
Proof.
  intros m rnd0 inputs i config s s'.
  assert (G : RacingGame3D.mode s = m
              /\ List.length (RacingGame3D.enemies s) = RacingGame3D.cfg_enemies config
              /\ (1 <= RacingGame3D.competitionRank s
                  <= Z.of_nat (RacingGame3D.cfg_enemies config) + 1)%Z
              /\ (RacingGame3D.aggressiveAI config = false ->
                  RacingGame3D.competitionRank s = 1%Z)).
  { subst s.
    apply (Invariants3D.session_invariant_3D
             (fun s => RacingGame3D.mode s = m
                       /\ List.length (RacingGame3D.enemies s)
                          = RacingGame3D.cfg_enemies config
                       /\ (1 <= RacingGame3D.competitionRank s
                           <= Z.of_nat (RacingGame3D.cfg_enemies config) + 1)%Z
                       /\ (RacingGame3D.aggressiveAI config = false ->
                           RacingGame3D.competitionRank s = 1%Z))).
    - intros j s (M & L & R & R0).
      assert (L' : List.length (RacingGame3D.enemies s)
                   = RacingGame3D.cfg_enemies (RacingGame3D.getModeConfig (RacingGame3D.mode s)))
        by now rewrite M.
      pose proof (Invariants3D.newCompetitionRank_value j s L') as V.
      cbn zeta in V. rewrite M in V. fold config in V.
      pose proof (Invariants3D.ahead_bounds (RacingGame3D.newEnemies config j s)) as B.
      rewrite Facts3D.length_newEnemies_3D, L in B.
      cbn [RacingGame3D.gameLoop fst RacingGame3D.mode RacingGame3D.enemies
           RacingGame3D.competitionRank].
      rewrite M. fold config. rewrite V.
      split; [reflexivity |]. split; [now rewrite Facts3D.length_newEnemies_3D |].
      destruct (RacingGame3D.aggressiveAI config); split; try lia; auto.
    - split; [reflexivity |]. split.
      + cbn [RacingGame3D.start RacingGame3D.countdownEnd RacingGame3D.initGame
             RacingGame3D.enemies RacingGame3D.initialState RacingGame3D.mode].
        apply arrayFrom_length.
      + cbn. split; [lia | reflexivity]. }
  destruct G as (M & L & R & R0).
  split; [exact R |]. split; [| exact R0].
  intros A. subst s'.
  assert (L' : List.length (RacingGame3D.enemies s)
               = RacingGame3D.cfg_enemies (RacingGame3D.getModeConfig (RacingGame3D.mode s)))
    by now rewrite M.
  pose proof (Invariants3D.newCompetitionRank_value i s L') as V.
  cbn zeta in V. rewrite M in V. fold config in V. rewrite A in V.
  cbn [RacingGame3D.gameLoop fst RacingGame3D.enemies RacingGame3D.competitionRank].
  rewrite M. exact V.
Qed.

Lemma rank_bounds_witness :
  RacingGame3D.competitionRank
    (fst (RacingGame3D.gameLoop calm (fst (RacingGame3D.run blocking_start approach))))
  = (1 + Session3D.ahead
           (RacingGame3D.enemies
              (fst (RacingGame3D.gameLoop calm
                      (fst (RacingGame3D.run blocking_start approach))))))%Z
  /\ RacingGame3D.competitionRank (fst (RacingGame3D.run crash_start [idle])) = 1%Z.
Proof.
  split.
  - apply (proj1 (proj2 (rank_bounds competition (const_rnd 0) approach calm))).
    reflexivity.
  - apply (proj2 (proj2 (rank_bounds classic (const_rnd 0.5) [idle] idle))).
    reflexivity.
Defined.

(** X5: in every state of a 3D session the time recorded for the last
    collision is never negative and never ahead of the elapsed time, and
    the elapsed time never runs backwards: further frames do not decrease
    it. *)
Theorem last_collision_not_ahead_of_time :
  forall (m : GameMode) (rnd0 : nat -> Q) (inputs more : list Input),
    let s := fst (RacingGame3D.run (RacingGame3D.start m rnd0) inputs) in
    0 <= RacingGame3D.lastCollision s
    /\ RacingGame3D.lastCollision s <= RacingGame3D.time s
    /\ RacingGame3D.time s <= RacingGame3D.time (fst (RacingGame3D.run s more)).
Proof.
  intros m rnd0 inputs more s. split; [| split].
  - subst s.
    apply (Invariants3D.session_invariant_3D
             (fun s => 0 <= RacingGame3D.lastCollision s
                       /\ RacingGame3D.lastCollision s <= RacingGame3D.time s)).
    + intros i s H. apply Invariants3D.lastCollision_gameLoop. exact H.
    + cbn. split; lra.
  - subst s.
    apply (Invariants3D.session_invariant_3D
             (fun s => 0 <= RacingGame3D.lastCollision s
                       /\ RacingGame3D.lastCollision s <= RacingGame3D.time s)).
    + intros i s H. apply Invariants3D.lastCollision_gameLoop. exact H.
    + cbn. split; lra.
  - apply Invariants3D.time_monotone_3D.
Qed.

(** X6: the road offset stays within one period of the road texture: in
    every state of a 3D session it lies in [0, 10), and in every state of a
    2D session in [0, 100).  (The speed is never negative, so the remainder
    is never taken of a negative number.) *)
Theorem road_offset_within_period :
  (forall (m : GameMode) (rnd0 : nat -> Q) (inputs : list Input),
      let s := fst (RacingGame3D.run (RacingGame3D.start m rnd0) inputs) in
      0 <= RacingGame3D.roadOffset s /\ RacingGame3D.roadOffset s < 10)
  /\ (forall (m : GameMode) (rnd0 : nat -> Q) (inputs : list Input),
         let s := fst (RacingGame.run (RacingGame.start m rnd0) inputs) in
         0 <= RacingGame.roadOffset s /\ RacingGame.roadOffset s < 100).
Proof.
  split; intros m rnd0 inputs s.
  - assert (G : 2 <= RacingGame3D.speed s
                /\ 0 <= RacingGame3D.roadOffset s /\ RacingGame3D.roadOffset s < 10);
      [| tauto].
    subst s.
    apply (Invariants3D.session_invariant_3D
             (fun s => 2 <= RacingGame3D.speed s
                       /\ 0 <= RacingGame3D.roadOffset s
                       /\ RacingGame3D.roadOffset s < 10)).
    + intros i s (V & O1 & O2).
      destruct (Facts3D.newSpeed_bounds_3D (keys i) s V) as (V' & _).
      cbn [RacingGame3D.gameLoop fst RacingGame3D.speed RacingGame3D.roadOffset].
      set (v := RacingGame3D.newSpeed _ (keys i) s) in *.
      assert (A : 0 <= RacingGame3D.roadOffset s + v) by lra.
      destruct (Invariants3D.rem_range _ 10 A eq_refl) as [R1 R2].
      split; [exact V' |]. split; [exact R1 | exact R2].
    + cbn. split; [lra |]. split; [lra | reflexivity].
  - assert (G : 0 <= RacingGame.speed s <= 15
                /\ 0 <= RacingGame.roadOffset s /\ RacingGame.roadOffset s < 100);
      [| tauto].
    subst s.
    apply (Invariants2D.session_invariant_2D
             (fun s => 0 <= RacingGame.speed s <= 15
                       /\ 0 <= RacingGame.roadOffset s
                       /\ RacingGame.roadOffset s < 100)).
    + intros i s (V & O1 & O2).
      pose proof (Facts2D.newSpeed_bounds_2D (keys i) s V) as V'.
      cbn [RacingGame.gameLoop fst RacingGame.speed RacingGame.roadOffset].
      set (v := RacingGame.newSpeed (keys i) s) in *.
      assert (A : 0 <= RacingGame.roadOffset s + v) by lra.
      destruct (Invariants3D.rem_range _ 100 A eq_refl) as [R1 R2].
      split; [exact V' |]. split; [exact R1 | exact R2].
    + cbn. split; [split; lra |]. split; [lra | reflexivity].
Qed.

(** X7: the perfect-driving counter of a 3D session is never reset and
    never decreases: over any further frames it does not fall, and from the
    start it is between 0 and the number of frames on which the loop ran. *)
Theorem perfect_driving_never_resets :
  forall (m : GameMode) (rnd0 : nat -> Q) (inputs more : list Input),
    let s0 := RacingGame3D.start m rnd0 in
    let s := fst (RacingGame3D.run s0 inputs) in
    (0 <= RacingGame3D.perfectDriving s <= Z.of_nat (Session3D.framesRun s0 inputs))%Z
    /\ (RacingGame3D.perfectDriving s
        <= RacingGame3D.perfectDriving (fst (RacingGame3D.run s more)))%Z.
Proof.
  intros m rnd0 inputs more s0 s. split.
  - pose proof (Invariants3D.perfectDriving_run inputs s0) as H.
    fold s in H. subst s0. cbn [RacingGame3D.start RacingGame3D.countdownEnd
      RacingGame3D.initGame RacingGame3D.perfectDriving] in H. lia.
  - apply Invariants3D.perfectDriving_run.
Qed.

(** X8: the overlap test of the 3D loop is a test of proximity.  An enemy
    without a lateral position never collides.  An enemy whose lateral
    position is within 0.79 of the player's and whose depth is within 1.59
    of the origin collides; an enemy that collides has a lateral position
    less than 0.81 away from the player's and a depth less than 1.61 away
    from the origin. *)
Theorem overlap_is_proximity_3D :
  forall (px : Q) (e : RacingGame3D.Enemy),
    (RacingGame3D.e_x e = None -> RacingGame3D.overlaps px e = false)
    /\ (forall x, RacingGame3D.e_x e = Some x ->
                  Qabs (px - x) <= 0.79 -> Qabs (RacingGame3D.e_z e) <= 1.59 ->
                  RacingGame3D.overlaps px e = true)
    /\ (RacingGame3D.overlaps px e = true ->
        exists x, RacingGame3D.e_x e = Some x
                  /\ Qabs (px - x) < 0.81 /\ Qabs (RacingGame3D.e_z e) < 1.61).
Proof.
  intros px e. split; [| split].
  - intros H. unfold RacingGame3D.overlaps. now rewrite H.
  - intros x. apply Invariants3D.overlaps_near_3D.
  - apply Invariants3D.overlaps_far_3D.
Qed.

Lemma overlap_is_proximity_3D_witness :
  RacingGame3D.overlaps 0 (RacingGame3D.mkEnemy None 0 3 3 None 0.5) = false
  /\ RacingGame3D.overlaps 0.5 (RacingGame3D.mkEnemy (Some 0) (-1) 3 1 None 0.5) = true
  /\ exists x, RacingGame3D.e_x (RacingGame3D.mkEnemy (Some 0) (-1) 3 1 None 0.5) = Some x
               /\ Qabs (0.5 - x) < 0.81 /\ Qabs (-1) < 1.61.
Proof.
  split; [| split].
  - apply (proj1 (overlap_is_proximity_3D 0 (RacingGame3D.mkEnemy None 0 3 3 None 0.5))).
    reflexivity.
  - apply (proj1 (proj2 (overlap_is_proximity_3D
                           0.5 (RacingGame3D.mkEnemy (Some 0) (-1) 3 1 None 0.5))) 0).
    + reflexivity.
    + vm_compute; discriminate.
    + vm_compute; discriminate.
  - apply (proj2 (proj2 (overlap_is_proximity_3D
                           0.5 (RacingGame3D.mkEnemy (Some 0) (-1) 3 1 None 0.5)))).
    reflexivity.
Defined.

(** X9: in a mode without the aggressive AI (every mode but competition),
    when [Math.random] keeps to [0, 1), every enemy of every state of a 3D
    session is in a lane: its lane index is an index of [LANES] and its
    lateral position is a lane coordinate. *)
Theorem enemies_stay_in_lanes_3D :
  forall (m : GameMode) (rnd0 : nat -> Q) (inputs : list Input),
    RacingGame3D.aggressiveAI (RacingGame3D.getModeConfig m) = false ->
    unit_interval rnd0 ->
    Forall (fun i => unit_interval (rnd i)) inputs ->
    forallb inLane
            (RacingGame3D.enemies
               (fst (RacingGame3D.run (RacingGame3D.start m rnd0) inputs))) = true.
Proof.
  intros m rnd0 inputs A R0 R. apply forallb_forall. apply Forall_forall.
  apply (Invariants3D.enemies_invariant_3D m (fun e => inLane e = true)).
  - intros config px e r n Rr Ac H. apply Invariants3D.updateEnemy_inLane; try assumption.
    now rewrite Ac.
  - eapply Forall_impl; [| apply (Invariants3D.start_enemies_ok m rnd0 R0)].
    intros e [_ H]. exact H.
  - exact R.
Qed.

Lemma enemies_stay_in_lanes_3D_witness :
  forallb inLane
          (RacingGame3D.enemies
             (fst (RacingGame3D.run (RacingGame3D.start classic (const_rnd 0))
                                    (repeat calm 6)))) = true.
Proof.
  apply (enemies_stay_in_lanes_3D classic (const_rnd 0) (repeat calm 6)).
  - reflexivity.
  - intros n. split; [vm_compute; discriminate | reflexivity].
  - repeat constructor; vm_compute; discriminate.
Defined.

(** X10: when [Math.random] keeps to [0, 1), every enemy of every state of
    a 3D session has a speed between 3 and 6, a depth above -50 and at most
    15 (it is recycled before it is seen beyond 15), and the aggressiveness
    it was created with: between 0.5 and 1 in competition mode, 0.2 in the
    other modes. *)
Theorem enemies_speed_depth_aggressiveness :
  forall (m : GameMode) (rnd0 : nat -> Q) (inputs : list Input),
    unit_interval rnd0 ->
    Forall (fun i => unit_interval (rnd i)) inputs ->
    Forall (Session3D.enemy_ok m)
           (RacingGame3D.enemies
              (fst (RacingGame3D.run (RacingGame3D.start m rnd0) inputs))).
Proof.
  intros m rnd0 inputs R0 R.
  apply (Invariants3D.enemies_invariant_3D m (Session3D.enemy_ok m)).
  - intros config px e r n Rr _ H. now apply Invariants3D.updateEnemy_ok.
  - eapply Forall_impl; [| apply (Invariants3D.start_enemies_ok m rnd0 R0)].
    intros e [H _]. exact H.
  - exact R.
Qed.

Lemma enemies_speed_depth_aggressiveness_witness :
  Forall (Session3D.enemy_ok competition)
         (RacingGame3D.enemies
            (fst (RacingGame3D.run (RacingGame3D.start competition (const_rnd 0))
                                   (repeat calm 3)))).
Proof.
  apply (enemies_speed_depth_aggressiveness competition (const_rnd 0) (repeat calm 3)).
  - intros n. split; [vm_compute; discriminate | reflexivity].
  - repeat constructor; vm_compute; discriminate.
Defined.

(** ** The 2D session *)

(** X2: in every state of a 2D session the player's lateral position lies
    between -160 and 160 (it moves on the grid of fives, and a steering
    step is taken only from strictly inside the bound); whatever the state,
    a frame moves it by at most 5. *)
Theorem lateral_position_in_road_2D :
  (forall (m : GameMode) (rnd0 : nat -> Q) (inputs : list Input),
      let s := fst (RacingGame.run (RacingGame.start m rnd0) inputs) in
      -160 <= RacingGame.playerX s /\ RacingGame.playerX s <= 160)
  /\ (forall (i : Input) (s : RacingGame.GameState),
         Qabs (RacingGame.playerX (fst (RacingGame.gameLoop i s))
               - RacingGame.playerX s) <= 5).
Proof.
  split.
  - intros m rnd0 inputs s.
    assert (G : exists k, RacingGame.playerX s == 5 * inject_Z k /\ (-32 <= k <= 32)%Z).
    { subst s. apply (Invariants2D.session_invariant_2D
                        (fun s => exists k, RacingGame.playerX s == 5 * inject_Z k
                                            /\ (-32 <= k <= 32)%Z)).
      - intros i s (k & E & B). apply (Invariants2D.newPlayerX_grid_2D (keys i) s k E B).
      - exists 0%Z. split; [reflexivity | lia]. }
    destruct G as (k & E & B).
    assert (BQ : -32 <= inject_Z k <= 32).
    { change (-32) with (inject_Z (-32)). change 32 with (inject_Z 32).
      rewrite <- !Zle_Qle. exact B. }
    lra.
  - intros i s. cbn [RacingGame.gameLoop fst RacingGame.playerX].
    unfold RacingGame.newPlayerX, JS.gtb, RacingGame.PLAYER_SPEED.
    destruct (JS.has (keys i) "ArrowLeft"); destruct (JS.has (keys i) "ArrowRight");
      cbn [andb]; compare_cases; apply Qabs_case; intros; lra.
Qed.

(** X11: when [Math.random] keeps to [0, 1), every enemy of every state of
    a 2D session is on a lane coordinate, with a lane index that is an index
    of [LANES], a speed between 3 and 6 and a forward position of at most
    [GAME_HEIGHT + 100]; and, whatever the oracle, the lane index of an
    enemy never changes: recycling draws a new lateral position and leaves
    the index as it was. *)
Theorem enemies_of_2D_session :
  (forall (m : GameMode) (rnd0 : nat -> Q) (inputs : list Input),
      unit_interval rnd0 ->
      Forall (fun i => unit_interval (rnd i)) inputs ->
      Forall Session2D.enemy_ok
             (RacingGame.enemies (fst (RacingGame.run (RacingGame.start m rnd0) inputs))))
  /\ (forall (inputs : list Input) (s : RacingGame.GameState),
         map RacingGame.e_lane (RacingGame.enemies (fst (RacingGame.run s inputs)))
         = map RacingGame.e_lane (RacingGame.enemies s)).
Proof.
  split.
  - intros m rnd0 inputs R0 R.
    apply (Invariants2D.session_invariant_inputs_2D
             (fun s => Forall Session2D.enemy_ok (RacingGame.enemies s))
             (fun i => unit_interval (rnd i))); [| exact R |].
    + intros i s Ri F. cbn [RacingGame.gameLoop fst RacingGame.enemies].
      unfold RacingGame.newEnemies. apply mapM_Forall. intros a n' Hin.
      apply Invariants2D.updateEnemy_ok_2D; [exact Ri |].
      rewrite Forall_forall in F. now apply F.
    + cbn [RacingGame.start RacingGame.countdownEnd RacingGame.initGame
           RacingGame.enemies RacingGame.initialState RacingGame.mode].
      apply arrayFrom_Forall. intros j n' J.
      apply Invariants2D.initEnemy_ok_2D; [exact R0 | lia].
  - intros inputs s.
    apply (Invariants2D.session_invariant_2D
             (fun s' => map RacingGame.e_lane (RacingGame.enemies s')
                        = map RacingGame.e_lane (RacingGame.enemies s)));
      [| reflexivity].
    intros i s' H. cbn [RacingGame.gameLoop fst RacingGame.enemies].
    unfold RacingGame.newEnemies. rewrite mapM_map_preserved; [exact H |].
    intros a n'. apply Invariants2D.updateEnemy_lane_2D.
Qed.

Lemma enemies_of_2D_session_witness :
  Forall Session2D.enemy_ok
         (RacingGame.enemies
            (fst (RacingGame.run (RacingGame.start classic (const_rnd 0)) (repeat calm 3)))).
Proof.
  apply (proj1 enemies_of_2D_session classic (const_rnd 0) (repeat calm 3)).
  - intros n. split; [vm_compute; discriminate | reflexivity].
  - repeat constructor; vm_compute; discriminate.
Defined.

(** X12: the overlap test of the 2D loop is a distance test: the player's
    rectangle overlaps an enemy's exactly when the enemy's lateral position
    is defined and less than 50 away from the player's, and its forward
    position lies strictly between 400 and 560. *)
Theorem overlap_is_distance_2D :
  forall (px : Q) (e : RacingGame.Enemy),
    RacingGame.overlaps px e = true <->
    exists x, RacingGame.e_x e = Some x
              /\ Qabs (px - x) < 50
              /\ 400 < RacingGame.e_y e /\ RacingGame.e_y e < 560.
Proof. exact Invariants2D.overlaps_spec_2D. Qed.

(** ** Keyboard, pause and countdown *)

Lemma has_add (keys : list string) (c code : string) :
  JS.has (KeySet.add keys c) code = String.eqb c code || JS.has keys code.
Proof.
  unfold KeySet.add. destruct (JS.has keys c) eqn:H.
  - destruct (String.eqb_spec c code) as [-> | N]; [now rewrite H | reflexivity].
  - unfold JS.has. rewrite existsb_app. simpl. rewrite orb_false_r, orb_comm.
    now rewrite (String.eqb_sym code c).
Qed.

Lemma has_delete (keys : list string) (c code : string) :
  JS.has (KeySet.delete keys c) code = negb (String.eqb c code) && JS.has keys code.
Proof.
  unfold KeySet.delete, JS.has. induction keys as [| k keys IH]; simpl.
  - now rewrite andb_false_r.
  - destruct (String.eqb_spec c k) as [-> | N]; simpl.
    + rewrite IH. rewrite (String.eqb_sym code k).
      now destruct (String.eqb k code).
    + rewrite IH. destruct (String.eqb_spec code k) as [-> | N']; simpl.
      * destruct (String.eqb_spec c k); [contradiction | reflexivity].
      * reflexivity.
Qed.

(** X14: the countdown started by [startCountdown] fires its interval four
    times.  Each firing writes the counter as it is after the decrement: the
    first three firings leave 2, 1 and 0 in [countdown] and leave
    [isPlaying] as it is; the fourth clears the interval, and the four
    together change the state exactly as [countdownEnd] does ([isPlaying]
    true, [countdown] 0, nothing else). *)
Theorem countdown_takes_four_ticks :
  forall (s : RacingGame3D.GameState) (n : nat),
    ((4 <= n)%nat ->
     Handlers3D.startCountdown n s = (RacingGame3D.countdownEnd s, 4%nat))
    /\ ((0 < n < 4)%nat ->
        snd (Handlers3D.startCountdown n s) = n
        /\ RacingGame3D.isPlaying (fst (Handlers3D.startCountdown n s))
           = RacingGame3D.isPlaying s
        /\ RacingGame3D.countdown (fst (Handlers3D.startCountdown n s))
           = (3 - Z.of_nat n)%Z).
Proof.
  intros s n. split; intros H.
  - do 4 (destruct n as [| n]; [lia |]). reflexivity.
  - destruct n as [| [| [| [| n]]]]; try lia; repeat split; reflexivity.
Qed.

Lemma countdown_takes_four_ticks_witness :
  Handlers3D.startCountdown 10 (RacingGame3D.initGame (const_rnd 0.5)
                                                      (RacingGame3D.initialState classic))
  = (crash_start, 4%nat)
  /\ RacingGame3D.countdown
       (fst (Handlers3D.startCountdown 2 (RacingGame3D.initialState classic))) = 1%Z.
Proof.
  split.
  - apply (proj1 (countdown_takes_four_ticks
                    (RacingGame3D.initGame (const_rnd 0.5)
                                           (RacingGame3D.initialState classic)) 10)).
    lia.
  - apply (proj2 (countdown_takes_four_ticks (RacingGame3D.initialState classic) 2)).
    lia.
Defined.




(** X16: the set of held keys tracks the keyboard: after any sequence of
    keydown and keyup events, whatever the game states they are handled in,
    a key code is in the set exactly when its latest event was a keydown
    (or, with no event of its own, when it was in the set before); repeated
    keydowns change nothing. *)
Theorem held_keys_follow_events :
  forall (events : list (KeyEvent * RacingGame3D.GameState))
         (keys : list string) (code : string),
    JS.has (fold_left (fun keys es => Handlers3D.keyEvent (snd es) keys (fst es))
                      events keys) code
    = heldAfter code (map fst events) (JS.has keys code).
Proof.
  intros events. induction events as [| [e s] events IH]; intros keys code;
    [reflexivity |].
  cbn [fold_left map fst snd]. unfold heldAfter in *. cbn [fold_left].
  rewrite IH. f_equal. destruct e as [c | c]; cbn [Handlers3D.keyEvent].
  - assert (K : Handlers3D.kd_keys (Handlers3D.handleKeyDown c keys s)
                = KeySet.add keys c).
    { unfold Handlers3D.handleKeyDown.
      destruct (String.eqb c "Space");
        [destruct (negb (RacingGame3D.isPlaying s) && negb (RacingGame3D.gameOver s));
         [| destruct (RacingGame3D.isPlaying s)] |]; reflexivity. }
    rewrite K, has_add. now destruct (String.eqb c code).
  - unfold Handlers3D.handleKeyUp. rewrite has_delete.
    now destruct (String.eqb c code).
Qed.

(** ** [formatTime] *)

Lemma floor_unique (x : Q) (k : Z) :
  inject_Z k <= x -> x < inject_Z k + 1 -> Qfloor x = k.
Proof.
  intros L H. pose proof (Qfloor_le x) as F1. pose proof (Qlt_floor x) as F2.
  rewrite inject_Z_plus in F2. change (inject_Z 1) with 1 in F2.
  assert (A : (Qfloor x < k + 1)%Z).
  { rewrite Zlt_Qlt, inject_Z_plus. change (inject_Z 1) with 1. lra. }
  assert (B : (k < Qfloor x + 1)%Z).
  { rewrite Zlt_Qlt, inject_Z_plus. change (inject_Z 1) with 1. lra. }
  lia.
Qed.

Lemma floor_bounds (x : Q) (n : Z) :
  0 <= x -> x < inject_Z n -> (0 <= Qfloor x < n)%Z.
Proof.
  intros L H. split.
  - change 0%Z with (Qfloor 0). now apply Qfloor_resp_le.
  - rewrite Zlt_Qlt. apply Qle_lt_trans with x; [apply Qfloor_le | exact H].
Qed.

Lemma string_length_append (s1 s2 : string) :
  String.length (s1 ++ s2) = (String.length s1 + String.length s2)%nat.
Proof. induction s1 as [| c s1 IH]; simpl; [reflexivity | now rewrite IH]. Qed.

Lemma toString_length_below_1000 (n : Z) :
  (0 <= n < 1000)%Z ->
  (1 <= String.length (Format.toString n) <= 3)%nat
  /\ ((n < 60)%Z -> (String.length (Format.toString n) <= 2)%nat).
Proof.
  intros H.
  assert (C : forallb (fun k => let l := String.length (Format.toString (Z.of_nat k)) in
                                (1 <=? l)%nat && (l <=? 3)%nat
                                && ((60 <=? k)%nat || (l <=? 2)%nat))
                      (seq 0 1000) = true) by (vm_compute; reflexivity).
  rewrite forallb_forall in C. specialize (C (Z.to_nat n)).
  rewrite Z2Nat.id in C by lia.
  assert (I : In (Z.to_nat n) (seq 0 1000)) by (apply in_seq; lia).
  specialize (C I). cbn zeta in C.
  rewrite !andb_true_iff, orb_true_iff, !Nat.leb_le in C.
  destruct C as [[A B] D]. split; [lia |]. intros L.
  destruct D as [D | D]; [lia | exact D].
Qed.

Lemma padStart_length (s : string) (n : nat) :
  (1 <= String.length s <= n)%nat -> (n <= 3)%nat ->
  String.length (Format.padStart s n "0") = n.
Proof.
  intros H N. unfold Format.padStart. rewrite string_length_append.
  assert (K : forall k, (k <= 2)%nat ->
                        String.length (substring 0 k (String.concat "" (repeat "0"%string k))) = k).
  { intros k Hk. destruct k as [| [| [| k]]]; [reflexivity .. | lia]. }
  rewrite K by lia. lia.
Qed.

Lemma formatTime_parts (time : Q) :
  0 <= time ->
  (0 <= Format.seconds time < 60)%Z /\ (0 <= Format.milliseconds time < 1000)%Z.
Proof.
  intros T.
  destruct (Invariants3D.rem_range time 60 T eq_refl) as [A1 A2].
  destruct (Invariants3D.rem_range time 1 T eq_refl) as [B1 B2].
  split.
  - unfold Format.seconds, JS.floor. now apply floor_bounds.
  - unfold Format.milliseconds, JS.floor.
    apply floor_bounds; [nra | change (inject_Z 1000) with 1000; lra].
Qed.

(** X17: for a time that is not negative, the three numbers [formatTime]
    prints are in range: the minutes are not negative, the seconds lie in
    0..59 and the milliseconds in 0..999. *)
Theorem formatTime_parts_in_range :
  forall time : Q,
    0 <= time ->
    (0 <= Format.minutes time)%Z
    /\ (0 <= Format.seconds time < 60)%Z
    /\ (0 <= Format.milliseconds time < 1000)%Z.
Proof.
  intros time T. split; [| apply formatTime_parts; exact T].
  unfold Format.minutes, JS.floor. change 0%Z with (Qfloor 0).
  apply Qfloor_resp_le. apply Qle_shift_div_l; [reflexivity | lra].
Qed.

Lemma formatTime_parts_in_range_witness :
  (Format.minutes 83.5 = 1 /\ Format.seconds 83.5 = 23
   /\ Format.milliseconds 83.5 = 500)%Z
  /\ (0 <= Format.minutes 83.5)%Z
  /\ (0 <= Format.seconds 83.5 < 60)%Z
  /\ (0 <= Format.milliseconds 83.5 < 1000)%Z.
Proof.
  split; [repeat split; reflexivity |].
  apply (formatTime_parts_in_range 83.5). vm_compute. discriminate.
Defined.

(** X18: for a time that is not negative, [formatTime] prints the minutes,
    a colon, the seconds on exactly two characters, a dot and the
    milliseconds on exactly three characters. *)
Theorem formatTime_layout :
  forall time : Q,
    0 <= time ->
    let ss := Format.padStart (Format.toString (Format.seconds time)) 2 "0" in
    let mmm := Format.padStart (Format.toString (Format.milliseconds time)) 3 "0" in
    Format.formatTime time
    = (Format.toString (Format.minutes time) ++ ":" ++ ss ++ "." ++ mmm)%string
    /\ String.length ss = 2%nat /\ String.length mmm = 3%nat
    /\ String.length (Format.formatTime time)
       = (String.length (Format.toString (Format.minutes time)) + 7)%nat.
Proof.
  intros time T ss mmm.
  destruct (formatTime_parts time T) as (S & MS).
  assert (L2 : String.length ss = 2%nat).
  { subst ss. apply padStart_length; [| lia].
    destruct (toString_length_below_1000 (Format.seconds time)) as [A B]; [lia |].
    specialize (B ltac:(lia)). lia. }
  assert (L3 : String.length mmm = 3%nat).
  { subst mmm. apply padStart_length; [| lia].
    destruct (toString_length_below_1000 (Format.milliseconds time)) as [A _]; [lia |].
    lia. }
  split; [reflexivity |]. split; [exact L2 |]. split; [exact L3 |].
  unfold Format.formatTime. fold ss mmm.
  rewrite !string_length_append, L2, L3. simpl. lia.
Qed.

Lemma formatTime_layout_witness :
  Format.formatTime 65.5 = "1:05.500"%string
  /\ String.length (Format.formatTime 65.5) = 8%nat.
Proof.
  split; [reflexivity |].
  apply (proj2 (proj2 (proj2 (formatTime_layout 65.5 ltac:(vm_compute; discriminate))))).
Defined.

(** ** The leaderboard *)

Module LeaderboardFacts.
Import Leaderboard.

Lemma insert_perm (a : LeaderboardEntry) (l : list LeaderboardEntry) :
  Permutation (insert a l) (a :: l).
Proof.
  induction l as [| b l IH]; simpl; [reflexivity |].
  destruct (JS.gtb (score b - score a) 0); [| reflexivity].
  rewrite IH. apply perm_swap.
Qed.

Lemma sort_perm (l : list LeaderboardEntry) : Permutation (sort l) l.
Proof.
  induction l as [| a l IH]; simpl; [reflexivity |].
  rewrite insert_perm. now constructor.
Qed.

Lemma insert_descending (a : LeaderboardEntry) (l : list LeaderboardEntry) :
  descending l -> descending (insert a l).
Proof.
  unfold descending. induction l as [| b l IH]; intros H; simpl.
  - repeat constructor.
  - inversion H as [| ? ? Hl Hb]; subst.
    destruct (JS.gtb (score b - score a) 0) eqn:C.
    + apply ltb_true in C. constructor; [now apply IH |].
      assert (F : Forall (fun c => score c <= score b) (a :: l))
        by (constructor; [lra | exact Hb]).
      rewrite Forall_forall in *. intros x Hx. apply F.
      apply (Permutation_in x (insert_perm a l) Hx).
    + apply ltb_false in C. constructor; [exact H |].
      constructor; [lra |].
      eapply Forall_impl; [| exact Hb]. cbn. intros c Hc. lra.
Qed.

Lemma sort_descending (l : list LeaderboardEntry) : descending (sort l).
Proof.
  induction l as [| a l IH]; simpl; [constructor | now apply insert_descending].
Qed.

Lemma sort_length (l : list LeaderboardEntry) : List.length (sort l) = List.length l.
Proof. apply Permutation_length, sort_perm. Qed.

(** A list that is already in order, followed by an entry that beats none
    of it, is left as it is: ties keep their order of arrival. *)
Lemma sort_appended (l : list LeaderboardEntry) (a : LeaderboardEntry) :
  descending l -> Forall (fun e => score a <= score e) l ->
  sort (l ++ [a]) = l ++ [a].
Proof.
  unfold descending. induction l as [| b l IH]; intros H F; [reflexivity |].
  inversion H as [| ? ? Hl Hb]; subst. inversion F as [| ? ? Fb Fl]; subst.
  cbn [app sort]. rewrite IH by assumption.
  destruct l as [| c l]; cbn [app insert].
  - assert (C : JS.gtb (score a - score b) 0 = false) by (apply ltb_false; lra).
    now rewrite C.
  - inversion Hb as [| ? ? Hc _]; subst.
    assert (C : JS.gtb (score c - score b) 0 = false) by (apply ltb_false; lra).
    now rewrite C.
Qed.

Lemma rerank_length (i : Z) (l : list LeaderboardEntry) :
  List.length (rerank i l) = List.length l.
Proof. revert i. induction l as [| a l IH]; intros i; simpl; [| rewrite IH]; reflexivity. Qed.

Lemma rerank_nth (l : list LeaderboardEntry) (i : Z) (k : nat) (e : LeaderboardEntry) :
  nth_error (rerank i l) k = Some e ->
  rank e = (i + Z.of_nat k + 1)%Z
  /\ exists a, nth_error l k = Some a /\ same_entry a e.
Proof.
  revert i k. induction l as [| a l IH]; intros i k H.
  - destruct k; discriminate.
  - destruct k as [| k]; cbn [rerank nth_error] in H.
    + injection H as <-. cbn [rank]. split; [lia |].
      exists a. split; [reflexivity |]. repeat split.
    + destruct (IH _ _ H) as [R (b & B & S)]. split; [lia |].
      exists b. split; [exact B | exact S].
Qed.

Lemma rerank_Forall2 (l : list LeaderboardEntry) (i : Z) :
  Forall2 same_entry l (rerank i l).
Proof.
  revert i. induction l as [| a l IH]; intros i; cbn [rerank]; constructor.
  - repeat split.
  - apply IH.
Qed.

Lemma rerank_descending (l : list LeaderboardEntry) (i : Z) :
  descending l -> descending (rerank i l).
Proof.
  unfold descending. revert i. induction l as [| a l IH]; intros i H; cbn [rerank].
  - constructor.
  - inversion H as [| ? ? Hl Ha]; subst. constructor; [now apply IH |].
    cbn [score]. clear - Ha. revert i. induction Ha as [| b l Hb _ IHl]; intros i;
      cbn [rerank]; constructor; [exact Hb | apply IHl].
Qed.

Lemma descending_firstn (n : nat) (l : list LeaderboardEntry) :
  descending l -> descending (firstn n l).
Proof.
  unfold descending. revert n. induction l as [| a l IH]; intros n H.
  - rewrite firstn_nil. constructor.
  - destruct n as [| n]; [constructor |].
    inversion H as [| ? ? Hl Ha]; subst. cbn [firstn]. constructor; [now apply IH |].
    rewrite Forall_forall in *. intros x Hx. apply Ha.
    rewrite <- (firstn_skipn n l). apply in_or_app. now left.
Qed.

Lemma descending_split (l1 l2 : list LeaderboardEntry) :
  descending (l1 ++ l2) ->
  forall e d, In e l1 -> In d l2 -> score d <= score e.
Proof.
  unfold descending. induction l1 as [| a l1 IH]; intros H e d He Hd; [contradiction |].
  inversion H as [| ? ? Hl Ha]; subst. destruct He as [<- | He].
  - rewrite Forall_forall in Ha. apply Ha. apply in_or_app. now right.
  - now apply IH.
Qed.

End LeaderboardFacts.

(** X19: after [addScore], the board of the mode played has one entry more
    than before, but never more than 10; its entries carry the ranks 1, 2,
    3, ... in order; and the boards of the other modes are untouched. *)
Theorem leaderboard_size_and_ranks :
  forall (name : string) (now today : Z) (m : GameMode) (score time : Q)
         (prev : Leaderboard.LeaderboardData),
    let data := Leaderboard.addScore name now today m score time prev in
    List.length (data m) = Nat.min 10 (List.length (prev m) + 1)
    /\ (forall (k : nat) (e : Leaderboard.LeaderboardEntry),
           nth_error (data m) k = Some e -> Leaderboard.rank e = (Z.of_nat k + 1)%Z)
    /\ (forall key : GameMode, key <> m -> data key = prev key).
Proof.
  intros name now today m score time prev data. subst data.
  unfold Leaderboard.addScore.
  assert (E : Leaderboard.GameMode_eqb m m = true) by now destruct m.
  rewrite E. split; [| split].
  - rewrite LeaderboardFacts.rerank_length, length_firstn, LeaderboardFacts.sort_length,
      length_app.
    reflexivity.
  - intros k e H. apply LeaderboardFacts.rerank_nth in H as [R _]. lia.
  - intros key N.
    assert (F : Leaderboard.GameMode_eqb key m = false)
      by (destruct key, m; try reflexivity; now contradiction N).
    now rewrite F.
Qed.

Lemma leaderboard_size_and_ranks_witness :
  Leaderboard.addScore "" 1 1 classic 500 30 Leaderboard.clearLeaderboard endless = [].
Proof.
  apply (proj2 (proj2 (leaderboard_size_and_ranks "" 1 1 classic 500 30
                                                  Leaderboard.clearLeaderboard))).
  discriminate.
Defined.

(** X20: after [addScore], the board of the mode played is in descending
    order of score, whatever the order before, and it holds the best of the
    old entries and the new one: apart from their ranks, its entries are a
    part of them, and every entry left out has a score no greater than any
    entry kept. *)
Theorem leaderboard_keeps_the_best :
  forall (name : string) (now today : Z) (m : GameMode) (score time : Q)
         (prev : Leaderboard.LeaderboardData),
    let data := Leaderboard.addScore name now today m score time prev in
    let entry := Leaderboard.newEntry name now today m score time in
    Leaderboard.descending (data m)
    /\ exists kept dropped : list Leaderboard.LeaderboardEntry,
        Permutation (kept ++ dropped) (prev m ++ [entry])
        /\ Forall2 Leaderboard.same_entry kept (data m)
        /\ (forall e d, In e kept -> In d dropped ->
                        Leaderboard.score d <= Leaderboard.score e).
Proof.
  intros name now today m score time prev data entry. subst data.
  unfold Leaderboard.addScore.
  assert (E : Leaderboard.GameMode_eqb m m = true) by now destruct m.
  rewrite E. fold entry. set (l := prev m ++ [entry]). split.
  - apply LeaderboardFacts.rerank_descending, LeaderboardFacts.descending_firstn,
      LeaderboardFacts.sort_descending.
  - exists (firstn 10 (Leaderboard.sort l)), (skipn 10 (Leaderboard.sort l)).
    split; [| split].
    + rewrite firstn_skipn. apply LeaderboardFacts.sort_perm.
    + apply LeaderboardFacts.rerank_Forall2.
    + apply LeaderboardFacts.descending_split. rewrite firstn_skipn.
      apply LeaderboardFacts.sort_descending.
Qed.

(** X21: a score that beats no entry of a full board does not enter it,
    ties included: if the board of the mode is in descending order, has 10
    entries and every one of them has at least the new score, [addScore]
    leaves its entries and their order as they are and only writes the
    ranks 1 to 10 again.  If the board has fewer than 10 entries, the new
    entry is always kept; a player without a name is entered as Anonymous. *)
Theorem leaderboard_full_board :
  forall (name : string) (now today : Z) (m : GameMode) (score time : Q)
         (prev : Leaderboard.LeaderboardData),
    let data := Leaderboard.addScore name now today m score time prev in
    let entry := Leaderboard.newEntry name now today m score time in
    (Leaderboard.descending (prev m) ->
     List.length (prev m) = 10%nat ->
     Forall (fun e => score <= Leaderboard.score e) (prev m) ->
     data m = Leaderboard.rerank 0 (prev m))
    /\ ((List.length (prev m) < 10)%nat ->
        exists e, In e (data m) /\ Leaderboard.same_entry entry e)
    /\ (name = ""%string -> Leaderboard.playerName entry = "Anonymous"%string).
Proof.
  intros name now today m score time prev data entry. subst data.
  unfold Leaderboard.addScore.
  assert (E : Leaderboard.GameMode_eqb m m = true) by now destruct m.
  rewrite E. fold entry. split; [| split].
  - intros D L F. rewrite LeaderboardFacts.sort_appended; [| exact D | exact F].
    f_equal. rewrite firstn_app, L, Nat.sub_diag, firstn_O, app_nil_r.
    apply firstn_all2. lia.
  - intros L.
    assert (W : firstn 10 (Leaderboard.sort (prev m ++ [entry]))
                = Leaderboard.sort (prev m ++ [entry])).
    { apply firstn_all2. rewrite LeaderboardFacts.sort_length, length_app. simpl. lia. }
    rewrite W.
    assert (I : In entry (Leaderboard.sort (prev m ++ [entry]))).
    { apply (Permutation_in (l := prev m ++ [entry]));
        [symmetry; apply LeaderboardFacts.sort_perm |].
      apply in_or_app. right. now left. }
    apply In_nth_error in I as [k K].
    pose proof (LeaderboardFacts.rerank_Forall2 (Leaderboard.sort (prev m ++ [entry])) 0) as F.
    clear W L. revert k K.
    induction F as [| a b la lb Hab _ IH]; intros k K; [destruct k; discriminate |].
    destruct k as [| k]; cbn [nth_error] in K.
    + injection K as ->. exists b. split; [now left | exact Hab].
    + destruct (IH k K) as (e & He & Se). exists e. split; [now right | exact Se].
  - intros ->. reflexivity.
Qed.

Lemma leaderboard_full_board_witness :
  Leaderboard.addScore "late" 2 2 classic 10 30 full_board classic
  = Leaderboard.rerank 0 (full_board classic)
  /\ Leaderboard.playerName (Leaderboard.newEntry "" 2 2 classic 10 30)
     = "Anonymous"%string.
Proof.
  split.
  - apply (proj1 (leaderboard_full_board "late" 2 2 classic 10 30 full_board)).
    + unfold Leaderboard.descending. vm_compute.
      repeat (constructor; try discriminate).
    + reflexivity.
    + vm_compute. repeat (constructor; try discriminate).
  - apply (proj2 (proj2 (leaderboard_full_board "" 2 2 classic 10 30 full_board))).
    reflexivity.
Defined.

(** ** The scenery *)

(** X22: the scrolling groups of the 3D scene stay in their windows: from
    their creation at depth 0, and for any frames in which speed times
    delta is not negative, the road lines stay within [-10, 2], the trees
    within [-50, 20], the clouds within [-80, 30] and the buildings within
    [-60, 25]. *)
Theorem scenery_stays_in_windows :
  forall frames : list (Q * Q),
    Forall (fun f => 0 <= fst f * snd f) frames ->
    in_windows (Road3D.scroll frames).
Proof.
  intros frames. unfold Road3D.scroll.
  assert (G : forall st, in_windows st ->
                         Forall (fun f => 0 <= fst f * snd f) frames ->
                         in_windows
                           (fold_left
                              (fun st f => (Road3D.roadLines (fst f) (snd f) (fst st),
                                            Road3D.environment (fst f) (snd f) (snd st)))
                              frames st)).
  { induction frames as [| [v d] frames IH]; intros st W F; [exact W |].
    inversion F as [| ? ? Fv Frest]; subst. cbn [fold_left]. apply IH; [| exact Frest].
    cbn [fst snd] in *. destruct st as [z p]. unfold in_windows in *.
    cbn [fst snd Road3D.environment Road3D.trees Road3D.clouds Road3D.buildings] in *.
    unfold Road3D.roadLines, JS.gtb.
    set (vd := v * d) in *.
    assert (E1 : v * d * 2 == vd * 2) by reflexivity.
    destruct W as ((? & ?) & (? & ?) & (? & ?) & (? & ?)).
    repeat split; compare_cases; nra. }
  intros F. apply G; [| exact F].
  unfold in_windows. cbn. repeat split; lra.
Qed.

Lemma scenery_stays_in_windows_witness :
  in_windows (Road3D.scroll [(5, 1 # 60); (20, 1 # 30); (12, 1 # 60)]).
Proof.
  apply scenery_stays_in_windows. repeat constructor; vm_compute; discriminate.
Defined.

(** ** Blocking enemies and the middle of the road *)

Lemma playerLane_in_lanes (x : Q) :
  -3 <= x -> x < 3 -> (0 <= JS.round ((x + 2) / 2) < 3)%Z.
Proof.
  intros L H. unfold JS.round. apply floor_bounds.
  - assert (E : (x + 2) / 2 + 0.5 == x * 0.5 + 1.5) by field. lra.
  - change (inject_Z 3) with 3.
    assert (E : (x + 2) / 2 + 0.5 == x * 0.5 + 1.5) by field. lra.
Qed.

(** X23: the enemies stay in their lanes while the player keeps to the
    middle of the road.  In every mode of the 3D loop, competition
    included, a frame in which [Math.random] keeps to [0, 1) and the
    player's new lateral position lies in [-3, 3) leaves every enemy in a
    lane, if every enemy was in a lane before. *)
Theorem lanes_kept_in_the_middle :
  forall (i : Input) (s : RacingGame3D.GameState),
    unit_interval (rnd i) ->
    -3 <= RacingGame3D.playerX (fst (RacingGame3D.gameLoop i s)) ->
    RacingGame3D.playerX (fst (RacingGame3D.gameLoop i s)) < 3 ->
    forallb inLane (RacingGame3D.enemies s) = true ->
    forallb inLane (RacingGame3D.enemies (fst (RacingGame3D.gameLoop i s))) = true.
Proof.
  intros i s R L H F.
  cbn [RacingGame3D.gameLoop fst RacingGame3D.playerX RacingGame3D.enemies] in *.
  apply forallb_forall, Forall_forall. rewrite forallb_forall in F.
  unfold RacingGame3D.newEnemies. apply mapM_Forall. intros e n' Hin.
  specialize (F e Hin).
  set (px := RacingGame3D.newPlayerX (keys i) s) in *.
  pose proof (playerLane_in_lanes px L H) as PL.
  unfold RacingGame3D.updateEnemy.
  destruct (JS.gtb (RacingGame3D.e_z e + RacingGame3D.e_speed e) 15).
  - cbn [bind random ret fst]. apply (Invariants3D.inLane_random (rnd i (S n'))), R.
  - assert (K : inLane {| RacingGame3D.e_x := RacingGame3D.e_x e;
                          RacingGame3D.e_z := RacingGame3D.e_z e + RacingGame3D.e_speed e;
                          RacingGame3D.e_speed := RacingGame3D.e_speed e;
                          RacingGame3D.e_lane := RacingGame3D.e_lane e;
                          RacingGame3D.e_color := RacingGame3D.e_color e;
                          RacingGame3D.e_aggressiveness
                          := RacingGame3D.e_aggressiveness e |} = true).
    { apply Invariants3D.inLane_spec. apply Invariants3D.inLane_spec in F. exact F. }
    assert (S : inLane {| RacingGame3D.e_x
                          := JS.index RacingGame3D.LANES (JS.round ((px + 2) / 2));
                          RacingGame3D.e_z := RacingGame3D.e_z e + RacingGame3D.e_speed e;
                          RacingGame3D.e_speed := RacingGame3D.e_speed e;
                          RacingGame3D.e_lane := JS.round ((px + 2) / 2);
                          RacingGame3D.e_color := RacingGame3D.e_color e;
                          RacingGame3D.e_aggressiveness
                          := RacingGame3D.e_aggressiveness e |} = true).
    { apply Invariants3D.inLane_spec. cbn [RacingGame3D.e_lane RacingGame3D.e_x].
      split; [exact PL |].
      assert (JS.round ((px + 2) / 2) = 0 \/ JS.round ((px + 2) / 2) = 1
              \/ JS.round ((px + 2) / 2) = 2)%Z
        as [-> | [-> | ->]] by lia; eexists; split; reflexivity. }
    repeat first
      [ progress cbn [bind random ret fst]
      | match goal with
        | |- context [if ?c then _ else _] => destruct c
        end ];
      first [exact K | exact S].
Qed.

Lemma lanes_kept_in_the_middle_witness :
  forallb inLane
          (RacingGame3D.enemies (fst (RacingGame3D.gameLoop calm pileup_start))) = true.
Proof.
  apply (lanes_kept_in_the_middle calm pileup_start).
  - intros n. split; [vm_compute; discriminate | reflexivity].
  - vm_compute. discriminate.
  - reflexivity.
  - reflexivity.
Defined.
